(** * AI Crop Recommendation: the advisory computations and their properties

    A shallow embedding of the computational core of the dashboard:
    - [CropPrediction.tsx]: nearest-match classifier, rule-based fallback,
      risk level, yield index and profitability index;
    - [FertilizerRecommendation.tsx]: the fertilizer dosage planner;
    - [ProfitCalculator.tsx]: the profit analyzer;
    - the market trends page ([analyzeProfitability]).

    A JavaScript [number] is an IEEE 754 binary64 value; it is modelled by
    Rocq's primitive [float], which is the same format with the same
    round-to-nearest-even arithmetic, so that every definition below can be
    evaluated on concrete inputs and gives the value the page computes. *)

From Stdlib Require Import ZArith List Bool Ascii String Floats Lia.
From Stdlib Require Sorted Permutation DecimalString.
From Stdlib Require Uint63.
Import ListNotations.

Set Warnings "-inexact-float".

Local Open Scope float_scope.

(** ** JavaScript numbers and the builtins the pages call *)

Module JS.

Definition number := float.

(** ToBoolean on a number: [NaN], [+0] and [-0] are falsy. *)
Definition truthy (x : number) : bool := negb (is_nan x || is_zero x).

(** [x || y] on numbers. *)
Definition or_else (x y : number) : number := if truthy x then x else y.

(** A (small) integer as a number; exact below 2^53. *)
Definition of_Z (n : Z) : number :=
  if (n <? 0)%Z then - of_uint63 (Uint63.of_Z (- n)) else of_uint63 (Uint63.of_Z n).

Definition of_nat (n : nat) : number := of_Z (Z.of_nat n).

(** [Array.prototype.length] as a number. *)
Definition length {A} (l : list A) : number := of_nat (List.length l).

(** [Math.round x]: the integer nearest to [x], halves going up, that is
    floor (x + 1/2) computed exactly; [NaN], the infinities, the zeros and
    every value that is already an integer are returned unchanged, and a
    result that rounds to zero keeps the sign of [x]. *)
Definition Math_round (x : number) : number :=
  match Prim2SF x with
  | S754_finite s m e =>
      if (0 <=? e)%Z then x
      else
        let n := if s then Z.neg m else Z.pos m in
        let r := ((2 * n + 2 ^ (- e)) / 2 ^ (1 - e))%Z in
        if (r =? 0)%Z then (if s then neg_zero else zero) else of_Z r
  | _ => x
  end.

(** [Math.max] and [Math.min] on two arguments. *)
Definition Math_max (x y : number) : number :=
  if is_nan x || is_nan y then nan
  else if x <? y then y
  else if y <? x then x
  else if is_zero x && get_sign x then y else x.

Definition Math_min (x y : number) : number :=
  if is_nan x || is_nan y then nan
  else if x <? y then x
  else if y <? x then y
  else if is_zero x && get_sign x then x else y.

Definition Math_abs (x : number) : number := abs x.

Definition Math_sqrt (x : number) : number := sqrt x.

(** [String.prototype.toLowerCase] on the ASCII letters. *)
Definition lower_ascii (c : ascii) : ascii :=
  let n := nat_of_ascii c in
  if (65 <=? n)%nat && (n <=? 90)%nat then ascii_of_nat (n + 32) else c.

Fixpoint toLowerCase (s : string) : string :=
  match s with
  | EmptyString => EmptyString
  | String c s' => String (lower_ascii c) (toLowerCase s')
  end.

(** [Array.prototype.sort cmp]: a stable sort; [a] is placed before [b]
    unless [cmp a b] is positive (a [NaN] result counts as [+0]).
    Insertion from the right keeps the elements that compare equal in
    their original order. *)
Section Sort.
Context {A : Type} (cmp : A -> A -> number).

Fixpoint insert (x : A) (l : list A) : list A :=
  match l with
  | [] => [x]
  | y :: l' => if 0 <? cmp x y then y :: insert x l' else x :: l
  end.

Fixpoint sort (l : list A) : list A :=
  match l with
  | [] => []
  | x :: l' => insert x (sort l')
  end.
End Sort.

(** [Array.prototype.slice a b]. *)
Definition slice {A} (a b : nat) (l : list A) : list A :=
  firstn (b - a) (skipn a l).

(** [String.prototype.toUpperCase] on the ASCII letters. *)
Definition upper_ascii (c : ascii) : ascii :=
  let n := nat_of_ascii c in
  if (97 <=? n)%nat && (n <=? 122)%nat then ascii_of_nat (n - 32) else c.

(** [s.charAt(0).toUpperCase() + s.slice(1)]. *)
Definition capitalize (s : string) : string :=
  match s with
  | EmptyString => EmptyString
  | String c s' => String (upper_ascii c) s'
  end.

(** [s.split(sep)] for a one-character separator: the pieces between the
    separators, one piece more than there are separators. *)
Fixpoint split (sep : ascii) (s : string) : list string :=
  match s with
  | EmptyString => [EmptyString]
  | String c s' =>
      if Ascii.eqb c sep then EmptyString :: split sep s'
      else match split sep s' with
           | w :: ws => String c w :: ws
           | [] => [String c EmptyString]
           end
  end.

(** An array length in a template literal: its decimal digits. *)
Definition count_to_string (n : nat) : string :=
  DecimalString.NilEmpty.string_of_uint (Nat.to_uint n).

End JS.

(** ** CropPrediction.tsx *)

Module CropPrediction.

Record SoilData := mkSoilData {
  temperature : JS.number;
  humidity : JS.number;
  ph : JS.number;
  rainfall : JS.number;
  nitrogen : JS.number;
  phosphorus : JS.number;
  potassium : JS.number
}.

(** A row of the [crop_dataset] table. *)
Module Crop.
Record t := mk {
  crop_label : string;
  temperature : JS.number;
  humidity : JS.number;
  ph : JS.number;
  rainfall : JS.number;
  nitrogen : JS.number;
  phosphorus : JS.number;
  potassium : JS.number
}.
End Crop.

Inductive RiskLevel := low | medium | high.

(** What [await supabase.from('crop_dataset').select('*')] gives: the
    promise is rejected, or it resolves to [{ data, error }]. *)
Record Response := mkResponse {
  data : option (list Crop.t);
  error : option string
}.

Inductive Fetched := Rejected | Resolved (r : Response).

Section Classifier.
(** [Math.pow] is implementation-approximated in ECMAScript; the
    classifier is kept generic in it. *)
Variable Math_pow : JS.number -> JS.number -> JS.number.

Definition distance (data : SoilData) (crop : Crop.t) : JS.number :=
  JS.Math_sqrt (
    Math_pow (data.(temperature) - crop.(Crop.temperature)) 2 +
    Math_pow (data.(humidity) - crop.(Crop.humidity)) 2 +
    Math_pow (data.(ph) - crop.(Crop.ph)) 2 +
    Math_pow (data.(rainfall) - crop.(Crop.rainfall)) 2 +
    Math_pow (data.(nitrogen) - crop.(Crop.nitrogen)) 2 +
    Math_pow (data.(phosphorus) - crop.(Crop.phosphorus)) 2 +
    Math_pow (data.(potassium) - crop.(Crop.potassium)) 2).

(** The body of the [forEach]: the state is [(bestMatch, minDistance)]. *)
Definition visit (data : SoilData) (st : option Crop.t * JS.number) (crop : Crop.t)
  : option Crop.t * JS.number :=
  let d := distance data crop in
  if d <? snd st then (Some crop, d) else st.

(** [bestMatch] after the loop; [cropDataset[0]] is [undefined] (here
    [None]) on an empty array. *)
Definition bestMatch (data : SoilData) (cropDataset : list Crop.t) : option Crop.t :=
  fst (fold_left (visit data) cropDataset (hd_error cropDataset, infinity)).

(** The [try] block: [None] when it throws, either by the explicit
    [throw] or by reading [crop_label] of [undefined]. *)
Definition tryML (f : Fetched) (data : SoilData) : option string :=
  match f with
  | Rejected => None
  | Resolved r =>
      match r.(error), r.(CropPrediction.data) with
      | None, Some cropDataset =>
          option_map Crop.crop_label (bestMatch data cropDataset)
      | _, _ => None
      end
  end.

(** The [catch] block: the rule-based prediction. *)
Definition fallback (data : SoilData) : string :=
  if (50 <? data.(nitrogen)) && (30 <? data.(phosphorus)) && (40 <? data.(potassium))
  then "wheat"%string
  else if (30 <? data.(temperature)) && (70 <? data.(humidity)) && (150 <? data.(rainfall))
  then "rice"%string
  else if (6 <? data.(ph)) && (data.(ph) <? 7) && (35 <? data.(potassium))
  then "maize"%string
  else "cotton"%string.

Definition predictCropWithML (f : Fetched) (data : SoilData) : string :=
  match tryML f data with
  | Some label => label
  | None => fallback data
  end.
End Classifier.

(** The accumulated [riskScore] of [calculateRiskLevel]. *)
Definition riskScore (data : SoilData) : JS.number :=
  let riskScore := 0 in
  let riskScore :=
    if (data.(ph) <? 5.5) || (8.5 <? data.(ph)) then riskScore + 2 else riskScore in
  let riskScore :=
    if (35 <? data.(temperature)) || (data.(temperature) <? 10) then riskScore + 2 else riskScore in
  let riskScore :=
    if (data.(humidity) <? 30) || (90 <? data.(humidity)) then riskScore + 1 else riskScore in
  let riskScore :=
    if (data.(rainfall) <? 50) || (300 <? data.(rainfall)) then riskScore + 1 else riskScore in
  riskScore.

Definition calculateRiskLevel (data : SoilData) : RiskLevel :=
  let riskScore := riskScore data in
  if 4 <=? riskScore then high
  else if 2 <=? riskScore then medium
  else low.

Definition calculateYield (data : SoilData) (cropName : string) : JS.number :=
  let baseYield := 100 in
  let modifier := 1 in
  let name := JS.toLowerCase cropName in
  let modifier :=
    if String.eqb name "rice" then
      let modifier :=
        if (20 <=? data.(temperature)) && (data.(temperature) <=? 35) && (60 <? data.(humidity))
        then modifier * 1.3 else modifier in
      if 150 <? data.(rainfall) then modifier * 1.2 else modifier
    else if String.eqb name "wheat" then
      let modifier :=
        if (15 <=? data.(temperature)) && (data.(temperature) <=? 25)
        then modifier * 1.25 else modifier in
      if 40 <? data.(nitrogen) then modifier * 1.15 else modifier
    else if String.eqb name "maize" then
      let modifier :=
        if (18 <=? data.(temperature)) && (data.(temperature) <=? 32)
        then modifier * 1.2 else modifier in
      if 25 <? data.(phosphorus) then modifier * 1.1 else modifier
    else if String.eqb name "cotton" then
      let modifier :=
        if (25 <=? data.(temperature)) && (data.(temperature) <=? 35)
        then modifier * 1.15 else modifier in
      if 30 <? data.(potassium) then modifier * 1.1 else modifier
    else modifier in
  let modifier :=
    if (6 <=? data.(ph)) && (data.(ph) <=? 7.5) then modifier * 1.15
    else if (data.(ph) <? 5.5) || (8 <? data.(ph)) then modifier * 0.7
    else modifier in
  JS.Math_round (baseYield * modifier).

(** [baseProfitability[key] || 60].  The table is an object literal, so
    besides its four own keys a lookup also finds the two lower-case
    members every object inherits, [constructor] and [__proto__]; both
    are truthy and neither is a number, so the product below is [NaN]
    for them. *)
Definition baseProfitability (key : string) : JS.number :=
  if String.eqb key "rice" then 75
  else if String.eqb key "wheat" then 70
  else if String.eqb key "maize" then 65
  else if String.eqb key "cotton" then 80
  else if String.eqb key "constructor" || String.eqb key "__proto__" then nan
  else 60.

Definition calculateProfitabilityIndex (cropName : string) (yieldPrediction : JS.number)
  : JS.number :=
  let base := baseProfitability (JS.toLowerCase cropName) in
  let yieldFactor := yieldPrediction / 100 in
  JS.Math_round (base * yieldFactor).

(** The scorer's profitability index of a profile and a label, as
    [predictCrop] chains the two computations. *)
Definition profitabilityIndex (data : SoilData) (cropName : string) : JS.number :=
  calculateProfitabilityIndex cropName (calculateYield data cropName).

(** The fields of the form, [keyof SoilData]. *)
Inductive Field :=
| temperatureField | humidityField | phField | rainfallField
| nitrogenField | phosphorusField | potassiumField.

Definition Field_eq_dec (a b : Field) : {a = b} + {a <> b}.
Proof. decide equality. Defined.

Definition field_value (field : Field) (data : SoilData) : JS.number :=
  match field with
  | temperatureField => data.(temperature)
  | humidityField => data.(humidity)
  | phField => data.(ph)
  | rainfallField => data.(rainfall)
  | nitrogenField => data.(nitrogen)
  | phosphorusField => data.(phosphorus)
  | potassiumField => data.(potassium)
  end.

(** [{ ...prev, [field]: numValue }]. *)
Definition with_field (field : Field) (numValue : JS.number) (prev : SoilData) : SoilData :=
  match field with
  | temperatureField =>
      mkSoilData numValue prev.(humidity) prev.(ph) prev.(rainfall)
                 prev.(nitrogen) prev.(phosphorus) prev.(potassium)
  | humidityField =>
      mkSoilData prev.(temperature) numValue prev.(ph) prev.(rainfall)
                 prev.(nitrogen) prev.(phosphorus) prev.(potassium)
  | phField =>
      mkSoilData prev.(temperature) prev.(humidity) numValue prev.(rainfall)
                 prev.(nitrogen) prev.(phosphorus) prev.(potassium)
  | rainfallField =>
      mkSoilData prev.(temperature) prev.(humidity) prev.(ph) numValue
                 prev.(nitrogen) prev.(phosphorus) prev.(potassium)
  | nitrogenField =>
      mkSoilData prev.(temperature) prev.(humidity) prev.(ph) prev.(rainfall)
                 numValue prev.(phosphorus) prev.(potassium)
  | phosphorusField =>
      mkSoilData prev.(temperature) prev.(humidity) prev.(ph) prev.(rainfall)
                 prev.(nitrogen) numValue prev.(potassium)
  | potassiumField =>
      mkSoilData prev.(temperature) prev.(humidity) prev.(ph) prev.(rainfall)
                 prev.(nitrogen) prev.(phosphorus) numValue
  end.

(** The state the form starts from. *)
Definition initialSoilData : SoilData := mkSoilData 25 65 6.5 120 40 25 30.

Section Form.
(** [parseFloat], the number a text starts with, [NaN] when there is none. *)
Variable parseFloat : string -> JS.number.

(** The state after [handleInputChange field value]. *)
Definition handleInputChange (field : Field) (value : string) (prev : SoilData) : SoilData :=
  let numValue := JS.or_else (parseFloat value) 0 in
  with_field field numValue prev.
End Form.

Definition getProfitabilityColor (score : JS.number) : string :=
  if 80 <=? score then "text-success"
  else if 60 <=? score then "text-warning"
  else "text-destructive".

(** An entry of the [recommendations] of a prediction: a text, or a
    template literal around a number, kept as that number. *)
Inductive Note :=
| Plain (s : string)
| ExpectedYield (yieldPrediction : JS.number)
| ProfitabilityNote (profitabilityIndex : JS.number).

(** The field [profitabilityIndex] carries a trailing underscore here,
    the plain name being that of the scorer. *)
Record PredictionResult := mkPredictionResult {
  cropName : string;
  yieldPrediction : JS.number;
  riskLevel : RiskLevel;
  confidenceScore : JS.number;
  recommendations : list Note;
  profitabilityIndex_ : JS.number
}.

(** The prediction [predictCrop] stores with [setPrediction], from the
    outcome of the dataset request, the draw of [Math.random()] and the
    form state. *)
Definition predictCrop (Math_pow : JS.number -> JS.number -> JS.number)
    (f : Fetched) (random : JS.number) (soilData : SoilData) : PredictionResult :=
  let cropName := predictCropWithML Math_pow f soilData in
  let riskLevel := calculateRiskLevel soilData in
  let yieldPrediction := calculateYield soilData cropName in
  let confidenceScore := JS.Math_max 75 (JS.Math_min 98 (88 + random * 10)) in
  let profitabilityIndex := calculateProfitabilityIndex cropName yieldPrediction in
  let recommendations :=
    [ Plain (JS.capitalize cropName ++ " is highly suitable for your soil conditions");
      ExpectedYield yieldPrediction;
      (match riskLevel with
       | high => Plain "Consider soil amendment before planting"
       | _ => Plain "Soil conditions are favorable"
       end);
      ProfitabilityNote profitabilityIndex ] in
  {| cropName := JS.capitalize cropName;
     yieldPrediction := yieldPrediction;
     riskLevel := riskLevel;
     confidenceScore := confidenceScore;
     recommendations := recommendations;
     profitabilityIndex_ := profitabilityIndex |}.

End CropPrediction.

(** ** FertilizerRecommendation.tsx *)

Module FertilizerRecommendation.

Record FertilizerData := mkFertilizerData {
  nitrogen : JS.number;
  phosphorus : JS.number;
  potassium : JS.number;
  ph : JS.number;
  organicMatter : JS.number;
  cropType : string
}.

Inductive Priority := high | medium | low.

(** The [amount] string: either a literal, or a template literal
    [`${n} kg/hectare`], kept as the interpolated number and the text
    that follows it. *)
Inductive Amount :=
| Literal (s : string)
| Template (n : JS.number) (suffix : string).

Record Recommendation := mkRecommendation {
  type : string;
  amount : Amount;
  applicationMethod : string;
  timing : string;
  benefits : list string;
  priority : Priority
}.

Definition nitrogenRec (soilData : FertilizerData) : Recommendation := {|
  type := "Nitrogen Fertilizer (Urea)";
  amount := Template (JS.Math_round ((40 - soilData.(nitrogen)) * 2.5)) " kg/hectare";
  applicationMethod := "Split application: 50% at sowing, 50% at tillering";
  timing := "Pre-sowing and 4-6 weeks after sowing";
  benefits := ["Improved leaf growth"; "Better protein content"; "Enhanced yield"]%string;
  priority := if soilData.(nitrogen) <? 25 then high else medium
|}.

Definition phosphorusRec (soilData : FertilizerData) : Recommendation := {|
  type := "Phosphorus Fertilizer (DAP)";
  amount := Template (JS.Math_round ((30 - soilData.(phosphorus)) * 3)) " kg/hectare";
  applicationMethod := "Band placement near seed furrow";
  timing := "At sowing time";
  benefits := ["Better root development"; "Improved flowering"; "Enhanced seed formation"]%string;
  priority := if soilData.(phosphorus) <? 15 then high else medium
|}.

Definition potassiumRec (soilData : FertilizerData) : Recommendation := {|
  type := "Potassium Fertilizer (MOP)";
  amount := Template (JS.Math_round ((35 - soilData.(potassium)) * 2)) " kg/hectare";
  applicationMethod := "Broadcasting and incorporation";
  timing := "Pre-sowing preparation";
  benefits := ["Disease resistance"; "Drought tolerance"; "Better grain quality"]%string;
  priority := if soilData.(potassium) <? 20 then high else medium
|}.

Definition limeRec (soilData : FertilizerData) : Recommendation := {|
  type := "Lime Application";
  amount := Template (JS.Math_round ((6.5 - soilData.(ph)) * 500)) " kg/hectare";
  applicationMethod := "Broadcasting and deep incorporation";
  timing := "2-3 months before sowing";
  benefits := ["pH correction"; "Better nutrient availability"; "Improved soil structure"]%string;
  priority := high
|}.

Definition gypsumRec (soilData : FertilizerData) : Recommendation := {|
  type := "Gypsum Application";
  amount := Template (JS.Math_round ((soilData.(ph) - 7.5) * 300)) " kg/hectare";
  applicationMethod := "Surface application and irrigation";
  timing := "Before sowing season";
  benefits := ["pH reduction"; "Calcium supply"; "Soil structure improvement"]%string;
  priority := medium
|}.

Definition compostRec : Recommendation := {|
  type := "Organic Compost";
  amount := Literal "2-3 tons/hectare";
  applicationMethod := "Broadcasting and incorporation";
  timing := "During land preparation";
  benefits := ["Soil health improvement"; "Water retention"; "Microbial activity"]%string;
  priority := medium
|}.

Definition micronutrientRec : Recommendation := {|
  type := "Micronutrient Mix (Zn, Fe, Mn, B)";
  amount := Literal "5-10 kg/hectare";
  applicationMethod := "Soil application or foliar spray";
  timing := "At vegetative growth stage";
  benefits := ["Enzyme activation"; "Better photosynthesis"; "Quality improvement"]%string;
  priority := low
|}.

(** The array [recs] as the rules have pushed into it, before the sort. *)
Definition recs (soilData : FertilizerData) : list Recommendation :=
  (if soilData.(nitrogen) <? 40 then [nitrogenRec soilData] else []) ++
  (if soilData.(phosphorus) <? 30 then [phosphorusRec soilData] else []) ++
  (if soilData.(potassium) <? 35 then [potassiumRec soilData] else []) ++
  (if soilData.(ph) <? 6.0 then [limeRec soilData]
   else if 8.0 <? soilData.(ph) then [gypsumRec soilData] else []) ++
  (if soilData.(organicMatter) <? 3.0 then [compostRec] else []) ++
  [micronutrientRec].

Definition priorityOrder (p : Priority) : JS.number :=
  match p with high => 3 | medium => 2 | low => 1 end.

(** The comparator given to [sort]. *)
Definition byPriority (a b : Recommendation) : JS.number :=
  priorityOrder b.(priority) - priorityOrder a.(priority).

(** The list handed to [setRecommendations]. *)
Definition generateRecommendations (soilData : FertilizerData) : list Recommendation :=
  JS.sort byPriority (recs soilData).

(** The [soilConditions] a caller may pass to the component. *)
Record SoilConditions := mkSoilConditions {
  sc_temperature : JS.number;
  sc_humidity : JS.number;
  sc_ph : JS.number;
  sc_rainfall : JS.number;
  sc_nitrogen : JS.number;
  sc_phosphorus : JS.number;
  sc_potassium : JS.number
}.

(** [soilConditions?.f || d]. *)
Definition supplied (soilConditions : option SoilConditions)
    (f : SoilConditions -> JS.number) (d : JS.number) : JS.number :=
  match soilConditions with
  | Some c => JS.or_else (f c) d
  | None => d
  end.

(** The state the component starts from, given its two optional props;
    an empty string is falsy. *)
Definition initialSoilData (predictedCrop : option string)
    (soilConditions : option SoilConditions) : FertilizerData := {|
  nitrogen := supplied soilConditions sc_nitrogen 30;
  phosphorus := supplied soilConditions sc_phosphorus 20;
  potassium := supplied soilConditions sc_potassium 25;
  ph := supplied soilConditions sc_ph 6.5;
  organicMatter := 3.5;
  cropType :=
    match predictedCrop with
    | Some crop =>
        match JS.toLowerCase crop with
        | EmptyString => "wheat"
        | lowered => lowered
        end
    | None => "wheat"
    end
|}.

(** The fields of the form, [keyof FertilizerData]. *)
Inductive Field :=
| nitrogenField | phosphorusField | potassiumField | phField
| organicMatterField | cropTypeField.

Section Form.
(** [parseFloat], the number a text starts with, [NaN] when there is none. *)
Variable parseFloat : string -> JS.number.

(** The state after [handleInputChange field value]. *)
Definition handleInputChange (field : Field) (value : string) (prev : FertilizerData)
  : FertilizerData :=
  let numValue := JS.or_else (parseFloat value) 0 in
  match field with
  | cropTypeField =>
      mkFertilizerData prev.(nitrogen) prev.(phosphorus) prev.(potassium) prev.(ph)
                       prev.(organicMatter) value
  | nitrogenField =>
      mkFertilizerData numValue prev.(phosphorus) prev.(potassium) prev.(ph)
                       prev.(organicMatter) prev.(cropType)
  | phosphorusField =>
      mkFertilizerData prev.(nitrogen) numValue prev.(potassium) prev.(ph)
                       prev.(organicMatter) prev.(cropType)
  | potassiumField =>
      mkFertilizerData prev.(nitrogen) prev.(phosphorus) numValue prev.(ph)
                       prev.(organicMatter) prev.(cropType)
  | phField =>
      mkFertilizerData prev.(nitrogen) prev.(phosphorus) prev.(potassium) numValue
                       prev.(organicMatter) prev.(cropType)
  | organicMatterField =>
      mkFertilizerData prev.(nitrogen) prev.(phosphorus) prev.(potassium) prev.(ph)
                       numValue prev.(cropType)
  end.
End Form.

Definition getPriorityColor (priority : Priority) : string :=
  match priority with
  | high => "destructive"
  | medium => "warning"
  | low => "secondary"
  end.

End FertilizerRecommendation.

(** ** ProfitCalculator.tsx *)

Module ProfitCalculator.

Record CropInputs := mkCropInputs {
  cropType : string;
  areaInAcres : JS.number;
  expectedYield : JS.number;
  sellingPrice : JS.number;
  seedCost : JS.number;
  fertilizerCost : JS.number;
  laborCost : JS.number;
  irrigationCost : JS.number;
  otherCosts : JS.number
}.

Inductive Risk := low | medium | high.

(** A recommendation string: a literal, or the closing
    [`Break-even yield: ${x.toFixed(1)} quintals per acre`], kept as the
    number it prints. *)
Inductive Advice :=
| Text (s : string)
| BreakEvenYield (x : JS.number).

Record ProfitAnalysis := mkProfitAnalysis {
  totalRevenue : JS.number;
  totalCosts : JS.number;
  grossProfit : JS.number;
  profitMargin : JS.number;
  roiPercentage : JS.number;
  breakEvenPoint : JS.number;
  profitPerAcre : JS.number;
  riskAssessment : Risk;
  recommendations : list Advice
}.

(** The analysis [calculateProfit] stores with [setAnalysis]. *)
Definition calculateProfit (inputs : CropInputs) : ProfitAnalysis :=
  let totalRevenue := inputs.(areaInAcres) * inputs.(expectedYield) * inputs.(sellingPrice) in
  let totalCosts := inputs.(seedCost) + inputs.(fertilizerCost) + inputs.(laborCost) +
                    inputs.(irrigationCost) + inputs.(otherCosts) in
  let grossProfit := totalRevenue - totalCosts in
  let profitMargin := if 0 <? totalRevenue then (grossProfit / totalRevenue) * 100 else 0 in
  let roiPercentage := if 0 <? totalCosts then (grossProfit / totalCosts) * 100 else 0 in
  let breakEvenPoint :=
    if 0 <? inputs.(sellingPrice)
    then totalCosts / (inputs.(sellingPrice) * inputs.(areaInAcres)) else 0 in
  let profitPerAcre :=
    if 0 <? inputs.(areaInAcres) then grossProfit / inputs.(areaInAcres) else 0 in
  let riskAssessment :=
    if profitMargin <? 10 then high
    else if profitMargin <? 25 then medium
    else low in
  let recommendations :=
    [ if profitMargin <? 0
      then Text "Current projection shows losses. Consider cost optimization or crop change."
      else if profitMargin <? 15
      then Text "Low profit margins detected. Focus on reducing input costs."
      else Text "Good profit potential identified for this crop selection." ] ++
    (if roiPercentage <? 20
     then [Text "Consider crops with higher market demand for better returns."] else []) ++
    (if totalCosts * 0.4 <? inputs.(laborCost)
     then [Text "Labor costs are high. Consider mechanization opportunities."] else []) ++
    (if totalCosts * 0.3 <? inputs.(fertilizerCost)
     then [Text "Fertilizer costs are significant. Explore organic alternatives."] else []) ++
    [BreakEvenYield breakEvenPoint] in
  {| totalRevenue := totalRevenue;
     totalCosts := totalCosts;
     grossProfit := grossProfit;
     profitMargin := profitMargin;
     roiPercentage := roiPercentage;
     breakEvenPoint := breakEvenPoint;
     profitPerAcre := profitPerAcre;
     riskAssessment := riskAssessment;
     recommendations := recommendations |}.

End ProfitCalculator.

(** ** The market trends page (src/unnamed/part_000) *)

Module MarketTrends.

(** A row of the [market_prices] table, with the columns the page reads. *)
Record MarketPrice := mkMarketPrice {
  crop_name : string;
  price_per_kg : JS.number;
  market_location : string;
  price_date : string
}.

Inductive Trend := up | down | stable.

Record CropProfitability := mkCropProfitability {
  cropName : string;
  avgPrice : JS.number;
  trend : Trend;
  profitabilityScore : JS.number;
  marketCount : JS.number
}.

(** [l.reduce((sum, p) => sum + p.price_per_kg, 0)]. *)
Definition sumPrices (l : list MarketPrice) : JS.number :=
  fold_left (fun sum p => sum + p.(price_per_kg)) l 0.

(** *** The rows grouped by crop

    [cropGroups] is built by a [reduce] over the rows whose accumulator
    is the object literal [{}]: its own properties, in the order of their
    creation, are the groups, and behind them it has the members every
    object inherits from [Object.prototype]. *)

Definition Groups := list (string * list MarketPrice).

Definition inheritedMembers : list string :=
  ["constructor"; "hasOwnProperty"; "isPrototypeOf"; "propertyIsEnumerable";
   "toLocaleString"; "toString"; "valueOf"; "__defineGetter__";
   "__defineSetter__"; "__lookupGetter__"; "__lookupSetter__"; "__proto__"]%string.

Definition inherited (key : string) : bool :=
  existsb (String.eqb key) inheritedMembers.

(** [acc[key]] where [key] is an own property. *)
Fixpoint own (key : string) (acc : Groups) : option (list MarketPrice) :=
  match acc with
  | [] => None
  | (k, rows) :: acc' => if String.eqb k key then Some rows else own key acc'
  end.

(** [acc[key].push(price)] on an own property. *)
Fixpoint push (key : string) (price : MarketPrice) (acc : Groups) : Groups :=
  match acc with
  | [] => []
  | (k, rows) :: acc' =>
      if String.eqb k key then (k, rows ++ [price]) :: acc'
      else (k, rows) :: push key price acc'
  end.

(** One step of the [reduce].  An own property holds an array, which is
    truthy, and the row is pushed onto it.  An inherited member is
    truthy too, so that no array is created, and it has no [push]: the
    call throws a [TypeError], here [None].  Any other key gets a new
    array with the row. *)
Definition addPrice (acc : Groups) (price : MarketPrice) : option Groups :=
  let key := price.(crop_name) in
  match own key acc with
  | Some _ => Some (push key price acc)
  | None => if inherited key then None else Some (acc ++ [(key, [price])])
  end.

Definition cropGroups (prices : list MarketPrice) : option Groups :=
  fold_left (fun acc price =>
               match acc with
               | Some acc => addPrice acc price
               | None => None
               end)
            prices (Some []).

(** [Object.entries] lists the keys that are array indices (the decimal
    numerals of the integers up to 2^32 - 2) in ascending order, and
    after them the other keys in the order of their creation. *)
Definition digit (c : ascii) : option N :=
  let n := nat_of_ascii c in
  if (48 <=? n)%nat && (n <=? 57)%nat then Some (N.of_nat (n - 48)) else None.

Fixpoint decimal (acc : N) (s : string) : option N :=
  match s with
  | EmptyString => Some acc
  | String c s' =>
      match digit c with
      | Some d => decimal (10 * acc + d)%N s'
      | None => None
      end
  end.

Definition arrayIndex (key : string) : option N :=
  match key with
  | EmptyString => None
  | String c rest =>
      if Ascii.eqb c "0" && negb (String.eqb rest EmptyString) then None
      else match decimal 0 key with
           | Some n => if (n <=? 4294967294)%N then Some n else None
           | None => None
           end
  end.

Definition indexed (acc : Groups) : list (N * (string * list MarketPrice)) :=
  flat_map (fun kv => match arrayIndex (fst kv) with
                      | Some n => [(n, kv)]
                      | None => []
                      end) acc.

Definition named (acc : Groups) : Groups :=
  filter (fun kv => match arrayIndex (fst kv) with
                    | Some _ => false
                    | None => true
                    end) acc.

Fixpoint insertIndex (e : N * (string * list MarketPrice))
    (l : list (N * (string * list MarketPrice))) :=
  match l with
  | [] => [e]
  | e' :: l' => if (fst e <? fst e')%N then e :: l else e' :: insertIndex e l'
  end.

Definition entries (acc : Groups) : Groups :=
  map snd (fold_right insertIndex [] (indexed acc)) ++ named acc.

Section Analysis.
(** [new Date(s)] on a string: the milliseconds since the epoch that the
    engine reads from [s], or [None] where it reads no date. *)
Variable parseDate : string -> option Z.

(** [Array.prototype.sort].  With a comparison function that is not
    consistent (one that returns [NaN] for some pairs and not for
    others, say) the order of the result is left to the engine, so the
    engine's sort is a parameter of the page; for a consistent
    comparison function every engine computes what [JS.sort] does. *)
Variable sort : forall A : Type, (A -> A -> JS.number) -> list A -> list A.

(** A time value is an integral number of at most 8.64e15 in absolute
    value; beyond that the date is invalid. *)
Definition timeClip (t : Z) : option Z :=
  if (Z.abs t <=? 8640000000000000)%Z then Some t else None.

(** [new Date(s).getTime()], [None] standing for the [NaN] of an invalid
    date. *)
Definition getTime (s : string) : option Z :=
  match parseDate s with
  | Some t => timeClip t
  | None => None
  end.

(** [new Date(b.price_date).getTime() - new Date(a.price_date).getTime()]:
    the two time values are integers below 2^53, hence exact, and their
    difference as numbers is their difference as integers, rounded. *)
Definition byDateDesc (a b : MarketPrice) : JS.number :=
  match getTime b.(price_date), getTime a.(price_date) with
  | Some tb, Some ta => JS.of_Z (tb - ta)
  | _, _ => nan
  end.

Definition sortedPrices (cropPrices : list MarketPrice) : list MarketPrice :=
  sort _ byDateDesc cropPrices.

(** [sortedPrices[0]?.price_per_kg || 0]. *)
Definition latestPrice (cropPrices : list MarketPrice) : JS.number :=
  match sortedPrices cropPrices with
  | p :: _ => JS.or_else p.(price_per_kg) 0
  | [] => 0
  end.

Definition olderAvg (cropPrices : list MarketPrice) : JS.number :=
  let older := JS.slice 1 4 (sortedPrices cropPrices) in
  sumPrices older / JS.Math_max 1 (JS.length older).

Definition trendOf (cropPrices : list MarketPrice) : Trend :=
  let latestPrice := latestPrice cropPrices in
  let olderAvg := olderAvg cropPrices in
  if olderAvg * 1.05 <? latestPrice then up
  else if latestPrice <? olderAvg * 0.95 then down
  else stable.

(** The callback mapped over the entries [[cropName, cropPrices]] of
    [cropGroups].  The average is taken over the rows in the order of
    the fetch, before the sort reorders the array. *)
Definition analyzeCrop (cropName : string) (cropPrices : list MarketPrice)
  : CropProfitability :=
  let avgPrice := sumPrices cropPrices / JS.length cropPrices in
  let latestPrice := latestPrice cropPrices in
  let trend := trendOf cropPrices in
  let priceScore := JS.Math_min 100 ((avgPrice / 10) * 20) in
  let stabilityScore :=
    JS.Math_max 0 (100 - (JS.Math_abs (latestPrice - avgPrice) / avgPrice * 100)) in
  let profitabilityScore := JS.Math_round ((priceScore + stabilityScore) / 2) in
  {| cropName := cropName;
     avgPrice := JS.Math_round (avgPrice * 100) / 100;
     trend := trend;
     profitabilityScore := profitabilityScore;
     marketCount :=
       JS.length (nodup string_dec (map market_location cropPrices)) |}.

Definition byScore (a b : CropProfitability) : JS.number :=
  b.(profitabilityScore) - a.(profitabilityScore).

(** [analyzeProfitability]: the ranking handed to [setProfitability], or
    [None] when the grouping throws. *)
Definition analyzeProfitability (prices : list MarketPrice)
  : option (list CropProfitability) :=
  match cropGroups prices with
  | Some groups =>
      Some (sort _ byScore
              (map (fun kv => analyzeCrop (fst kv) (snd kv)) (entries groups)))
  | None => None
  end.

(** The answer of the query: [None] when the request is rejected. *)
Record Response := mkResponse {
  data : option (list MarketPrice);
  error : option string
}.

(** The two pieces of state the page shows. *)
Record Page := mkPage {
  marketPrices : list MarketPrice;
  profitability : list CropProfitability
}.

Definition initialPage : Page := mkPage [] [].

(** [loadMarketData]: an error of the query, a rejected request and an
    exception of the analysis all end in the [catch], which shows a
    toast and sets no state; the prices are set before the analysis
    runs. *)
Definition loadMarketData (fetched : option Response) (page : Page) : Page :=
  match fetched with
  | Some r =>
      match r.(error) with
      | Some _ => page
      | None =>
          let prices := match r.(data) with Some rows => rows | None => [] end in
          match analyzeProfitability prices with
          | Some analysis => mkPage prices analysis
          | None => mkPage prices page.(profitability)
          end
      end
  | None => page
  end.
End Analysis.

End MarketTrends.

(** ** The rule-based crop prediction page (src/unnamed/part_001)

    The variant of the prediction page that uses no dataset.  Its form
    state is the [SoilData] of [CropPrediction.tsx] and its
    [calculateRiskLevel] is the same function, so both are shared. *)

Module CropPredictionRules.
Import CropPrediction.

Definition getPredictedCrop (data : SoilData) : string :=
  if (50 <? data.(nitrogen)) && (30 <? data.(phosphorus)) && (40 <? data.(potassium))
  then "Wheat"
  else if (30 <? data.(temperature)) && (70 <? data.(humidity)) && (150 <? data.(rainfall))
  then "Rice"
  else if (6 <? data.(ph)) && (data.(ph) <? 7) && (35 <? data.(potassium))
  then "Corn"
  else if (45 <? data.(nitrogen)) && (6.5 <? data.(ph))
  then "Soybeans"
  else if (data.(temperature) <? 25) && (40 <? data.(nitrogen))
  then "Barley"
  else "Mixed Crops".

Definition calculateYield (data : SoilData) : JS.number :=
  let baseYield := 100 in
  let modifier := 1 in
  let modifier :=
    if (20 <=? data.(temperature)) && (data.(temperature) <=? 30) then modifier * 1.2
    else if (data.(temperature) <? 15) || (35 <? data.(temperature)) then modifier * 0.8
    else modifier in
  let modifier :=
    if (6 <=? data.(ph)) && (data.(ph) <=? 7) then modifier * 1.15
    else if (data.(ph) <? 5.5) || (8 <? data.(ph)) then modifier * 0.7
    else modifier in
  let avgNutrient := (data.(nitrogen) + data.(phosphorus) + data.(potassium)) / 3 in
  let modifier :=
    if 40 <? avgNutrient then modifier * 1.1
    else if avgNutrient <? 25 then modifier * 0.85
    else modifier in
  JS.Math_round (baseYield * modifier).

Record PredictionResult := mkPredictionResult {
  crop : string;
  yieldPrediction : JS.number;
  riskLevel : RiskLevel;
  confidenceScore : JS.number;
  recommendations : list string
}.

(** The prediction [predictCrop] stores, from the draw of
    [Math.random()] and the form state. *)
Definition predictCrop (random : JS.number) (soilData : SoilData) : PredictionResult :=
  let crop := getPredictedCrop soilData in
  let riskLevel := calculateRiskLevel soilData in
  let yieldPrediction := calculateYield soilData in
  let confidenceScore := JS.Math_max 65 (JS.Math_min 95 (85 + random * 10)) in
  let recommendations :=
    [ "Optimal growing conditions detected for " ++ crop;
      "Maintain current nutrient levels";
      match riskLevel with
      | high => "Consider risk mitigation strategies"
      | _ => "Continue current practices"
      end ]%string in
  {| crop := crop;
     yieldPrediction := yieldPrediction;
     riskLevel := riskLevel;
     confidenceScore := confidenceScore;
     recommendations := recommendations |}.

(** The props the page hands to [FertilizerRecommendation] once it has a
    prediction: [predictedCrop={prediction.crop} soilConditions={soilData}]. *)
Definition fertilizerProps (prediction : PredictionResult) (soilData : SoilData)
  : option string * option FertilizerRecommendation.SoilConditions :=
  (Some prediction.(crop),
   Some (FertilizerRecommendation.mkSoilConditions
           soilData.(temperature) soilData.(humidity) soilData.(ph) soilData.(rainfall)
           soilData.(nitrogen) soilData.(phosphorus) soilData.(potassium))).

End CropPredictionRules.

(** ** WeatherForecast.tsx *)

Module WeatherForecast.

Inductive Condition := sunny | cloudy | rainy | stormy.

Record Temperature := mkTemperature { min : JS.number; max : JS.number }.

Record WeatherData := mkWeatherData {
  date : string;
  temperature : Temperature;
  humidity : JS.number;
  rainfall : JS.number;
  windSpeed : JS.number;
  condition : Condition;
  uvIndex : JS.number
}.

Inductive AlertType := warning | info | success.

Record FarmingAlert := mkFarmingAlert {
  type : AlertType;
  message : string;
  recommendation : string
}.

(** The four filters of [generateFarmingAlerts]. *)
Definition heavyRainDay (day : WeatherData) : bool := 10 <? day.(rainfall).

Definition hotDay (day : WeatherData) : bool := 35 <? day.(temperature).(max).

Definition goodDay (day : WeatherData) : bool :=
  (day.(temperature).(max) <=? 30) &&
  (15 <=? day.(temperature).(min)) &&
  (day.(rainfall) <? 5) &&
  (match day.(condition) with sunny => true | _ => false end).

Definition dryDay (day : WeatherData) : bool := day.(rainfall) <? 1.

(** An array length is a non-negative integer, compared as such. *)
Definition generateFarmingAlerts (forecast : list WeatherData) : list FarmingAlert :=
  let heavyRainDays := filter heavyRainDay forecast in
  let hotDays := filter hotDay forecast in
  let goodDays := filter goodDay forecast in
  let dryDays := filter dryDay forecast in
  (if (0 <? List.length heavyRainDays)%nat
   then [ {| type := warning;
             message := "Heavy rainfall expected on "
                        ++ JS.count_to_string (List.length heavyRainDays) ++ " day(s)";
             recommendation :=
               "Ensure proper drainage and consider delaying planting activities" |} ]
   else []) ++
  (if (0 <? List.length hotDays)%nat
   then [ {| type := warning;
             message := "High temperatures (>35°C) expected";
             recommendation :=
               "Increase irrigation frequency and provide shade for sensitive crops" |} ]
   else []) ++
  (if (3 <=? List.length goodDays)%nat
   then [ {| type := success;
             message := JS.count_to_string (List.length goodDays)
                        ++ " days of optimal farming conditions ahead";
             recommendation :=
               "Ideal time for planting, harvesting, and field maintenance activities" |} ]
   else []) ++
  (if (5 <=? List.length dryDays)%nat
   then [ {| type := info;
             message := "Extended dry period expected";
             recommendation :=
               "Plan irrigation schedule and consider drought-resistant crop varieties" |} ]
   else []).

Definition getAlertColor (type : AlertType) : string :=
  match type with
  | warning => "destructive"
  | success => "success"
  | info => "secondary"
  end.

End WeatherForecast.

(** ** Navigation.tsx and the index page *)

Module Index.

Inductive Page :=
| homePage | cropPredictionPage | weatherForecastPage | profitCalculatorPage
| marketTrendsPage.

(** The component [renderContent] returns for the active tab. *)
Definition renderContent (activeTab : string) : Page :=
  if String.eqb activeTab "home" then homePage
  else if String.eqb activeTab "prediction" then cropPredictionPage
  else if String.eqb activeTab "weather" then weatherForecastPage
  else if String.eqb activeTab "profit" then profitCalculatorPage
  else if String.eqb activeTab "market" then marketTrendsPage
  else homePage.

(** The [id]s of the [navItems] of the navigation bar. *)
Definition navItems : list string := ["home"; "prediction"; "fertilizer"; "market"]%string.

(** The tabs the home page navigates to ([onNavigate]). *)
Definition homeTargets : list string := ["prediction"; "weather"; "profit"]%string.

End Index.

(** ** lib/i18n.ts *)

Module I18n.
Local Open Scope string_scope.

Inductive Language := en | hi | te.

(** A value of the [translations] object: a string, or an object with
    its own keys in source order. *)
#[warnings="-register-all"]
Inductive Node :=
| Text (s : string)
| Object (fields : list (string * Node)).

Definition translations_en : Node :=
  Object [
    ("common", Object [
      ("language", Text "Language");
      ("loading", Text "Loading...");
      ("error", Text "Error");
      ("success", Text "Success");
      ("save", Text "Save");
      ("cancel", Text "Cancel");
      ("back", Text "Back");
      ("next", Text "Next");
      ("home", Text "Home") ]);
    ("navigation", Object [
      ("dashboard", Text "Dashboard");
      ("cropPrediction", Text "Crop Prediction");
      ("fertilizer", Text "Fertilizer Recommendation");
      ("marketTrends", Text "Market Trends");
      ("profile", Text "Profile") ]);
    ("home", Object [
      ("title", Text "CropWise AI Guidance");
      ("subtitle", Text "Intelligent farming solutions powered by AI");
      ("description", Text "Get AI-powered crop recommendations, yield predictions, and fertilizer suggestions to maximize your agricultural success.");
      ("getStarted", Text "Get Started") ]);
    ("cropPrediction", Object [
      ("title", Text "AI Crop Yield & Risk Prediction");
      ("subtitle", Text "Get accurate predictions with confidence scores");
      ("temperature", Text "Temperature (°C)");
      ("humidity", Text "Humidity (%)");
      ("ph", Text "pH Level");
      ("rainfall", Text "Rainfall (mm)");
      ("nitrogen", Text "Nitrogen (N)");
      ("phosphorus", Text "Phosphorus (P)");
      ("potassium", Text "Potassium (K)");
      ("predict", Text "Predict Crop");
      ("riskLevel", Text "Risk Level");
      ("yieldPrediction", Text "Expected Yield");
      ("confidenceScore", Text "Confidence Score");
      ("low", Text "Low");
      ("medium", Text "Medium");
      ("high", Text "High") ]);
    ("fertilizer", Object [
      ("title", Text "Smart Fertilizer Recommendation");
      ("subtitle", Text "Get personalized fertilizer suggestions based on soil analysis");
      ("soilAnalysis", Text "Soil Analysis");
      ("recommendation", Text "Recommendation");
      ("getRecommendation", Text "Get Recommendation") ]);
    ("market", Object [
      ("title", Text "Market Trends & Profitability");
      ("subtitle", Text "Analyze market prices and profitability for better crop selection");
      ("pricePerKg", Text "Price per kg");
      ("marketLocation", Text "Market Location");
      ("priceDate", Text "Price Date");
      ("profitability", Text "Profitability Score") ]) ].

Definition translations_hi : Node :=
  Object [
    ("common", Object [
      ("language", Text "भाषा");
      ("loading", Text "लोड हो रहा है...");
      ("error", Text "त्रुटि");
      ("success", Text "सफलता");
      ("save", Text "सेव करें");
      ("cancel", Text "रद्द करें");
      ("back", Text "वापस");
      ("next", Text "अगला");
      ("home", Text "होम") ]);
    ("navigation", Object [
      ("dashboard", Text "डैशबोर्ड");
      ("cropPrediction", Text "फसल भविष्यवाणी");
      ("fertilizer", Text "उर्वरक सुझाव");
      ("marketTrends", Text "बाजार के रुझान");
      ("profile", Text "प्रोफ़ाइल") ]);
    ("home", Object [
      ("title", Text "क्रॉपवाइज़ एआई गाइडेंस");
      ("subtitle", Text "एआई द्वारा संचालित बुद्धिमान कृषि समाधान");
      ("description", Text "अपनी कृषि सफलता को अधिकतम करने के लिए एआई-संचालित फसल सिफारिशें, उपज भविष्यवाणी और उर्वरक सुझाव प्राप्त करें।");
      ("getStarted", Text "शुरू करें") ]);
    ("cropPrediction", Object [
      ("title", Text "एआई फसल उपज और जोखिम भविष्यवाणी");
      ("subtitle", Text "विश्वसनीयता स्कोर के साथ सटीक भविष्यवाणी प्राप्त करें");
      ("temperature", Text "तापमान (°C)");
      ("humidity", Text "आर्द्रता (%)");
      ("ph", Text "पीएच स्तर");
      ("rainfall", Text "वर्षा (मिमी)");
      ("nitrogen", Text "नाइट्रोजन (N)");
      ("phosphorus", Text "फास्फोरस (P)");
      ("potassium", Text "पोटेशियम (K)");
      ("predict", Text "फसल की भविष्यवाणी करें");
      ("riskLevel", Text "जोखिम स्तर");
      ("yieldPrediction", Text "अपेक्षित उपज");
      ("confidenceScore", Text "विश्वसनीयता स्कोर");
      ("low", Text "कम");
      ("medium", Text "मध्यम");
      ("high", Text "उच्च") ]);
    ("fertilizer", Object [
      ("title", Text "स्मार्ट उर्वरक सिफारिश");
      ("subtitle", Text "मिट्टी विश्लेषण के आधार पर व्यक्तिगत उर्वरक सुझाव प्राप्त करें");
      ("soilAnalysis", Text "मिट्टी विश्लेषण");
      ("recommendation", Text "सिफारिश");
      ("getRecommendation", Text "सिफारिश प्राप्त करें") ]);
    ("market", Object [
      ("title", Text "बाजार के रुझान और लाभप्रदता");
      ("subtitle", Text "बेहतर फसल चयन के लिए बाजार कीमतों और लाभप्रदता का विश्लेषण करें");
      ("pricePerKg", Text "प्रति किलो कीमत");
      ("marketLocation", Text "बाजार स्थान");
      ("priceDate", Text "कीमत की तारीख");
      ("profitability", Text "लाभप्रदता स्कोर") ]) ].

Definition translations_te : Node :=
  Object [
    ("common", Object [
      ("language", Text "భాష");
      ("loading", Text "లోడ్ అవుతోంది...");
      ("error", Text "లోపం");
      ("success", Text "విజయం");
      ("save", Text "సేవ్ చేయండి");
      ("cancel", Text "రద్దు చేయండి");
      ("back", Text "వెనుకకు");
      ("next", Text "తదుపరి");
      ("home", Text "హోమ్") ]);
    ("navigation", Object [
      ("dashboard", Text "డాష్‌బోర్డ్");
      ("cropPrediction", Text "పంట అంచనా");
      ("fertilizer", Text "ఎరువుల సిఫార్సు");
      ("marketTrends", Text "మార్కెట్ ట్రెండ్స్");
      ("profile", Text "ప్రొఫైల్") ]);
    ("home", Object [
      ("title", Text "క్రాప్‌వైజ్ ఏఐ గైడెన్స్");
      ("subtitle", Text "ఏఐ ద్వారా శక్తివంతమైన తెలివైన వ్యవసాయ పరిష్కారాలు");
      ("description", Text "మీ వ్యవసాయ విజయాన్ని గరిష్టీకరించడానికి ఏఐ-శక్తితో కూడిన పంట సిఫార్సులు, దిగుబడి అంచనాలు మరియు ఎరువుల సలహాలు పొందండి.");
      ("getStarted", Text "ప్రారంభించండి") ]);
    ("cropPrediction", Object [
      ("title", Text "ఏఐ పంట దిగుబడి మరియు రిస్క్ అంచనా");
      ("subtitle", Text "విశ్వాస స్కోర్‌లతో ఖచ్చితమైన అంచనాలు పొందండి");
      ("temperature", Text "ఉష్ణోగ్రత (°C)");
      ("humidity", Text "తేమ (%)");
      ("ph", Text "పిహెచ్ స్థాయి");
      ("rainfall", Text "వర్షపాతం (మిమీ)");
      ("nitrogen", Text "నైట్రోజన్ (N)");
      ("phosphorus", Text "ఫాస్ఫరస్ (P)");
      ("potassium", Text "పొటాషియం (K)");
      ("predict", Text "పంట అంచనా చేయండి");
      ("riskLevel", Text "రిస్క్ స్థాయి");
      ("yieldPrediction", Text "ఆశించిన దిగుబడి");
      ("confidenceScore", Text "విశ్వాస స్కోర్");
      ("low", Text "తక్కువ");
      ("medium", Text "మధ్యస్థ");
      ("high", Text "అధిక") ]);
    ("fertilizer", Object [
      ("title", Text "స్మార్ట్ ఎరువుల సిఫార్సు");
      ("subtitle", Text "మట్టి విశ్లేషణ ఆధారంగా వ్యక్తిగతీకరించిన ఎరువుల సలహాలు పొందండి");
      ("soilAnalysis", Text "మట్టి విశ్లేషణ");
      ("recommendation", Text "సిఫార్సు");
      ("getRecommendation", Text "సిఫార్సు పొందండి") ]);
    ("market", Object [
      ("title", Text "మార్కెట్ ట్రెండ్స్ మరియు లాభదాయకత");
      ("subtitle", Text "మెరుగైన పంట ఎంపిక కోసం మార్కెట్ ధరలు మరియు లాభదాయకతను విశ్లేషించండి");
      ("pricePerKg", Text "కిలోకు ధర");
      ("marketLocation", Text "మార్కెట్ స్థానం");
      ("priceDate", Text "ధర తేదీ");
      ("profitability", Text "లాభదాయకత స్కోర్") ]) ].

Definition translations (language : Language) : Node :=
  match language with
  | en => translations_en
  | hi => translations_hi
  | te => translations_te
  end.

(** [k in value] and [value[k]].  Only the own keys matter to
    [getTranslation]: a member inherited from [Object.prototype] is a
    function or an object without string members, so a path through one
    ends at the key, as a missing key does. *)
Fixpoint member (k : string) (fields : list (string * Node)) : option Node :=
  match fields with
  | [] => None
  | (k', v) :: rest => if String.eqb k k' then Some v else member k rest
  end.

(** The loop over [keys]: [None] when it returns the key early. *)
Fixpoint walk (keys : list string) (value : Node) : option Node :=
  match keys with
  | [] => Some value
  | k :: rest =>
      match value with
      | Object fields =>
          match member k fields with
          | Some v => walk rest v
          | None => None
          end
      | Text _ => None
      end
  end.

Definition getTranslation (language : Language) (key : string) : string :=
  let keys := JS.split "." key in
  match walk keys (translations language) with
  | Some (Text s) => s
  | _ => key
  end.

End I18n.

(** ** Vocabulary of the statements *)

Module Spec.

(** The reference dataset could not be obtained: the request was
    rejected, it came back with an error or without data, or the table
    is empty. *)
Definition unavailable (f : CropPrediction.Fetched) : bool :=
  match f with
  | CropPrediction.Rejected => true
  | CropPrediction.Resolved r =>
      match r.(CropPrediction.error), r.(CropPrediction.data) with
      | None, Some (_ :: _) => false
      | _, _ => true
      end
  end.

(** The Euclidean distance between a soil profile and a crop record in
    the seven dimensions temperature, humidity, pH, rainfall, nitrogen,
    phosphorus and potassium, none of them scaled: the square root of
    the sum of the squared differences. *)
Definition euclidean (Q : CropPrediction.SoilData) (r : CropPrediction.Crop.t)
  : JS.number :=
  let square (x : JS.number) := x * x in
  sqrt (square (Q.(CropPrediction.temperature) - r.(CropPrediction.Crop.temperature)) +
        square (Q.(CropPrediction.humidity) - r.(CropPrediction.Crop.humidity)) +
        square (Q.(CropPrediction.ph) - r.(CropPrediction.Crop.ph)) +
        square (Q.(CropPrediction.rainfall) - r.(CropPrediction.Crop.rainfall)) +
        square (Q.(CropPrediction.nitrogen) - r.(CropPrediction.Crop.nitrogen)) +
        square (Q.(CropPrediction.phosphorus) - r.(CropPrediction.Crop.phosphorus)) +
        square (Q.(CropPrediction.potassium) - r.(CropPrediction.Crop.potassium))).

(** What the classifier's loop has established once it has visited
    [seen], having started from [bestMatch = b0] and
    [minDistance = Infinity]: either nothing was below [Infinity] and the
    state is the initial one, or the state holds a visited record whose
    distance is below [Infinity], that no visited record beats and that
    no earlier visited record equals in distance. *)
Definition visited (dist : CropPrediction.Crop.t -> JS.number)
    (b0 : option CropPrediction.Crop.t) (seen : list CropPrediction.Crop.t)
    (st : option CropPrediction.Crop.t * JS.number) : Prop :=
  (st = (b0, infinity) /\ forall r, In r seen -> (dist r <? infinity) = false) \/
  (exists j r,
      st = (Some r, dist r) /\ nth_error seen j = Some r /\
      (dist r <? infinity) = true /\
      (forall r', In r' seen -> (dist r' <? dist r) = false) /\
      (forall i r', (i < j)%nat -> nth_error seen i = Some r' ->
                    (dist r' =? dist r) = false)).

(** Two soil profiles that agree on every field except pH. *)
Definition agree_except_ph (d1 d2 : CropPrediction.SoilData) : Prop :=
  d1.(CropPrediction.temperature) = d2.(CropPrediction.temperature) /\
  d1.(CropPrediction.humidity) = d2.(CropPrediction.humidity) /\
  d1.(CropPrediction.rainfall) = d2.(CropPrediction.rainfall) /\
  d1.(CropPrediction.nitrogen) = d2.(CropPrediction.nitrogen) /\
  d1.(CropPrediction.phosphorus) = d2.(CropPrediction.phosphorus) /\
  d1.(CropPrediction.potassium) = d2.(CropPrediction.potassium).

(** pH [q] is at least as far outside [5.5, 8.5] as pH [p]: both are
    below 5.5 and [q] is not above [p], both are above 8.5 and [q] is
    not below [p], or [p] is inside the interval and [q] is outside. *)
Definition further_outside (p q : JS.number) : bool :=
  ((p <? 5.5) && (q <=? p)) ||
  ((8.5 <? p) && (p <=? q)) ||
  (((5.5 <=? p) && (p <=? 8.5)) && ((q <? 5.5) || (8.5 <? q))).

(** The recommendations of one priority. *)
Definition hasPriority (p : FertilizerRecommendation.Priority)
    (r : FertilizerRecommendation.Recommendation) : bool :=
  match p, r.(FertilizerRecommendation.priority) with
  | FertilizerRecommendation.high, FertilizerRecommendation.high
  | FertilizerRecommendation.medium, FertilizerRecommendation.medium
  | FertilizerRecommendation.low, FertilizerRecommendation.low => true
  | _, _ => false
  end.

(** The rank of a priority: high is 3, medium is 2, low is 1. *)
Definition rank (p : FertilizerRecommendation.Priority) : nat :=
  match p with
  | FertilizerRecommendation.high => 3
  | FertilizerRecommendation.medium => 2
  | FertilizerRecommendation.low => 1
  end.

(** [a] may stand before [b] in a list sorted by rank, highest first:
    the rank of [b] is not above that of [a]. *)
Definition notBelow (a b : FertilizerRecommendation.Recommendation) : Prop :=
  (rank b.(FertilizerRecommendation.priority)
   <= rank a.(FertilizerRecommendation.priority))%nat.

(** The mean of a list of prices: their sum over their number. *)
Definition mean (prices : list JS.number) : JS.number :=
  fold_left add prices 0 / JS.length prices.

(** No crop of the fetch is named like a member that objects inherit. *)
Definition ordinaryNames (prices : list MarketTrends.MarketPrice) : bool :=
  forallb (fun p => negb (MarketTrends.inherited p.(MarketTrends.crop_name))) prices.

(** The rows of a crop, in the order of the fetch. *)
Definition rowsOf (name : string) (prices : list MarketTrends.MarketPrice)
  : list MarketTrends.MarketPrice :=
  filter (fun p => String.eqb p.(MarketTrends.crop_name) name) prices.

(** The date of every row is a valid one. *)
Definition datesParse (parseDate : string -> option Z)
    (rows : list MarketTrends.MarketPrice) : bool :=
  forallb (fun p => match MarketTrends.getTime parseDate p.(MarketTrends.price_date) with
                    | Some _ => true
                    | None => false
                    end) rows.

(** The time of a row whose date is valid. *)
Definition timeOf (parseDate : string -> option Z) (p : MarketTrends.MarketPrice) : Z :=
  match MarketTrends.getTime parseDate p.(MarketTrends.price_date) with
  | Some t => t
  | None => 0
  end.

(** [sorted] lists the elements of [l] by descending rank, those of
    equal rank in the order they have in [l]. *)
Definition descending {A} (rank : A -> Z) (l sorted : list A) : Prop :=
  Sorted.StronglySorted (fun a b => (rank b <= rank a)%Z) sorted /\
  forall r, filter (fun a => (rank a =? r)%Z) sorted = filter (fun a => (rank a =? r)%Z) l.

(** [newest] lists the rows of [group] by date, the newest first, rows
    of the same date in the order of the fetch. *)
Definition newestFirst (parseDate : string -> option Z)
    (group newest : list MarketTrends.MarketPrice) : Prop :=
  descending (timeOf parseDate) group newest.

(** On the elements of [l] the comparison function orders by descending
    rank: positive when the first argument has the lower rank, negative
    when it has the higher one. *)
Definition ordersBy {A} (cmp : A -> A -> JS.number) (rank : A -> Z) (l : list A) : Prop :=
  forall a b, In a l -> In b l ->
    (0 <? cmp a b) = (rank a <? rank b)%Z /\ (cmp a b <? 0) = (rank b <? rank a)%Z.

(** What the language guarantees of [Array.prototype.sort]: the result
    has the elements of the array, and with a comparison function that
    orders by rank it is the array in descending order of rank, elements
    of equal rank in their original order. *)
Definition permutes (sort : forall A : Type, (A -> A -> JS.number) -> list A -> list A)
  : Prop :=
  forall A cmp l, Permutation.Permutation (sort A cmp l) l.

Definition sortsStably (sort : forall A : Type, (A -> A -> JS.number) -> list A -> list A)
  : Prop :=
  forall A cmp rank l, ordersBy cmp rank l -> descending rank l (sort A cmp l).

(** The price [p] is at least 10% above the positive number [m]: as
    exact quantities, [10 p >= 11 m]. *)
Definition tenPercentAbove (p m : JS.number) : bool :=
  match Prim2SF p, Prim2SF m with
  | S754_finite false Mp ep, S754_finite false Mm em =>
      let B := Z.min ep em in
      (11 * Zpos Mm * 2 ^ (em - B) <=? 10 * Zpos Mp * 2 ^ (ep - B))%Z
  | S754_infinity false, S754_finite false _ _ => true
  | _, _ => false
  end.

(** The groups of the rows [seen]: one own property for each crop that
    has rows, holding those rows in the order of the fetch. *)
Definition grouped (seen : list MarketTrends.MarketPrice) (acc : MarketTrends.Groups)
  : Prop :=
  NoDup (map fst acc) /\
  forall k, MarketTrends.own k acc
            = match rowsOf k seen with
              | [] => None
              | _ :: _ => Some (rowsOf k seen)
              end.

(** The first days of March 2024 as time values, for the examples. *)
Definition march2024 (s : string) : option Z :=
  if String.eqb s "2024-03-01" then Some 1709251200000%Z
  else if String.eqb s "2024-03-02" then Some 1709337600000%Z
  else if String.eqb s "2024-03-03" then Some 1709424000000%Z
  else if String.eqb s "2024-03-04" then Some 1709510400000%Z
  else None.

(** The four tests of the risk score. *)
Definition phFlag (d : CropPrediction.SoilData) : bool :=
  (d.(CropPrediction.ph) <? 5.5) || (8.5 <? d.(CropPrediction.ph)).

Definition temperatureFlag (d : CropPrediction.SoilData) : bool :=
  (35 <? d.(CropPrediction.temperature)) || (d.(CropPrediction.temperature) <? 10).

Definition humidityFlag (d : CropPrediction.SoilData) : bool :=
  (d.(CropPrediction.humidity) <? 30) || (90 <? d.(CropPrediction.humidity)).

Definition rainfallFlag (d : CropPrediction.SoilData) : bool :=
  (d.(CropPrediction.rainfall) <? 50) || (300 <? d.(CropPrediction.rainfall)).

(** No field of the form state is [NaN]. *)
Definition allNumbers (d : CropPrediction.SoilData) : Prop :=
  forall field, is_nan (CropPrediction.field_value field d) = false.

(** A sequence of edits of the form, each a field and the text typed. *)
Definition applyEdits (parseFloat : string -> JS.number)
    (edits : list (CropPrediction.Field * string)) (d : CropPrediction.SoilData)
  : CropPrediction.SoilData :=
  fold_left (fun s e => CropPrediction.handleInputChange parseFloat (fst e) (snd e) s)
            edits d.

(** The strings of a translation table. *)
Fixpoint texts (n : I18n.Node) : list string :=
  match n with
  | I18n.Text s => [s]
  | I18n.Object fields => flat_map (fun kv => texts (snd kv)) fields
  end.

(** The keys of a translation table, its strings left out. *)
Fixpoint shape (n : I18n.Node) : I18n.Node :=
  match n with
  | I18n.Text _ => I18n.Text EmptyString
  | I18n.Object fields => I18n.Object (map (fun kv => (fst kv, shape (snd kv))) fields)
  end.

(** The key leads to a string of the table of the language. *)
Definition resolves (language : I18n.Language) (key : string) : bool :=
  match I18n.walk (JS.split "." key) (I18n.translations language) with
  | Some (I18n.Text _) => true
  | _ => false
  end.

End Spec.

(** * Properties *)

(** Case analysis on the comparisons of exponents and mantissas. *)
Ltac order_cases :=
  repeat match goal with
  | |- context [ Pos.compare_cont Eq ?p ?q ] =>
      change (Pos.compare_cont Eq p q) with (Pos.compare p q)
  | H : context [ Pos.compare_cont Eq ?p ?q ] |- _ =>
      change (Pos.compare_cont Eq p q) with (Pos.compare p q) in H
  end;
  repeat match goal with
  | H : context [ Z.compare ?a ?b ] |- _ =>
      destruct (Z.compare_spec a b); simpl in H; try discriminate
  | H : context [ Pos.compare ?a ?b ] |- _ =>
      destruct (Pos.compare_spec a b); simpl in H; try discriminate
  | |- context [ Z.compare ?a ?b ] => destruct (Z.compare_spec a b); simpl
  | |- context [ Pos.compare ?a ?b ] => destruct (Pos.compare_spec a b); simpl
  end; subst; try reflexivity; try congruence; try lia.

(** Case analysis on every test of a cascade of conditionals. *)
Ltac split_tests :=
  repeat match goal with
  | |- context [ if ?b then _ else _ ] => destruct b
  end.

(** ** The builtins on a few inputs *)

Example Math_round_halves_up :
  map JS.Math_round [2.5; -2.5; 0.5; 0.49999999999999994; 134.25; 179.39999999999998; -7.5000001]
  = [3; -2; 1; 0; 134; 179; -8].
Proof. vm_compute. reflexivity. Qed.

Example Math_round_keeps_specials :
  map Prim2SF (map JS.Math_round [-0.2; neg_zero; infinity; nan; 1e300])
  = map Prim2SF [neg_zero; neg_zero; infinity; nan; 1e300].
Proof. vm_compute. reflexivity. Qed.

Example Math_max_clamps_count :
  map (fun n => JS.Math_max 1 (JS.of_nat n)) [0; 1; 2; 3]%nat = [1; 1; 2; 3].
Proof. vm_compute. reflexivity. Qed.

Example or_else_defaults :
  map (fun x => JS.or_else x 0) [24.5; 0; nan] = [24.5; 0; 0].
Proof. vm_compute. reflexivity. Qed.

Example toLowerCase_label : JS.toLowerCase "Rice" = "rice"%string.
Proof. reflexivity. Qed.

(** Newest first, records of one date in their original order. *)
Example sort_is_stable :
  JS.sort (fun a b : JS.number * nat => fst b - fst a)
    [(1, 0%nat); (3, 1%nat); (2, 2%nat); (3, 3%nat); (1, 4%nat)]
  = [(3, 1%nat); (3, 3%nat); (2, 2%nat); (1, 0%nat); (1, 4%nat)].
Proof. vm_compute. reflexivity. Qed.

(** ** The order on numbers

    [<], [<=] and [===] on numbers are the IEEE comparisons; their
    specification compares the decoded values with [SFcompare], which
    is a lexicographic comparison and never relates a [NaN]. *)

Section SpecOrder.
Implicit Types x y z : spec_float.

Lemma SFcompare_trans x y z (c1 c2 : comparison) :
  SFcompare x y = Some c1 -> SFcompare y z = Some c2 ->
  c1 <> Gt -> c2 <> Gt ->
  SFcompare x z = Some (match c1 with Eq => c2 | _ => Lt end).
Proof.
  destruct x as [sx|sx| |sx mx ex], y as [sy|sy| |sy my ey], z as [sz|sz| |sz mz ez];
    simpl; try discriminate;
    try destruct sx; try destruct sy; try destruct sz; simpl;
    intros H1 H2 N1 N2; inversion H1; inversion H2; subst; clear H1 H2;
    try reflexivity; try congruence.
  all: order_cases.
Qed.

Lemma SFcompare_sym x y c :
  SFcompare x y = Some c -> SFcompare y x = Some (CompOpp c).
Proof.
  destruct x as [sx|sx| |sx mx ex], y as [sy|sy| |sy my ey];
    simpl; try discriminate;
    try destruct sx; try destruct sy; simpl;
    intros H; inversion H; subst; clear H; try reflexivity.
  all: order_cases.
Qed.

Lemma SFcompare_below_infinity x y :
  SFcompare x y = Some Lt -> SFcompare x (S754_infinity false) = Some Lt.
Proof.
  destruct x as [sx|sx| |sx mx ex], y as [sy|sy| |sy my ey];
    simpl; try discriminate;
    try destruct sx; try destruct sy; simpl; congruence.
Qed.

Lemma SFcompare_zero_any (s : bool) x :
  SFcompare (S754_zero s) x = SFcompare (S754_zero false) x.
Proof. destruct x; reflexivity. Qed.

Lemma SFcompare_any_zero (s : bool) x :
  SFcompare x (S754_zero s) = SFcompare x (S754_zero false).
Proof. destruct x; reflexivity. Qed.

Lemma SFcompare_Eq_zero x :
  SFcompare x (S754_zero false) = Some Eq -> exists s, x = S754_zero s.
Proof.
  destruct x as [s|s| |s m e]; simpl; try destruct s; try discriminate; eauto.
Qed.
End SpecOrder.

Section NumberOrder.
Implicit Types x y z : JS.number.

Lemma ltb_compare x y :
  (x <? y) = true <-> SFcompare (Prim2SF x) (Prim2SF y) = Some Lt.
Proof.
  rewrite ltb_spec. unfold SFltb.
  destruct (SFcompare _ _) as [[]|]; split; congruence.
Qed.

Lemma leb_compare x y :
  (x <=? y) = true <->
  SFcompare (Prim2SF x) (Prim2SF y) = Some Lt \/
  SFcompare (Prim2SF x) (Prim2SF y) = Some Eq.
Proof.
  rewrite leb_spec. unfold SFleb.
  destruct (SFcompare _ _) as [[]|]; split; intuition congruence.
Qed.

Lemma eqb_compare x y :
  (x =? y) = true <-> SFcompare (Prim2SF x) (Prim2SF y) = Some Eq.
Proof.
  rewrite eqb_spec. unfold SFeqb.
  destruct (SFcompare _ _) as [[]|]; split; congruence.
Qed.

Lemma ltb_trans x y z : (x <? y) = true -> (y <? z) = true -> (x <? z) = true.
Proof.
  rewrite !ltb_compare. intros H1 H2.
  now rewrite (SFcompare_trans _ _ _ _ _ H1 H2).
Qed.

Lemma eqb_ltb_trans x y z : (x =? y) = true -> (y <? z) = true -> (x <? z) = true.
Proof.
  rewrite eqb_compare, !ltb_compare. intros H1 H2.
  now rewrite (SFcompare_trans _ _ _ _ _ H1 H2).
Qed.

Lemma leb_ltb_trans x y z : (x <=? y) = true -> (y <? z) = true -> (x <? z) = true.
Proof.
  rewrite leb_compare, !ltb_compare. intros [H1|H1] H2;
    now rewrite (SFcompare_trans _ _ _ _ _ H1 H2).
Qed.

Lemma ltb_leb_trans x y z : (x <? y) = true -> (y <=? z) = true -> (x <? z) = true.
Proof.
  rewrite leb_compare, !ltb_compare. intros H1 [H2|H2];
    now rewrite (SFcompare_trans _ _ _ _ _ H1 H2).
Qed.

Lemma ltb_below_infinity x y : (x <? y) = true -> (x <? infinity) = true.
Proof.
  rewrite !ltb_compare. intros H.
  change (Prim2SF infinity) with (S754_infinity false).
  exact (SFcompare_below_infinity _ _ H).
Qed.

(** A zero of either sign compares like [0]. *)
Lemma is_zero_decode x : is_zero x = true -> exists s, Prim2SF x = S754_zero s.
Proof.
  unfold is_zero. rewrite eqb_compare.
  change (Prim2SF zero) with (S754_zero false).
  apply SFcompare_Eq_zero.
Qed.

Lemma zero_not_positive x : is_zero x = true -> (0 <? x) = false.
Proof.
  intros H. destruct (is_zero_decode _ H) as [s Hs].
  rewrite ltb_spec, Hs. reflexivity.
Qed.

Lemma positive_truthy x : (0 <? x) = true -> JS.truthy x = true.
Proof.
  intros H. unfold JS.truthy, is_nan, is_zero.
  assert (Hc := proj1 (ltb_compare _ _) H).
  change (Prim2SF 0) with (S754_zero false) in Hc.
  rewrite !eqb_spec. change (Prim2SF zero) with (S754_zero false).
  destruct (Prim2SF x) as [s|s| |s m e]; simpl in Hc; try discriminate;
    destruct s; try discriminate; unfold SFeqb; simpl;
    rewrite ?Z.compare_refl, ?Pos.compare_cont_refl; reflexivity.
Qed.
End NumberOrder.

(** ** The profit analyzer *)

Section ProfitAnalyzer.
Import ProfitCalculator.

(** C2. With area 1 acre, expected yield 20 quintals per acre, selling
    price 2500 per quintal and five cost components that add up to
    30000, the analysis has total revenue 50000, total costs 30000,
    gross profit 20000, profit margin 40, ROI (20000/30000)*100, which
    is 66.7 to one decimal, and risk assessment low. *)
Theorem analyze_reference_scenario
    (crop : string) (seed fertilizer labor irrigation other : JS.number) :
  seed + fertilizer + labor + irrigation + other = 30000 ->
  let a := calculateProfit
             (mkCropInputs crop 1 20 2500 seed fertilizer labor irrigation other) in
  a.(totalRevenue) = 50000 /\
  a.(totalCosts) = 30000 /\
  a.(grossProfit) = 20000 /\
  a.(profitMargin) = 40 /\
  a.(roiPercentage) = (20000 / 30000) * 100 /\
  ((66.65 <? a.(roiPercentage)) && (a.(roiPercentage) <? 66.75) = true) /\
  a.(riskAssessment) = low.
Proof.
  intros Hcosts a. subst a. unfold calculateProfit. cbn [totalRevenue totalCosts grossProfit
    profitMargin roiPercentage riskAssessment areaInAcres expectedYield sellingPrice
    seedCost fertilizerCost laborCost irrigationCost otherCosts].
  rewrite Hcosts. repeat split; vm_compute; reflexivity.
Qed.

Lemma analyze_reference_scenario_default :
  let a := calculateProfit (mkCropInputs "wheat" 1 20 2500 3000 8000 12000 5000 2000) in
  a.(totalRevenue) = 50000 /\
  a.(totalCosts) = 30000 /\
  a.(grossProfit) = 20000 /\
  a.(profitMargin) = 40 /\
  a.(roiPercentage) = (20000 / 30000) * 100 /\
  ((66.65 <? a.(roiPercentage)) && (a.(roiPercentage) <? 66.75) = true) /\
  a.(riskAssessment) = low.
Proof.
  apply (analyze_reference_scenario "wheat" 3000 8000 12000 5000 2000).
  reflexivity.
Defined.

(** The three rates whose guard tests their own denominator are zero
    when that denominator is. *)
Lemma profitMargin_guarded (inputs : CropInputs) :
  is_zero (calculateProfit inputs).(totalRevenue) = true ->
  (calculateProfit inputs).(profitMargin) = 0.
Proof.
  unfold calculateProfit. cbn [totalRevenue profitMargin]. intros H.
  now rewrite (zero_not_positive _ H).
Qed.

Lemma roiPercentage_guarded (inputs : CropInputs) :
  is_zero (calculateProfit inputs).(totalCosts) = true ->
  (calculateProfit inputs).(roiPercentage) = 0.
Proof.
  unfold calculateProfit. cbn [totalCosts roiPercentage]. intros H.
  now rewrite (zero_not_positive _ H).
Qed.

Lemma profitPerAcre_guarded (inputs : CropInputs) :
  is_zero inputs.(areaInAcres) = true ->
  (calculateProfit inputs).(profitPerAcre) = 0.
Proof.
  unfold calculateProfit. cbn [profitPerAcre]. intros H.
  now rewrite (zero_not_positive _ H).
Qed.

Lemma breakEvenPoint_guarded_price (inputs : CropInputs) :
  (0 <? inputs.(sellingPrice)) = false ->
  (calculateProfit inputs).(breakEvenPoint) = 0.
Proof.
  unfold calculateProfit. cbn [breakEvenPoint]. intros H. now rewrite H.
Qed.

(** The break-even yield tests the price only: with a positive, finite
    price and an area of zero, the quotient is still taken, over a
    denominator that is zero. *)
Lemma breakEvenPoint_unguarded_area (inputs : CropInputs) :
  (0 <? inputs.(sellingPrice)) = true ->
  (inputs.(sellingPrice) <? infinity) = true ->
  is_zero inputs.(areaInAcres) = true ->
  is_zero (inputs.(sellingPrice) * inputs.(areaInAcres)) = true /\
  (calculateProfit inputs).(breakEvenPoint)
  = (calculateProfit inputs).(totalCosts) / (inputs.(sellingPrice) * inputs.(areaInAcres)).
Proof.
  intros Hpos Hfin Hzero. split.
  - destruct (is_zero_decode _ Hzero) as [s Hs].
    apply ltb_compare in Hpos, Hfin.
    change (Prim2SF 0) with (S754_zero false) in Hpos.
    change (Prim2SF infinity) with (S754_infinity false) in Hfin.
    unfold is_zero. rewrite eqb_spec, mul_spec, Hs.
    destruct (Prim2SF (sellingPrice inputs)) as [sp|sp| |sp m e];
      try destruct sp; try discriminate; reflexivity.
  - unfold calculateProfit. cbn [breakEvenPoint totalCosts]. now rewrite Hpos.
Qed.

(** C3. The break-even guard tests the selling price only, while the
    denominator is price times area.  With the default form values and
    the area field left at 0, the denominator is zero and the break-even
    yield is the quotient 30000/0, that is [Infinity], not 0. *)
Theorem breakEvenPoint_zero_area_divides_by_zero :
  let inputs := mkCropInputs "wheat" 0 20 2500 3000 8000 12000 5000 2000 in
  is_zero (inputs.(sellingPrice) * inputs.(areaInAcres)) = true /\
  (calculateProfit inputs).(totalCosts) = 30000 /\
  (calculateProfit inputs).(breakEvenPoint) = infinity /\
  (calculateProfit inputs).(profitPerAcre) = 0.
Proof. repeat split; vm_compute; reflexivity. Qed.
End ProfitAnalyzer.

(** ** The agronomic scorer *)

Section Scorer.
Import CropPrediction.

(** C4. The profitability index is not confined to 0..100.  For a warm,
    humid, rainy profile with a neutral pH, which even the rule-based
    fallback labels rice, the yield index is 179 and the profitability
    index is round(75 * 1.79) = 134, above 100. *)
Theorem profitabilityIndex_exceeds_100 :
  let data := mkSoilData 32 75 6.5 200 40 25 30 in
  fallback data = "rice"%string /\
  calculateYield data "rice" = 179 /\
  profitabilityIndex data "rice" = 134 /\
  (profitabilityIndex data "rice" <=? 100) = false.
Proof. repeat split; vm_compute; reflexivity. Qed.
End Scorer.

Section ScorerRange.
Import CropPrediction.

(** What does hold of the profitability index: it is an integer between
    42 and 134 (or [NaN] for a label that names an inherited member of
    the table object). *)
Lemma profitabilityIndex_range (data : SoilData) (cropName : string) :
  let v := profitabilityIndex data cropName in
  is_nan v = true \/ (42 <=? v) && (v <=? 134) = true.
Proof.
  unfold profitabilityIndex, calculateProfitabilityIndex, calculateYield, baseProfitability.
  generalize (JS.toLowerCase cropName). intros name. cbv zeta.
  split_tests; vm_compute; auto.
Qed.
End ScorerRange.

(** ** The fertilizer planner *)

Section FertilizerPlanner.
Import FertilizerRecommendation.

(** C6. For N=20, P=10, K=15, pH=5.0 and organic matter 2.0 the planner
    emits exactly six recommendations: nitrogen, phosphorus, potassium
    and lime, all high, then the organic compost at medium, then the
    micronutrient mix at low; so nitrogen and lime are both high and
    every high entry precedes every medium entry, which precedes the low
    one. *)
Theorem plan_deficient_acid_soil (crop : string) :
  let soilData := mkFertilizerData 20 10 15 5.0 2.0 crop in
  let out := generateRecommendations soilData in
  List.length out = 6%nat /\
  out = [nitrogenRec soilData; phosphorusRec soilData; potassiumRec soilData;
         limeRec soilData; compostRec; micronutrientRec] /\
  map type out =
    ["Nitrogen Fertilizer (Urea)"; "Phosphorus Fertilizer (DAP)";
     "Potassium Fertilizer (MOP)"; "Lime Application"; "Organic Compost";
     "Micronutrient Mix (Zn, Fe, Mn, B)"]%string /\
  map priority out = [high; high; high; high; medium; low] /\
  (nitrogenRec soilData).(priority) = high /\
  (limeRec soilData).(priority) = high /\
  (forall i j a b,
      nth_error out i = Some a -> nth_error out j = Some b ->
      (priorityOrder b.(priority) <? priorityOrder a.(priority)) = true ->
      (i < j)%nat).
Proof.
  intros soilData out.
  assert (Hout : out = [nitrogenRec soilData; phosphorusRec soilData;
                        potassiumRec soilData; limeRec soilData; compostRec;
                        micronutrientRec]) by (vm_compute; reflexivity).
  rewrite Hout. repeat split; try (vm_compute; reflexivity).
  intros i j a b Hi Hj.
  destruct i as [|[|[|[|[|[|i]]]]]]; simpl in Hi;
    try (destruct i; discriminate); injection Hi as <-;
    destruct j as [|[|[|[|[|[|j]]]]]]; simpl in Hj;
    try (destruct j; discriminate); injection Hj as <-;
    vm_compute; intros; try discriminate; lia.
Qed.
End FertilizerPlanner.

Section FertilizerOrder.
Import FertilizerRecommendation.
Import Spec.

(** The comparison function of the sort is positive exactly when its
    first argument has the lower rank. *)
Lemma byPriority_rank (x y : Recommendation) :
  (0 <? byPriority x y) = (rank x.(priority) <? rank y.(priority))%nat.
Proof.
  unfold byPriority. destruct (priority x), (priority y); vm_compute; reflexivity.
Qed.

Lemma byPriority_swap_differ (x y : Recommendation) p :
  (0 <? byPriority x y) = true -> hasPriority p x && hasPriority p y = false.
Proof.
  unfold byPriority, hasPriority.
  destruct p, (priority x), (priority y); vm_compute; congruence.
Qed.

Lemma notBelow_trans (a b c : Recommendation) :
  notBelow a b -> notBelow b c -> notBelow a c.
Proof. unfold notBelow. lia. Qed.

Lemma notBelow_total (a b : Recommendation) :
  (0 <? byPriority a b) = true -> notBelow b a.
Proof.
  rewrite byPriority_rank. unfold notBelow. intros H%Nat.ltb_lt. lia.
Qed.

Lemma insert_Forall (P : Recommendation -> Prop) x l :
  P x -> Forall P l -> Forall P (JS.insert byPriority x l).
Proof.
  intros Hx Hl. induction Hl as [|y l Hy Hl IH]; simpl.
  - constructor; [assumption | constructor].
  - destruct (0 <? byPriority x y); repeat constructor; assumption.
Qed.

Lemma insert_sorted x l :
  Sorted.StronglySorted notBelow l ->
  Sorted.StronglySorted notBelow (JS.insert byPriority x l).
Proof.
  induction 1 as [|y l Hs IH Hy]; simpl.
  - repeat constructor.
  - destruct (0 <? byPriority x y) eqn:Hswap.
    + constructor; [exact IH|].
      apply insert_Forall; [now apply notBelow_total | exact Hy].
    + constructor; [now constructor|].
      assert (Hxy : notBelow x y).
      { unfold notBelow. rewrite byPriority_rank in Hswap.
        apply Nat.ltb_ge in Hswap. exact Hswap. }
      constructor; [exact Hxy|].
      eapply Forall_impl; [|exact Hy].
      intros z Hz. now apply notBelow_trans with y.
Qed.

Lemma sort_sorted l : Sorted.StronglySorted notBelow (JS.sort byPriority l).
Proof.
  induction l as [|x l IH]; simpl; [constructor | now apply insert_sorted].
Qed.

(** In a sorted list, an entry at an earlier position is not below an
    entry at a later one. *)
Lemma sorted_positions l :
  Sorted.StronglySorted notBelow l ->
  forall i j a b, (i < j)%nat -> nth_error l i = Some a -> nth_error l j = Some b ->
    notBelow a b.
Proof.
  induction 1 as [|x l Hs IH Hx]; intros i j a b Hij Ha Hb.
  - destruct i; discriminate.
  - destruct j as [|j]; [lia|]. cbn [nth_error] in Hb.
    destruct i as [|i]; cbn [nth_error] in Ha.
    + injection Ha as <-. apply nth_error_In in Hb.
      rewrite Forall_forall in Hx. now apply Hx.
    + apply (IH i j); [lia | assumption | assumption].
Qed.

Lemma insert_filter p x l :
  filter (hasPriority p) (JS.insert byPriority x l) = filter (hasPriority p) (x :: l).
Proof.
  induction l as [|y l IH]; [reflexivity|].
  cbn [JS.insert]. destruct (0 <? byPriority x y) eqn:Hswap; [|reflexivity].
  pose proof (byPriority_swap_differ x y p Hswap) as Hd.
  cbn [filter] in *. rewrite IH.
  destruct (hasPriority p x), (hasPriority p y); try reflexivity; discriminate.
Qed.

Lemma sort_filter p l :
  filter (hasPriority p) (JS.sort byPriority l) = filter (hasPriority p) l.
Proof.
  induction l as [|x l IH]; [reflexivity|].
  cbn [JS.sort]. rewrite insert_filter. cbn [filter]. now rewrite IH.
Qed.

Lemma insert_perm x l : Permutation.Permutation (JS.insert byPriority x l) (x :: l).
Proof.
  induction l as [|y l IH]; simpl; [apply Permutation.Permutation_refl|].
  destruct (0 <? byPriority x y); [|apply Permutation.Permutation_refl].
  apply Permutation.perm_trans with (y :: x :: l);
    [apply Permutation.perm_skip; exact IH | apply Permutation.perm_swap].
Qed.

Lemma sort_perm l : Permutation.Permutation (JS.sort byPriority l) l.
Proof.
  induction l as [|x l IH]; simpl; [constructor|].
  eapply Permutation.perm_trans; [apply insert_perm|].
  apply Permutation.perm_skip; exact IH.
Qed.

Lemma recs_micronutrient soilData : In micronutrientRec (recs soilData).
Proof.
  unfold recs. repeat (apply in_or_app; right). now left.
Qed.

(** C5. For every nutrient input the planner's output contains the
    micronutrient baseline recommendation, whose priority is low; the
    output is sorted in descending order of the rank high = 3,
    medium = 2, low = 1: an entry at an earlier position never has a
    rank below that of an entry at a later position; and it is the
    sequence the rules produced, stably sorted: the same entries, and
    for each priority the entries of that priority in rule-evaluation
    order. *)
Theorem plan_sorted_with_baseline (soilData : FertilizerData) :
  let out := generateRecommendations soilData in
  In micronutrientRec out /\
  micronutrientRec.(priority) = low /\
  Sorted.StronglySorted notBelow out /\
  (forall i j a b, (i < j)%nat -> nth_error out i = Some a -> nth_error out j = Some b ->
     (rank b.(priority) <= rank a.(priority))%nat) /\
  Permutation.Permutation out (recs soilData) /\
  (forall p, filter (hasPriority p) out = filter (hasPriority p) (recs soilData)).
Proof.
  unfold generateRecommendations. cbv zeta.
  split; [|split; [reflexivity|split; [|split; [|split]]]].
  - apply Permutation.Permutation_in with (recs soilData);
      [apply Permutation.Permutation_sym, sort_perm | apply recs_micronutrient].
  - apply sort_sorted.
  - intros i j a b. apply sorted_positions, sort_sorted.
  - apply sort_perm.
  - intros p. apply sort_filter.
Qed.

(** An input that triggers a medium entry before a high one: the rules
    produce medium (nitrogen 30), high (phosphorus 10), high (pH 5.5),
    low; the plan shows the two high entries first. *)
Example plan_high_before_medium :
  let soilData := mkFertilizerData 30 10 40 5.5 3.5 "wheat" in
  map priority (recs soilData) = [medium; high; high; low] /\
  map priority (generateRecommendations soilData) = [high; high; medium; low] /\
  map type (generateRecommendations soilData)
  = ["Phosphorus Fertilizer (DAP)"; "Lime Application";
     "Nitrogen Fertilizer (Urea)"; "Micronutrient Mix (Zn, Fe, Mn, B)"]%string.
Proof. vm_compute. repeat split. Qed.
End FertilizerOrder.

(** ** The risk score *)

Section RiskScore.
Import CropPrediction.
Import Spec.

Lemma further_outside_flagged (p q : JS.number) :
  further_outside p q = true -> (q <? 5.5) || (8.5 <? q) = true.
Proof.
  unfold further_outside. intros H.
  apply orb_true_iff in H as [H|H]; [apply orb_true_iff in H as [H|H]|].
  - apply andb_true_iff in H as [Hp Hq].
    now rewrite (leb_ltb_trans _ _ _ Hq Hp).
  - apply andb_true_iff in H as [Hp Hq].
    rewrite (ltb_leb_trans _ _ _ Hp Hq). apply orb_true_r.
  - apply andb_true_iff in H as [_ H]. exact H.
Qed.

(** C7. Take two soil profiles that agree on every field except pH,
    the second with a pH at least as far outside [5.5, 8.5] as the
    first (further out on the same side, or outside where the first is
    inside).  The accumulated risk score of the second is not smaller
    than that of the first. *)
Theorem riskScore_monotone_in_ph (d1 d2 : SoilData) :
  agree_except_ph d1 d2 ->
  further_outside d1.(ph) d2.(ph) = true ->
  (riskScore d1 <=? riskScore d2) = true.
Proof.
  intros (Ht & Hh & Hr & _) H. apply further_outside_flagged in H.
  unfold riskScore. rewrite Ht, Hh, Hr, H.
  destruct ((ph d1 <? 5.5) || (8.5 <? ph d1)),
           ((35 <? temperature d2) || (temperature d2 <? 10)),
           ((humidity d2 <? 30) || (90 <? humidity d2)),
           ((rainfall d2 <? 50) || (300 <? rainfall d2));
    vm_compute; reflexivity.
Qed.

Lemma riskScore_monotone_in_ph_acid :
  (riskScore (mkSoilData 25 65 5.0 120 40 25 30)
   <=? riskScore (mkSoilData 25 65 4.0 120 40 25 30)) = true.
Proof.
  apply riskScore_monotone_in_ph.
  - repeat split.
  - vm_compute. reflexivity.
Defined.
End RiskScore.

(** ** The classifier *)

Section Fallback.
Import CropPrediction.
Import Spec.
Variable Math_pow : JS.number -> JS.number -> JS.number.

Lemma fallback_closed (data : SoilData) :
  In (fallback data) ["wheat"; "rice"; "maize"; "cotton"]%string.
Proof.
  unfold fallback.
  repeat match goal with
  | |- context [ if ?b then _ else _ ] => destruct b
  end; simpl; auto.
Qed.

End Fallback.


Section NearestMatch.
Import CropPrediction.
Import Spec.
Variable Math_pow : JS.number -> JS.number -> JS.number.
Variable Q : SoilData.

Local Abbreviation dist := (distance Math_pow Q).

Lemma ltb_irrefl (x : JS.number) : (x <? x) = false.
Proof.
  destruct (x <? x) eqn:E; [|reflexivity].
  apply ltb_compare in E. pose proof (SFcompare_sym _ _ _ E) as E'.
  simpl in E'. congruence.
Qed.

Lemma visit_visited b0 seen st x :
  visited dist b0 seen st -> visited dist b0 (seen ++ [x]) (visit Math_pow Q st x).
Proof.
  unfold visit.
  intros [[-> Hinf] | (j & r & -> & Hj & Hfin & Hmin & Htie)]; cbn [snd].
  - destruct (dist x <? infinity) eqn:Hx.
    + right. exists (List.length seen), x. split; [reflexivity|]. split.
      { rewrite nth_error_app2, Nat.sub_diag by lia. reflexivity. }
      split; [exact Hx|]. split.
      * intros r' [Hr'|[<-|[]]]%in_app_or; [|apply ltb_irrefl].
        destruct (dist r' <? dist x) eqn:E; [|reflexivity].
        rewrite <- (Hinf _ Hr'). symmetry. now apply ltb_below_infinity with (dist x).
      * intros i r' Hi Hn. rewrite nth_error_app1 in Hn by exact Hi.
        apply nth_error_In in Hn.
        destruct (dist r' =? dist x) eqn:E; [|reflexivity].
        rewrite <- (Hinf _ Hn). symmetry. now apply eqb_ltb_trans with (dist x).
    + left. split; [reflexivity|].
      intros r' [Hr'|[<-|[]]]%in_app_or; [now apply Hinf | exact Hx].
  - destruct (dist x <? dist r) eqn:Hx.
    + right. exists (List.length seen), x. split; [reflexivity|]. split.
      { rewrite nth_error_app2, Nat.sub_diag by lia. reflexivity. }
      split; [now apply ltb_below_infinity with (dist r)|]. split.
      * intros r' [Hr'|[<-|[]]]%in_app_or; [|apply ltb_irrefl].
        destruct (dist r' <? dist x) eqn:E; [|reflexivity].
        rewrite <- (Hmin _ Hr'). symmetry. now apply ltb_trans with (dist x).
      * intros i r' Hi Hn. rewrite nth_error_app1 in Hn by exact Hi.
        apply nth_error_In in Hn.
        destruct (dist r' =? dist x) eqn:E; [|reflexivity].
        rewrite <- (Hmin _ Hn). symmetry. now apply eqb_ltb_trans with (dist x).
    + right. exists j, r. split; [reflexivity|].
      assert (Hlt : (j < List.length seen)%nat).
      { apply nth_error_Some. congruence. }
      split; [rewrite nth_error_app1 by exact Hlt; exact Hj|].
      split; [exact Hfin|]. split.
      * intros r' [Hr'|[<-|[]]]%in_app_or; [now apply Hmin | exact Hx].
      * intros i r' Hi Hn. rewrite nth_error_app1 in Hn by lia.
        now apply Htie with i.
Qed.

Lemma loop_visited b0 l : forall seen st,
  visited dist b0 seen st ->
  visited dist b0 (seen ++ l) (fold_left (visit Math_pow Q) l st).
Proof.
  induction l as [|x l IH]; intros seen st H; simpl.
  - now rewrite app_nil_r.
  - change (x :: l) with ([x] ++ l). rewrite app_assoc.
    apply IH. now apply visit_visited.
Qed.

(** Where [Math.pow(x, 2)] is the product [x * x], the distance the loop
    computes is the seven-dimensional Euclidean distance. *)
Lemma distance_euclidean (r : Crop.t) :
  (forall x, Math_pow x 2 = x * x) -> distance Math_pow Q r = euclidean Q r.
Proof.
  intros Hpow. unfold distance, euclidean, JS.Math_sqrt. cbv zeta.
  now rewrite !Hpow.
Qed.

End NearestMatch.

(** A dataset whose nearest record is not the first one: the profile is
    one unit or two away from the wheat record in every field and much
    further from the rice record, and the label is that of the second
    record. *)
Example classify_second_record :
  let Q := CropPrediction.mkSoilData 25 65 6.5 120 40 25 30 in
  let D := [CropPrediction.Crop.mk "rice" 30 80 6.0 200 80 40 40;
            CropPrediction.Crop.mk "wheat" 24 64 6.5 118 42 26 31] in
  CropPrediction.predictCropWithML (fun x _ => x * x)
    (CropPrediction.Resolved (CropPrediction.mkResponse (Some D) None)) Q
  = "wheat"%string /\
  (Spec.euclidean Q (CropPrediction.Crop.mk "wheat" 24 64 6.5 118 42 26 31)
   <? Spec.euclidean Q (CropPrediction.Crop.mk "rice" 30 80 6.0 200 80 40 40)) = true.
Proof. vm_compute. split; reflexivity. Qed.


(** ** Products by a constant near 1

    The trend compares the latest price with [olderAvg * 1.05] and
    [olderAvg * 0.95], two rounded products.  For a number of the normal
    range the rounding moves a product by less than one unit in the last
    place, which is far less than what separates the products by 0.95,
    1.05 and 1.1; the lemmas below derive this from the specification of
    the multiplication ([mul_spec]). *)

Section Rounding.
Local Open Scope Z_scope.

Lemma digits2_bounds (p : positive) :
  2 ^ (Zpos (digits2_pos p) - 1) <= Zpos p < 2 ^ Zpos (digits2_pos p).
Proof.
  induction p as [p IH|p IH|]; cbn [digits2_pos].
  - rewrite Pos2Z.inj_succ.
    replace (Z.succ (Zpos (digits2_pos p)) - 1) with (Z.succ (Zpos (digits2_pos p) - 1)) by lia.
    rewrite !Z.pow_succ_r by lia. lia.
  - rewrite Pos2Z.inj_succ.
    replace (Z.succ (Zpos (digits2_pos p)) - 1) with (Z.succ (Zpos (digits2_pos p) - 1)) by lia.
    rewrite !Z.pow_succ_r by lia. lia.
  - simpl. lia.
Qed.

Lemma shr_1_half (mrs : shr_record) :
  0 <= shr_m mrs -> shr_m (shr_1 mrs) = shr_m mrs / 2.
Proof.
  destruct mrs as [[|[p|p|]|p] r s]; cbn [shr_m shr_1]; intros H; try lia.
  - reflexivity.
  - rewrite Pos2Z.inj_xI. apply Z.div_unique with 1; lia.
  - rewrite Pos2Z.inj_xO. apply Z.div_unique with 0; lia.
  - reflexivity.
Qed.

Lemma iter_shr_div (n : positive) : forall mrs,
  0 <= shr_m mrs -> shr_m (iter_pos shr_1 n mrs) = shr_m mrs / 2 ^ Zpos n.
Proof.
  induction n as [n IH|n IH|]; intros mrs H; cbn [iter_pos].
  - assert (H1 : 0 <= shr_m (shr_1 mrs)) by (rewrite shr_1_half by exact H; apply Z.div_pos; lia).
    assert (H2 : 0 <= shr_m (iter_pos shr_1 n (shr_1 mrs))).
    { rewrite IH by exact H1. apply Z.div_pos; [exact H1 | apply Z.pow_pos_nonneg; lia]. }
    rewrite IH, IH, shr_1_half by assumption.
    rewrite !Z.div_div by (try apply Z.pow_pos_nonneg; lia).
    f_equal. rewrite Pos2Z.inj_xI. rewrite <- Z.pow_add_r, <- Z.pow_succ_r by lia.
    f_equal. lia.
  - assert (H2 : 0 <= shr_m (iter_pos shr_1 n mrs)).
    { rewrite IH by exact H. apply Z.div_pos; [exact H | apply Z.pow_pos_nonneg; lia]. }
    rewrite IH, IH by assumption.
    rewrite !Z.div_div by (try apply Z.pow_pos_nonneg; lia).
    f_equal. rewrite Pos2Z.inj_xO. rewrite <- Z.pow_add_r by lia.
    f_equal. lia.
  - rewrite shr_1_half by exact H. reflexivity.
Qed.

Lemma shr_record_of_loc_m (m : Z) (l : location) : shr_m (shr_record_of_loc m l) = m.
Proof. destruct l as [|[]]; reflexivity. Qed.

Lemma round_nearest_even_step (q : Z) (l : location) :
  round_nearest_even q l = q \/ round_nearest_even q l = q + 1.
Proof.
  destruct l as [|[]]; cbn [round_nearest_even]; auto. destruct (Z.even q); auto.
Qed.
End Rounding.

Section Product.
Local Open Scope Z_scope.

Lemma digits2_of_bounds (p : positive) (d : Z) :
  0 < d -> 2 ^ (d - 1) <= Zpos p < 2 ^ d -> Zpos (digits2_pos p) = d.
Proof.
  intros Hd [Hlo Hhi]. pose proof (digits2_bounds p) as [Blo Bhi].
  set (k := Zpos (digits2_pos p)) in *. assert (0 < k) by (unfold k; lia).
  destruct (Z.lt_trichotomy k d) as [Hlt|[Heq|Hgt]]; [exfalso| exact Heq |exfalso].
  - assert (2 ^ k <= 2 ^ (d - 1)) by (apply Z.pow_le_mono_r; lia). lia.
  - assert (2 ^ d <= 2 ^ (k - 1)) by (apply Z.pow_le_mono_r; lia). lia.
Qed.

(** Rounding a positive mantissa of [53 + n] digits, [1 <= n], whose
    result is in the normal range. *)
Lemma round_wide (P : positive) (E n : Z) :
  1 <= n ->
  2 ^ (52 + n) <= Zpos P < 2 ^ (53 + n) ->
  -1074 <= E + n -> E + n + 1 <= 971 ->
  exists m e,
    binary_round_aux prec emax false (Zpos P) E loc_Exact = S754_finite false m e /\
    2 ^ 52 <= Zpos m < 2 ^ 53 /\
    (e = E + n \/ e = E + n + 1) /\
    Zpos P - 2 ^ n < Zpos m * 2 ^ (e - E) <= Zpos P + 2 ^ n.
Proof.
  intros Hn HP Hlo Hhi.
  assert (Hd : Zpos (digits2_pos P) = 53 + n).
  { apply digits2_of_bounds; [lia|]. now replace (53 + n - 1) with (52 + n) by lia. }
  unfold binary_round_aux, shr_fexp. cbn [Zdigits2]. rewrite Hd.
  replace (fexp prec emax (53 + n + E) - E) with n
    by (unfold fexp, emin, prec, emax; lia).
  destruct n as [|np|np]; try lia. cbn [shr shr_record_of_loc].
  pose proof (iter_shr_div np (Build_shr_record (Zpos P) false false)) as Hq.
  cbn [shr_m] in Hq. specialize (Hq ltac:(lia)).
  destruct (iter_pos shr_1 np _) as [q r s]. cbn [shr_m] in *.
  set (N := 2 ^ Zpos np) in *.
  assert (HN : 0 < N) by (apply Z.pow_pos_nonneg; lia).
  assert (Hsplit : 2 ^ (52 + Zpos np) = 2 ^ 52 * N /\ 2 ^ (53 + Zpos np) = 2 ^ 53 * N).
  { unfold N. rewrite !Z.pow_add_r by lia. auto. }
  destruct Hsplit as [S1 S2]. rewrite S1, S2 in HP.
  assert (Hdm : N * q <= Zpos P < N * (q + 1)).
  { subst q. split; [apply Z.mul_div_le; lia|].
    rewrite Z.mul_add_distr_l, Z.mul_1_r. pose proof (Z.mod_pos_bound (Zpos P) N HN).
    rewrite (Z.div_mod (Zpos P) N) at 1 by lia. lia. }
  assert (Hqb : 2 ^ 52 <= q < 2 ^ 53) by nia.
  clear Hq.
  destruct (round_nearest_even_step q (loc_of_shr_record (Build_shr_record q r s))) as [Hr|Hr];
    rewrite Hr; clear Hr.
  - (* the mantissa stays q *)
    destruct q as [|qp|qp]; try lia.
    cbn [Zdigits2]. rewrite (digits2_of_bounds qp 53) by (simpl; lia).
    replace (fexp prec emax (53 + (E + Zpos np)) - (E + Zpos np)) with 0
      by (unfold fexp, emin, prec, emax; lia).
    cbn [shr shr_m shr_record_of_loc].
    replace (E + Zpos np <=? emax - prec) with true
      by (symmetry; apply Z.leb_le; unfold emax, prec; lia).
    exists qp, (E + Zpos np). split; [reflexivity|]. split; [exact Hqb|]. split; [auto|].
    replace (E + Zpos np - E) with (Zpos np) by lia. fold N. nia.
  - (* the mantissa becomes q + 1 *)
    destruct (Z.eq_dec (q + 1) (2 ^ 53)) as [Hc|Hc].
    + rewrite Hc. change (2 ^ 53) with 9007199254740992.
      cbn [Zdigits2 digits2_pos Pos.succ].
      replace (fexp prec emax (54 + (E + Zpos np)) - (E + Zpos np)) with 1
        by (unfold fexp, emin, prec, emax; lia).
      cbn [shr shr_m shr_record_of_loc iter_pos shr_1].
      replace (E + Zpos np + 1 <=? emax - prec) with true
        by (symmetry; apply Z.leb_le; unfold emax, prec; lia).
      eexists _, (E + Zpos np + 1). split; [reflexivity|]. split; [simpl; lia|]. split; [auto|].
      replace (E + Zpos np + 1 - E) with (Zpos np + 1) by lia.
      rewrite Z.pow_add_r by lia. fold N. change (2 ^ 53) with 9007199254740992 in Hc. lia.
    + remember (q + 1) as q' eqn:Hq'. destruct q' as [|qp|qp]; try lia.
      cbn [Zdigits2]. rewrite (digits2_of_bounds qp 53) by (simpl; lia).
      replace (fexp prec emax (53 + (E + Zpos np)) - (E + Zpos np)) with 0
        by (unfold fexp, emin, prec, emax; lia).
      cbn [shr shr_m shr_record_of_loc].
      replace (E + Zpos np <=? emax - prec) with true
        by (symmetry; apply Z.leb_le; unfold emax, prec; lia).
      exists qp, (E + Zpos np). split; [reflexivity|]. split; [lia|]. split; [auto|].
      replace (E + Zpos np - E) with (Zpos np) by lia. fold N. nia.
Qed.
End Product.

Section Scaling.
Local Open Scope Z_scope.

Lemma finite_lt (m1 m2 : positive) (e1 e2 B : Z) :
  2 ^ 52 <= Zpos m1 < 2 ^ 53 -> 2 ^ 52 <= Zpos m2 < 2 ^ 53 ->
  B <= e1 -> B <= e2 ->
  Zpos m1 * 2 ^ (e1 - B) < Zpos m2 * 2 ^ (e2 - B) ->
  SFcompare (S754_finite false m1 e1) (S754_finite false m2 e2) = Some Lt.
Proof.
  intros H1 H2 B1 B2 Hv. cbn [SFcompare].
  assert (Hp : 0 < 2 ^ (e2 - B)) by (apply Z.pow_pos_nonneg; lia).
  destruct (Z.compare_spec e1 e2) as [->|Hlt|Hgt]; [|reflexivity|exfalso].
  - f_equal. change (Pos.compare_cont Eq m1 m2) with (Pos.compare m1 m2).
    apply Pos.compare_lt_iff. apply (proj2 (Z.mul_lt_mono_pos_r _ _ _ Hp)) in Hv. lia.
  - replace (e1 - B) with ((e2 - B) + (e1 - e2)) in Hv by lia.
    rewrite Z.pow_add_r in Hv by lia.
    assert (2 ^ 1 <= 2 ^ (e1 - e2)) by (apply Z.pow_le_mono_r; lia).
    change (2 ^ 1) with 2 in *.
    set (a := 2 ^ (e2 - B)) in *. set (b := 2 ^ (e1 - e2)) in *.
    assert (A1 : a * 2 <= a * b) by (apply Z.mul_le_mono_nonneg_l; lia).
    assert (A2 : Zpos m2 * a < 2 ^ 53 * a) by (apply Z.mul_lt_mono_pos_r; lia).
    assert (A3 : 2 ^ 52 * (a * b) <= Zpos m1 * (a * b))
      by (apply Z.mul_le_mono_nonneg_r; lia).
    change (2 ^ 53) with (2 ^ 52 * 2) in A2. lia.
Qed.

(** The product of a number [M * 2^e] of the normal range by a
    constant [C * 2^k] near 1, within one unit of the exact product
    [M * C], in units of [2^(e - 53)]. *)
Lemma mul_bracket (x c : JS.number) (M C : positive) (e k : Z) :
  Prim2SF x = S754_finite false M e -> Prim2SF c = S754_finite false C k ->
  2 ^ 52 <= Zpos M < 2 ^ 53 -> 2 ^ 52 <= Zpos C < 2 ^ 53 ->
  -1049 <= e <= 944 -> -53 <= k <= -52 ->
  exists m e',
    Prim2SF (x * c) = S754_finite false m e' /\
    2 ^ 52 <= Zpos m < 2 ^ 53 /\ e - 53 <= e' /\
    (Zpos M * Zpos C - 2 ^ 53) * 2 ^ (k + 53) < Zpos m * 2 ^ (e' - (e - 53))
      <= (Zpos M * Zpos C + 2 ^ 53) * 2 ^ (k + 53).
Proof.
  intros Hx Hc HM HC He Hk.
  rewrite mul_spec, Hx, Hc. unfold SF64mul, SFmul. cbn [xorb].
  rewrite Pos2Z.inj_mul.
  assert (HP : 2 ^ 104 <= Zpos M * Zpos C < 2 ^ 106).
  { change (2 ^ 104) with (2 ^ 52 * 2 ^ 52). change (2 ^ 106) with (2 ^ 53 * 2 ^ 53). nia. }
  rewrite <- Pos2Z.inj_mul in *. set (P := (M * C)%positive) in *.
  assert (Hn : exists n, (n = 52 \/ n = 53) /\ 2 ^ (52 + n) <= Zpos P < 2 ^ (53 + n)).
  { destruct (Z.lt_ge_cases (Zpos P) (2 ^ 105)); [exists 52 | exists 53];
      (split; [auto|]); simpl (_ + _); lia. }
  destruct Hn as (n & Hn & HPn).
  destruct (round_wide P (e + k) n) as (m & e' & Hr & Hm & He' & Hv); try lia.
  exists m, e'. split; [exact Hr|]. split; [exact Hm|]. split; [lia|].
  replace (e' - (e - 53)) with ((e' - (e + k)) + (k + 53)) by lia.
  rewrite (Z.pow_add_r 2 (e' - (e + k)) (k + 53)) by lia. rewrite Z.mul_assoc.
  assert (Hs : 0 < 2 ^ (k + 53)) by (apply Z.pow_pos_nonneg; lia).
  assert (Hpn : 2 ^ n <= 2 ^ 53) by (apply Z.pow_le_mono_r; lia).
  split.
  - apply Z.mul_lt_mono_pos_r; [exact Hs | lia].
  - apply Z.mul_le_mono_nonneg_r; lia.
Qed.
End Scaling.

Section InRange.
Lemma decode_in_range (x : JS.number) :
  (1e-300 <=? x) = true -> (x <=? 1e300) = true ->
  exists M e, Prim2SF x = S754_finite false M e /\
              (2 ^ 52 <= Zpos M < 2 ^ 53)%Z /\ (-1049 <= e <= 944)%Z.
Proof.
  rewrite !leb_spec. intros Hlo Hhi.
  pose proof (Prim2SF_valid x) as Hv.
  change (Prim2SF 1e-300) with (S754_finite false 6032057205060441 (-1049)) in Hlo.
  change (Prim2SF 1e300) with (S754_finite false 6724873095247260 944) in Hhi.
  destruct (Prim2SF x) as [s|s| |s M e]; try destruct s; try discriminate.
  exists M, e. split; [reflexivity|].
  unfold SFleb in *. cbn [SFcompare] in *.
  assert (He : (-1049 <= e <= 944)%Z).
  { split.
    - destruct (Z.compare_spec (-1049) e); try lia; discriminate.
    - destruct (Z.compare_spec e 944); try lia; discriminate. }
  split; [|exact He].
  cbn [valid_binary] in Hv. unfold bounded, canonical_mantissa in Hv.
  apply andb_true_iff in Hv as [Hv _]. apply Z.eqb_eq in Hv.
  unfold fexp, emin, prec, emax in Hv.
  assert (Hd : Zpos (digits2_pos M) = 53%Z) by lia.
  pose proof (digits2_bounds M) as HB. rewrite Hd in HB. exact HB.
Qed.

Lemma mul_105_lt_110 (x : JS.number) :
  (1e-300 <=? x) = true -> (x <=? 1e300) = true -> (x * 1.05 <? x * 1.1) = true.
Proof.
  intros Hlo Hhi. destruct (decode_in_range x Hlo Hhi) as (M & e & Hx & HM & He).
  destruct (mul_bracket x 1.05 M 4728779608739021 e (-52) Hx) as (m1 & e1 & H1 & B1 & L1 & V1);
    try reflexivity; try lia.
  destruct (mul_bracket x 1.1 M 4953959590107546 e (-52) Hx) as (m2 & e2 & H2 & B2 & L2 & V2);
    try reflexivity; try lia.
  rewrite ltb_spec, H1, H2. unfold SFltb.
  rewrite (finite_lt m1 m2 e1 e2 (e - 53)%Z); try assumption; [reflexivity|].
  change (2 ^ (-52 + 53))%Z with 2%Z in *. lia.
Qed.

Lemma mul_095_lt_105 (x : JS.number) :
  (1e-300 <=? x) = true -> (x <=? 1e300) = true -> (x * 0.95 <? x * 1.05) = true.
Proof.
  intros Hlo Hhi. destruct (decode_in_range x Hlo Hhi) as (M & e & Hx & HM & He).
  destruct (mul_bracket x 0.95 M 8556839292003942 e (-53) Hx) as (m1 & e1 & H1 & B1 & L1 & V1);
    try reflexivity; try lia.
  destruct (mul_bracket x 1.05 M 4728779608739021 e (-52) Hx) as (m2 & e2 & H2 & B2 & L2 & V2);
    try reflexivity; try lia.
  rewrite ltb_spec, H1, H2. unfold SFltb.
  rewrite (finite_lt m1 m2 e1 e2 (e - 53)%Z); try assumption; [reflexivity|].
  change (2 ^ (-52 + 53))%Z with 2%Z in *. change (2 ^ (-53 + 53))%Z with 1%Z in *. lia.
Qed.
End InRange.

(** ** The sign of an integer as a number

    The sort of the market page compares two dates by the difference of
    their time values, and only the sign of the difference matters. *)

Section IntegerSign.
Local Open Scope Z_scope.

(** Shifting a positive mantissa to its format leaves it positive, at an
    exponent that is not below the least one. *)
Lemma shr_fexp_positive (p : positive) (e : Z) (l : location) :
  -1074 <= e ->
  0 < shr_m (fst (shr_fexp prec emax (Zpos p) e l)) /\
  -1074 <= snd (shr_fexp prec emax (Zpos p) e l).
Proof.
  intros He. unfold shr_fexp. cbn [Zdigits2].
  pose proof (digits2_bounds p) as [Hlo _].
  set (d := Zpos (digits2_pos p)) in *.
  destruct (fexp prec emax (d + e) - e) as [|np|np] eqn:Hn; cbn [shr fst snd];
    rewrite ?shr_record_of_loc_m; try (split; lia).
  assert (Hd : Zpos np = d - 53) by (unfold fexp, emin, prec, emax in Hn; lia).
  rewrite iter_shr_div by (rewrite shr_record_of_loc_m; lia).
  rewrite shr_record_of_loc_m. split; [|lia].
  assert (Hp : 0 < 2 ^ Zpos np) by (apply Z.pow_pos_nonneg; lia).
  assert (Hs : 2 ^ (d - 1) = 2 ^ 52 * 2 ^ Zpos np).
  { rewrite <- Z.pow_add_r by lia. f_equal. lia. }
  assert (Hq : 2 ^ 52 <= Zpos p / 2 ^ Zpos np).
  { apply Z.div_le_lower_bound; [exact Hp|]. rewrite Z.mul_comm. lia. }
  change (2 ^ 52) with 4503599627370496 in Hq. lia.
Qed.

(** Rounding a positive mantissa gives a positive number, or the
    infinity of its sign. *)
Lemma binary_round_aux_sign (s : bool) (p : positive) (e : Z) (l : location) :
  -1074 <= e ->
  (exists m e', binary_round_aux prec emax s (Zpos p) e l = S754_finite s m e') \/
  binary_round_aux prec emax s (Zpos p) e l = S754_infinity s.
Proof.
  intros He. unfold binary_round_aux.
  destruct (shr_fexp_positive p e l He) as [H1 H1e].
  destruct (shr_fexp prec emax (Zpos p) e l) as [mrs' e']. cbn [fst snd] in H1, H1e.
  set (q := round_nearest_even (shr_m mrs') (loc_of_shr_record mrs')).
  assert (Hq : 0 < q).
  { unfold q.
    destruct (round_nearest_even_step (shr_m mrs') (loc_of_shr_record mrs')) as [->| ->]; lia. }
  destruct q as [|qp|qp]; try lia.
  destruct (shr_fexp_positive qp e' loc_Exact H1e) as [H2 _].
  destruct (shr_fexp prec emax (Zpos qp) e' loc_Exact) as [mrs'' e'']. cbn [fst] in H2.
  destruct (shr_m mrs'') as [|m|m]; try lia.
  destruct (e'' <=? emax - prec); eauto.
Qed.

Lemma binary_round_sign (s : bool) (p : positive) :
  (exists m e', binary_round prec emax s p 0 = S754_finite s m e') \/
  binary_round prec emax s p 0 = S754_infinity s.
Proof.
  unfold binary_round, shl_align.
  destruct (fexp prec emax (Zpos (digits2_pos p) + 0) - 0) as [|n|n] eqn:Hn;
    apply binary_round_aux_sign; unfold fexp, emin, prec, emax in *; lia.
Qed.

(** The sign of an integer, as a number. *)
Lemma of_Z_sign (z : Z) :
  - 2 ^ 63 < z < 2 ^ 63 ->
  (0 <? JS.of_Z z)%float = (0 <? z) /\ (JS.of_Z z <? 0)%float = (z <? 0).
Proof.
  intros Hz. unfold JS.of_Z. rewrite !ltb_spec.
  change (Prim2SF 0) with (S754_zero false).
  destruct (Z.ltb_spec z 0) as [Hneg|Hpos].
  - rewrite opp_spec, of_uint63_spec, Uint63.of_Z_spec.
    change Uint63Axioms.wB with (2 ^ 63). rewrite Z.mod_small by lia.
    destruct (- z) as [|p|p] eqn:Hp; try lia. cbn [binary_normalize].
    destruct (binary_round_sign false p) as [(m & e' & ->)| ->]; cbn;
      (split; [symmetry; apply Z.ltb_ge; lia | reflexivity]).
  - rewrite of_uint63_spec, Uint63.of_Z_spec.
    change Uint63Axioms.wB with (2 ^ 63). rewrite Z.mod_small by lia.
    destruct z as [|p|p]; try lia; cbn [binary_normalize].
    + split; reflexivity.
    + destruct (binary_round_sign false p) as [(m & e' & ->)| ->]; cbn;
        split; reflexivity.
Qed.
End IntegerSign.

(** ** Sorting by a rank *)

Section StableSort.
Import Spec.
Context {A : Type} (cmp : A -> A -> JS.number) (rank : A -> Z).

Lemma JS_insert_perm (x : A) (l : list A) :
  Permutation.Permutation (JS.insert cmp x l) (x :: l).
Proof.
  induction l as [|y l IH]; simpl; [apply Permutation.Permutation_refl|].
  destruct (0 <? cmp x y); [|apply Permutation.Permutation_refl].
  apply Permutation.perm_trans with (y :: x :: l);
    [apply Permutation.perm_skip; exact IH | apply Permutation.perm_swap].
Qed.

Lemma JS_sort_perm (l : list A) : Permutation.Permutation (JS.sort cmp l) l.
Proof.
  induction l as [|x l IH]; simpl; [constructor|].
  eapply Permutation.perm_trans; [apply JS_insert_perm|].
  apply Permutation.perm_skip; exact IH.
Qed.

Lemma JS_insert_Forall (P : A -> Prop) (x : A) (l : list A) :
  P x -> Forall P l -> Forall P (JS.insert cmp x l).
Proof.
  intros Hx Hl. induction Hl as [|y l Hy Hl IH]; simpl.
  - constructor; [assumption | constructor].
  - destruct (0 <? cmp x y); repeat constructor; assumption.
Qed.

Lemma JS_insert_descending (x : A) (l : list A) :
  (forall y, In y l -> (0 <? cmp x y) = (rank x <? rank y)%Z) ->
  Sorted.StronglySorted (fun a b => (rank b <= rank a)%Z) l ->
  Sorted.StronglySorted (fun a b => (rank b <= rank a)%Z) (JS.insert cmp x l).
Proof.
  intros Hcmp Hs. induction Hs as [|y l Hs IH Hy]; simpl.
  - repeat constructor.
  - rewrite (Hcmp y) by now left.
    destruct (Z.ltb_spec (rank x) (rank y)) as [Hlt|Hge].
    + constructor.
      * apply IH. intros z Hz. apply Hcmp. now right.
      * apply JS_insert_Forall; [lia | exact Hy].
    + constructor; [now constructor|].
      constructor; [exact Hge|].
      eapply Forall_impl; [|exact Hy]. cbv beta. intros z Hz. lia.
Qed.

Lemma JS_insert_filter (r : Z) (x : A) (l : list A) :
  (forall y, In y l -> (0 <? cmp x y) = (rank x <? rank y)%Z) ->
  filter (fun a => (rank a =? r)%Z) (JS.insert cmp x l)
  = filter (fun a => (rank a =? r)%Z) (x :: l).
Proof.
  intros Hcmp. induction l as [|y l IH]; [reflexivity|].
  cbn [JS.insert]. rewrite (Hcmp y) by now left.
  destruct (Z.ltb_spec (rank x) (rank y)) as [Hlt|Hge]; [|reflexivity].
  cbn [filter] in *. rewrite IH by (intros z Hz; apply Hcmp; now right).
  destruct (Z.eqb_spec (rank x) r), (Z.eqb_spec (rank y) r); try reflexivity; lia.
Qed.

(** With a comparison function that orders by rank, [JS.sort] gives the
    list in descending order of rank, equal ranks in their original
    order. *)
Lemma JS_sort_descending (l : list A) :
  ordersBy cmp rank l -> descending rank l (JS.sort cmp l).
Proof.
  induction l as [|x l IH]; intros Hc.
  - split; [constructor | reflexivity].
  - assert (Hl : ordersBy cmp rank l).
    { intros a b Ha Hb. apply Hc; now right. }
    destruct (IH Hl) as [Hs Hf].
    assert (Hx : forall y, In y (JS.sort cmp l) -> (0 <? cmp x y) = (rank x <? rank y)%Z).
    { intros y Hy. apply Hc; [now left|]. right.
      eapply Permutation.Permutation_in; [apply JS_sort_perm | exact Hy]. }
    split; cbn [JS.sort].
    + now apply JS_insert_descending.
    + intros r. rewrite JS_insert_filter by exact Hx. cbn [filter]. now rewrite Hf.
Qed.

Lemma filter_nonempty (r : Z) (x : A) (l : list A) :
  In x l -> rank x = r -> filter (fun a => (rank a =? r)%Z) l <> [].
Proof.
  intros Hin Hr H.
  assert (Hx : In x (filter (fun a => (rank a =? r)%Z) l)).
  { apply filter_In. split; [exact Hin | now apply Z.eqb_eq]. }
  rewrite H in Hx. destruct Hx.
Qed.

(** A list has one arrangement in descending order of rank that keeps
    the elements of equal rank in their order. *)
Lemma descending_unique (l s1 s2 : list A) :
  descending rank l s1 -> descending rank l s2 -> s1 = s2.
Proof.
  intros [H1 F1] [H2 F2].
  assert (F : forall r, filter (fun a => (rank a =? r)%Z) s1
                        = filter (fun a => (rank a =? r)%Z) s2).
  { intros r. now rewrite F1, F2. }
  clear F1 F2 l. revert s2 H2 F.
  induction H1 as [|a s1 H1 IH Ha]; intros s2 H2 F.
  - destruct s2 as [|b s2]; [reflexivity|]. exfalso.
    apply (filter_nonempty (rank b) b (b :: s2)); [now left | reflexivity|].
    now rewrite <- F.
  - destruct H2 as [|b s2 H2 Hb].
    + exfalso. apply (filter_nonempty (rank a) a (a :: s1)); [now left | reflexivity|].
      now rewrite F.
    + rewrite Forall_forall in Ha, Hb.
      assert (Hab : (rank a <= rank b)%Z).
      { assert (Hin : In a (filter (fun x => (rank x =? rank a)%Z) (b :: s2))).
        { rewrite <- F. cbn [filter]. rewrite Z.eqb_refl. now left. }
        apply filter_In in Hin as [[<-|Hin] He]; [lia|].
        apply Z.eqb_eq in He. specialize (Hb _ Hin). lia. }
      assert (Hba : (rank b <= rank a)%Z).
      { assert (Hin : In b (filter (fun x => (rank x =? rank b)%Z) (a :: s1))).
        { rewrite F. cbn [filter]. rewrite Z.eqb_refl. now left. }
        apply filter_In in Hin as [[<-|Hin] He]; [lia|].
        apply Z.eqb_eq in He. specialize (Ha _ Hin). lia. }
      assert (He : rank a = rank b) by lia.
      pose proof (F (rank a)) as Fa. cbn [filter] in Fa.
      rewrite <- He, Z.eqb_refl in Fa. injection Fa as <- Fa.
      f_equal. apply IH; [exact H2|].
      intros r. specialize (F r). cbn [filter] in F.
      destruct (Z.eqb_spec (rank a) r) as [Heq|Hne]; [subst r; exact Fa | exact F].
Qed.
End StableSort.

(** [JS.sort] is a sort as the language describes one. *)
Lemma JS_sort_permutes : Spec.permutes (fun A => @JS.sort A).
Proof. intros A cmp l. apply JS_sort_perm. Qed.

Lemma JS_sort_sortsStably : Spec.sortsStably (fun A => @JS.sort A).
Proof. intros A cmp rank l. apply JS_sort_descending. Qed.

(** ** The groups of the market page *)

Section Grouping.
Import MarketTrends.
Import Spec.

Lemma own_push (k key : string) (p : MarketPrice) (acc : Groups) :
  own k (push key p acc)
  = if String.eqb key k then option_map (fun rows => rows ++ [p]) (own k acc)
    else own k acc.
Proof.
  induction acc as [|[k' rows] acc IH]; cbn [push own].
  - now destruct (String.eqb key k).
  - destruct (String.eqb_spec k' key) as [->|Hne]; cbn [own].
    + destruct (String.eqb_spec key k) as [->|Hk]; [reflexivity|].
      reflexivity.
    + destruct (String.eqb_spec k' k) as [->|Hk].
      * destruct (String.eqb_spec key k) as [->|_]; [congruence | reflexivity].
      * exact IH.
Qed.

Lemma own_app (k key : string) (rows : list MarketPrice) (acc : Groups) :
  own k (acc ++ [(key, rows)])
  = match own k acc with
    | Some g => Some g
    | None => if String.eqb key k then Some rows else None
    end.
Proof.
  induction acc as [|[k' g] acc IH]; cbn [app own]; [reflexivity|].
  now destruct (String.eqb k' k).
Qed.

Lemma keys_push (key : string) (p : MarketPrice) (acc : Groups) :
  map fst (push key p acc) = map fst acc.
Proof.
  induction acc as [|[k' g] acc IH]; cbn [push map fst]; [reflexivity|].
  destruct (String.eqb k' key); cbn [map fst]; [reflexivity | now rewrite IH].
Qed.

Lemma own_None (k : string) (acc : Groups) :
  own k acc = None -> ~ In k (map fst acc).
Proof.
  induction acc as [|[k' g] acc IH]; cbn [own map fst]; [intros _ []|].
  destruct (String.eqb_spec k' k) as [->|Hne]; [discriminate|].
  intros H [Hk|Hin]; [congruence | now apply IH].
Qed.

Lemma own_In (k : string) (g : list MarketPrice) (acc : Groups) :
  NoDup (map fst acc) -> (In (k, g) acc <-> own k acc = Some g).
Proof.
  induction acc as [|[k' g'] acc IH]; cbn [own map fst In]; intros Hnd.
  - split; [intros [] | discriminate].
  - inversion Hnd as [|? ? Hk Hnd']; subst.
    destruct (String.eqb_spec k' k) as [->|Hne].
    + split.
      * intros [H|H]; [congruence|]. exfalso. apply Hk.
        change k with (fst (k, g)). now apply in_map.
      * intros H. left. congruence.
    + rewrite <- (IH Hnd'). split; [intros [H|H]; [congruence | exact H] | now right].
Qed.

Lemma rowsOf_snoc (k : string) (l : list MarketPrice) (p : MarketPrice) :
  rowsOf k (l ++ [p])
  = if String.eqb p.(crop_name) k then rowsOf k l ++ [p] else rowsOf k l.
Proof.
  unfold rowsOf. rewrite filter_app. cbn [filter].
  destruct (String.eqb (crop_name p) k); [reflexivity | apply app_nil_r].
Qed.

Lemma addPrice_grouped (seen : list MarketPrice) (acc : Groups) (p : MarketPrice) :
  grouped seen acc -> inherited p.(crop_name) = false ->
  exists acc', addPrice acc p = Some acc' /\ grouped (seen ++ [p]) acc'.
Proof.
  intros [Hnd Hown] Hord. unfold addPrice. cbv zeta.
  destruct (own (crop_name p) acc) as [rows|] eqn:Hk.
  - eexists. split; [reflexivity|]. split; [now rewrite keys_push|].
    intros k. rewrite own_push, rowsOf_snoc.
    destruct (String.eqb_spec (crop_name p) k) as [<-|Hne].
    + rewrite Hk. cbn [option_map]. rewrite Hown in Hk.
      destruct (rowsOf (crop_name p) seen) as [|r g]; [discriminate|].
      injection Hk as <-. reflexivity.
    + apply Hown.
  - rewrite Hord. eexists. split; [reflexivity|]. split.
    + rewrite map_app. cbn [map fst]. apply NoDup_app.
      * exact Hnd.
      * repeat constructor. intros [].
      * intros k Hin [<-|[]]. now apply (own_None _ _ Hk).
    + intros k. rewrite own_app, rowsOf_snoc.
      destruct (String.eqb_spec (crop_name p) k) as [<-|Hne].
      * rewrite Hk. rewrite Hown in Hk.
        destruct (rowsOf (crop_name p) seen) as [|r g]; [reflexivity | discriminate].
      * rewrite Hown. destruct (rowsOf k seen); reflexivity.
Qed.

Lemma addPrice_inherited (seen : list MarketPrice) (acc : Groups) (p : MarketPrice) :
  grouped seen acc -> ordinaryNames seen = true -> inherited p.(crop_name) = true ->
  addPrice acc p = None.
Proof.
  intros [_ Hown] Hseen Hinh. unfold addPrice. cbv zeta.
  rewrite Hown, Hinh.
  destruct (rowsOf (crop_name p) seen) as [|r g] eqn:Hr; [reflexivity|].
  exfalso. assert (Hin : In r (rowsOf (crop_name p) seen)) by (rewrite Hr; now left).
  apply filter_In in Hin as [Hin He]. apply String.eqb_eq in He.
  unfold ordinaryNames in Hseen. rewrite forallb_forall in Hseen.
  specialize (Hseen _ Hin). rewrite He, Hinh in Hseen. discriminate.
Qed.

Local Abbreviation step :=
  (fun (acc : option Groups) (price : MarketPrice) =>
     match acc with
     | Some acc => addPrice acc price
     | None => None
     end).

Lemma fold_thrown (l : list MarketPrice) : fold_left step l None = None.
Proof. induction l as [|p l IH]; [reflexivity | exact IH]. Qed.

Lemma fold_grouped (l : list MarketPrice) : forall seen acc,
  grouped seen acc -> ordinaryNames seen = true ->
  if ordinaryNames l
  then exists acc', fold_left step l (Some acc) = Some acc' /\ grouped (seen ++ l) acc'
  else fold_left step l (Some acc) = None.
Proof.
  induction l as [|p l IH]; intros seen acc Hg Hseen.
  - cbn. exists acc. rewrite app_nil_r. auto.
  - cbn [ordinaryNames forallb fold_left].
    destruct (inherited (crop_name p)) eqn:Hp; cbn [negb andb].
    + rewrite (addPrice_inherited seen acc p Hg Hseen Hp). apply fold_thrown.
    + destruct (addPrice_grouped seen acc p Hg Hp) as (acc' & -> & Hg').
      assert (Hseen' : ordinaryNames (seen ++ [p]) = true).
      { unfold ordinaryNames. rewrite forallb_app. fold (ordinaryNames seen).
        rewrite Hseen. cbn [forallb]. now rewrite Hp. }
      specialize (IH (seen ++ [p]) acc' Hg' Hseen').
      change (forallb _ l) with (ordinaryNames l).
      rewrite <- app_assoc in IH. exact IH.
Qed.

(** The grouping throws exactly when the fetch has a crop named like an
    inherited member; otherwise it holds, for each crop that has rows,
    those rows in the order of the fetch. *)
Lemma cropGroups_ordinary (prices : list MarketPrice) :
  ordinaryNames prices = true ->
  exists acc, cropGroups prices = Some acc /\ grouped prices acc.
Proof.
  intros H. pose proof (fold_grouped prices [] []) as Hf. rewrite H in Hf.
  apply Hf; [|reflexivity]. split; [constructor | reflexivity].
Qed.

Lemma cropGroups_throws (prices : list MarketPrice) :
  ordinaryNames prices = false -> cropGroups prices = None.
Proof.
  intros H. pose proof (fold_grouped prices [] []) as Hf. rewrite H in Hf.
  apply Hf; [|reflexivity]. split; [constructor | reflexivity].
Qed.

Lemma grouped_In (prices : list MarketPrice) (acc : Groups) (k : string)
    (g : list MarketPrice) :
  grouped prices acc -> (In (k, g) acc <-> g = rowsOf k prices /\ g <> []).
Proof.
  intros [Hnd Hown]. rewrite (own_In k g acc Hnd), Hown.
  destruct (rowsOf k prices) as [|r rows]; split.
  - discriminate.
  - intros [-> H]. congruence.
  - intros H. injection H as <-. split; [reflexivity | discriminate].
  - intros [-> _]. reflexivity.
Qed.

Lemma insertIndex_In (e e' : N * (string * list MarketPrice)) l :
  In e' (insertIndex e l) <-> e' = e \/ In e' l.
Proof.
  induction l as [|x l IH]; cbn [insertIndex In].
  - intuition congruence.
  - destruct (fst e <? fst x)%N; cbn [In]; [intuition congruence|].
    rewrite IH. intuition congruence.
Qed.

Lemma sorted_index_In (e : N * (string * list MarketPrice)) l :
  In e (fold_right insertIndex [] l) <-> In e l.
Proof.
  induction l as [|x l IH]; cbn [fold_right In]; [tauto|].
  rewrite insertIndex_In, IH. intuition congruence.
Qed.

(** [Object.entries] lists every group, once. *)
Lemma entries_In (kv : string * list MarketPrice) (acc : Groups) :
  In kv (entries acc) <-> In kv acc.
Proof.
  unfold entries, indexed, named. rewrite in_app_iff, in_map_iff, filter_In. split.
  - intros [([n kv'] & <- & Hin)|[Hin _]]; [|exact Hin].
    apply sorted_index_In, in_flat_map in Hin as (x & Hx & Hin).
    destruct (arrayIndex (fst x)); [|destruct Hin].
    destruct Hin as [Hin|[]]. injection Hin as _ <-. exact Hx.
  - intros Hin. destruct (arrayIndex (fst kv)) as [n|] eqn:Hi; [left | now right].
    exists (n, kv). split; [reflexivity|].
    apply sorted_index_In, in_flat_map. exists kv. split; [exact Hin|].
    rewrite Hi. now left.
Qed.
End Grouping.

Section TenPercent.
(** A price that is at least 10% above a mean of the normal range
    exceeds 1.05 times the mean, rounded as the page computes it. *)
Lemma ten_percent_above_exceeds (p m : JS.number) :
  (1e-300 <=? m) = true -> (m <=? 1e300) = true ->
  Spec.tenPercentAbove p m = true -> (m * 1.05 <? p) = true.
Proof.
  intros Hlo Hhi H. destruct (decode_in_range m Hlo Hhi) as (M & e & Hm & HM & He).
  destruct (mul_bracket m 1.05 M 4728779608739021 e (-52) Hm) as (m1 & e1 & H1 & B1 & L1 & V1);
    try reflexivity; try lia.
  unfold Spec.tenPercentAbove in H. rewrite Hm in H.
  rewrite ltb_spec, H1. unfold SFltb.
  pose proof (Prim2SF_valid p) as Hv.
  destruct (Prim2SF p) as [s|s| |s Mp ep]; try discriminate;
    destruct s; try discriminate; [reflexivity|].
  cbn [valid_binary] in Hv. unfold bounded, canonical_mantissa in Hv.
  apply andb_true_iff in Hv as [Hv _]. apply Z.eqb_eq in Hv.
  unfold fexp, emin, prec, emax in Hv.
  pose proof (digits2_bounds Mp) as HB.
  set (dp := Zpos (digits2_pos Mp)) in *.
  apply Z.leb_le in H.
  change (2 ^ 52)%Z with 4503599627370496%Z in *.
  change (2 ^ 53)%Z with 9007199254740992%Z in *.
  change (2 ^ (-52 + 53))%Z with 2%Z in V1.
  assert (Hep : (e <= ep)%Z).
  { destruct (Z.le_gt_cases e ep) as [Hle|Hgt]; [exact Hle | exfalso].
    rewrite Z.min_l in H by lia. rewrite Z.sub_diag in H. change (2 ^ 0)%Z with 1%Z in H.
    assert (Hpw : (2 ^ 1 <= 2 ^ (e - ep))%Z) by (apply Z.pow_le_mono_r; lia).
    change (2 ^ 1)%Z with 2%Z in Hpw.
    assert (Hd : (dp <= 53)%Z) by lia.
    assert (Hmp : (Zpos Mp < 2 ^ 53)%Z).
    { eapply Z.lt_le_trans; [apply HB | apply Z.pow_le_mono_r; lia]. }
    change (2 ^ 53)%Z with 9007199254740992%Z in Hmp.
    assert (Hmul : (11 * Zpos M * 2 <= 11 * Zpos M * 2 ^ (e - ep))%Z)
      by (apply Z.mul_le_mono_nonneg_l; lia).
    lia. }
  assert (Hd : dp = 53%Z) by lia.
  rewrite Hd in HB. change (2 ^ (53 - 1))%Z with 4503599627370496%Z in HB.
  change (2 ^ 53)%Z with 9007199254740992%Z in HB.
  rewrite Z.min_r in H by lia. rewrite Z.sub_diag in H. change (2 ^ 0)%Z with 1%Z in H.
  assert (Hlt : (Zpos m1 * 2 ^ (e1 - (e - 53)) < Zpos Mp * 2 ^ (ep - (e - 53)))%Z).
  { replace (ep - (e - 53))%Z with ((ep - e) + 53)%Z by lia.
    rewrite Z.pow_add_r by lia. change (2 ^ 53)%Z with 9007199254740992%Z.
    set (X := (Zpos Mp * 2 ^ (ep - e))%Z).
    assert (HX : (11 * Zpos M <= 10 * X)%Z) by (unfold X; lia).
    rewrite Z.mul_assoc. fold X. lia. }
  assert (E1 : (e - 53 <= ep)%Z) by lia.
  now rewrite (finite_lt m1 Mp e1 ep (e - 53)%Z B1 HB L1 E1 Hlt).
Qed.
End TenPercent.

(** ** Market trends *)

Section Trends.
Import MarketTrends.
Import Spec.
Variable parseDate : string -> option Z.
Variable sort : forall A : Type, (A -> A -> JS.number) -> list A -> list A.
(** Whatever the comparison function, the engine's sort returns the
    elements of the array. *)
Hypothesis sort_permutes : permutes sort.

Lemma fold_prices (l : list MarketPrice) : forall acc,
  fold_left (fun sum p => sum + p.(price_per_kg)) l acc
  = fold_left add (map price_per_kg l) acc.
Proof. induction l as [|p l IH]; intros acc; simpl; [reflexivity | apply IH]. Qed.

Lemma older_count (l : list MarketPrice) :
  l <> [] -> JS.Math_max 1 (JS.length (firstn 3 l)) = JS.length (map price_per_kg (firstn 3 l)).
Proof.
  destruct l as [|a [|b [|c l]]]; [congruence | | |]; intros _; vm_compute; reflexivity.
Qed.

(** A price that is not [NaN] compares like [price || 0]. *)
Lemma or_else_zero_gt (x p : JS.number) :
  is_nan p = false -> (x <? JS.or_else p 0) = (x <? p).
Proof.
  intros Hn. unfold JS.or_else, JS.truthy. rewrite Hn. cbn [orb].
  destruct (is_zero p) eqn:Hz; cbn [negb]; [|reflexivity].
  destruct (is_zero_decode _ Hz) as [s Hs].
  rewrite !ltb_spec, Hs. change (Prim2SF 0) with (S754_zero false).
  unfold SFltb. now rewrite (SFcompare_any_zero s).
Qed.

Lemma or_else_zero_lt (x p : JS.number) :
  is_nan p = false -> (JS.or_else p 0 <? x) = (p <? x).
Proof.
  intros Hn. unfold JS.or_else, JS.truthy. rewrite Hn. cbn [orb].
  destruct (is_zero p) eqn:Hz; cbn [negb]; [|reflexivity].
  destruct (is_zero_decode _ Hz) as [s Hs].
  rewrite !ltb_spec, Hs. change (Prim2SF 0) with (S754_zero false).
  unfold SFltb. now rewrite (SFcompare_zero_any s).
Qed.

Lemma ltb_asym (x y : JS.number) : (x <? y) = true -> (y <? x) = false.
Proof.
  intros H. destruct (y <? x) eqn:E; [|reflexivity].
  pose proof (ltb_trans _ _ _ H E) as C. apply ltb_compare in C.
  pose proof (SFcompare_sym _ _ _ C) as C'. simpl in C'. congruence.
Qed.

(** Sorting a single element calls no comparison function. *)
Lemma sort_singleton (A : Type) (cmp : A -> A -> JS.number) (x : A) :
  sort A cmp [x] = [x].
Proof.
  apply Permutation.Permutation_length_1_inv, Permutation.Permutation_sym, sort_permutes.
Qed.

(** Where no crop is named like an inherited member, the ranking has one
    entry for each crop that has rows, computed from those rows in the
    order of the fetch. *)
Lemma ranking_entries (prices : list MarketPrice) :
  ordinaryNames prices = true ->
  exists ranking,
    analyzeProfitability parseDate sort prices = Some ranking /\
    forall e, In e ranking <->
      exists name, rowsOf name prices <> [] /\
                   e = analyzeCrop parseDate sort name (rowsOf name prices).
Proof.
  intros Hord. destruct (cropGroups_ordinary prices Hord) as (acc & Hacc & Hg).
  unfold analyzeProfitability. rewrite Hacc. eexists. split; [reflexivity|].
  intros e. split.
  - intros He.
    apply (Permutation.Permutation_in _ (sort_permutes _ _ _)) in He.
    apply in_map_iff in He as ([k g] & <- & Hin).
    apply entries_In, (grouped_In prices acc k g Hg) in Hin as [-> Hne].
    exists k. split; [exact Hne | reflexivity].
  - intros (name & Hne & ->).
    apply (Permutation.Permutation_in _ (Permutation.Permutation_sym (sort_permutes _ _ _))).
    apply in_map_iff. exists (name, rowsOf name prices). split; [reflexivity|].
    apply entries_In, (grouped_In prices acc _ _ Hg). split; [reflexivity | exact Hne].
Qed.

Lemma ranking_of_crop (prices : list MarketPrice) (name : string) :
  ordinaryNames prices = true -> rowsOf name prices <> [] ->
  exists ranking,
    analyzeProfitability parseDate sort prices = Some ranking /\
    (exists e, In e ranking /\ e.(cropName) = name) /\
    (forall e, In e ranking -> e.(cropName) = name ->
       e = analyzeCrop parseDate sort name (rowsOf name prices)).
Proof.
  intros Hord Hne. destruct (ranking_entries prices Hord) as (ranking & Hr & Hin).
  exists ranking. split; [exact Hr|]. split.
  - exists (analyzeCrop parseDate sort name (rowsOf name prices)).
    split; [|reflexivity]. apply Hin. now exists name.
  - intros e He Hn. apply Hin in He as (k & _ & ->). cbn [analyzeCrop cropName] in Hn.
    now subst k.
Qed.

(** The analysis throws, and sets no ranking, exactly when some crop of
    the fetch is named like an inherited member. *)
Lemma analyzeProfitability_throws (prices : list MarketPrice) :
  analyzeProfitability parseDate sort prices = None <-> ordinaryNames prices = false.
Proof.
  unfold analyzeProfitability. destruct (ordinaryNames prices) eqn:Hord.
  - destruct (cropGroups_ordinary prices Hord) as (acc & -> & _).
    split; discriminate.
  - rewrite (cropGroups_throws prices Hord). split; reflexivity.
Qed.


(** With a comparison function that orders by a rank, the engine's sort
    is a stable sort by descending rank. *)
Hypothesis sort_stable : sortsStably sort.

Lemma timeClip_range (t t' : Z) :
  timeClip t = Some t' -> (- 8640000000000000 <= t' <= 8640000000000000)%Z.
Proof.
  unfold timeClip. destruct (Z.leb_spec (Z.abs t) 8640000000000000) as [Hle|Hgt];
    [|discriminate].
  intros E. injection E as <-. lia.
Qed.

Lemma getTime_range (s : string) (t : Z) :
  getTime parseDate s = Some t -> (- 8640000000000000 <= t <= 8640000000000000)%Z.
Proof.
  unfold getTime. destruct (parseDate s); [apply timeClip_range | discriminate].
Qed.

(** On rows whose dates are valid the comparison function of the sort
    orders by time, the newest first. *)
Lemma byDateDesc_ordersBy (group : list MarketPrice) :
  datesParse parseDate group = true ->
  ordersBy (byDateDesc parseDate) (timeOf parseDate) group.
Proof.
  unfold datesParse. rewrite forallb_forall. intros Hv a b Ha Hb.
  pose proof (Hv a Ha) as Va. pose proof (Hv b Hb) as Vb.
  unfold byDateDesc, timeOf.
  destruct (getTime parseDate (price_date a)) as [ta|] eqn:Ea; [|discriminate].
  destruct (getTime parseDate (price_date b)) as [tb|] eqn:Eb; [|discriminate].
  apply getTime_range in Ea, Eb.
  destruct (of_Z_sign (tb - ta)) as [-> ->]; [lia|].
  split.
  - destruct (Z.ltb_spec 0 (tb - ta)), (Z.ltb_spec ta tb); try reflexivity; lia.
  - destruct (Z.ltb_spec (tb - ta) 0), (Z.ltb_spec tb ta); try reflexivity; lia.
Qed.

(** The sort of a group whose dates are valid lists its rows by date,
    the newest first, rows of the same date in the order of the fetch. *)
Lemma sortedPrices_newestFirst (group newest : list MarketPrice) :
  datesParse parseDate group = true ->
  newestFirst parseDate group newest ->
  sortedPrices parseDate sort group = newest.
Proof.
  intros Hv Hn. unfold sortedPrices.
  apply (descending_unique (timeOf parseDate) group); [|exact Hn].
  apply sort_stable, byDateDesc_ordersBy, Hv.
Qed.

Lemma olderAvg_mean (cropPrices : list MarketPrice) latest prior :
  sortedPrices parseDate sort cropPrices = latest :: prior -> prior <> [] ->
  olderAvg parseDate sort cropPrices = mean (map price_per_kg (firstn 3 prior)).
Proof.
  intros Hs Hp. unfold olderAvg, mean, sumPrices, JS.slice. rewrite Hs.
  cbn [skipn Nat.sub]. now rewrite fold_prices, older_count.
Qed.


End Trends.




(** Four records of one crop, the latest at 110 where the three prior
    ones average 100: the trend is up.  The ranking lists the crops by
    score. *)
Example four_records_ten_percent_up :
  let prices :=
    [MarketTrends.mkMarketPrice "rice" 40 "Guntur" "2024-03-04";
     MarketTrends.mkMarketPrice "wheat" 100 "Kurnool" "2024-03-02";
     MarketTrends.mkMarketPrice "wheat" 110 "Guntur" "2024-03-04";
     MarketTrends.mkMarketPrice "wheat" 100 "Guntur" "2024-03-01";
     MarketTrends.mkMarketPrice "wheat" 100 "Guntur" "2024-03-03"] in
  option_map (map (fun e => (e.(MarketTrends.cropName), e.(MarketTrends.trend))))
    (MarketTrends.analyzeProfitability Spec.march2024 (fun A => @JS.sort A) prices)
  = Some [("wheat"%string, MarketTrends.up); ("rice"%string, MarketTrends.up)] /\
  MarketTrends.latestPrice Spec.march2024 (fun A => @JS.sort A) (Spec.rowsOf "wheat" prices)
  = 110 /\
  MarketTrends.olderAvg Spec.march2024 (fun A => @JS.sort A) (Spec.rowsOf "wheat" prices)
  = 100.
Proof. vm_compute. repeat split. Qed.


(** Why "10% above" is read on the exact quantities: 110 is 10% above
    100, and the rounded product [100 * 1.1] is just above 110. *)
Example ten_percent_above_100 :
  Spec.tenPercentAbove 110 100 = true /\
  (100 * 1.1 <=? 110) = false /\
  Spec.tenPercentAbove 109.99 100 = false.
Proof. vm_compute. repeat split. Qed.

(** A crop named like an inherited member has no trend, whatever its
    prices: the analysis throws. *)
Example four_records_named_toString :
  let prices :=
    [MarketTrends.mkMarketPrice "toString" 110 "Guntur" "2024-03-04";
     MarketTrends.mkMarketPrice "toString" 100 "Guntur" "2024-03-03";
     MarketTrends.mkMarketPrice "toString" 100 "Kurnool" "2024-03-02";
     MarketTrends.mkMarketPrice "toString" 100 "Guntur" "2024-03-01"] in
  MarketTrends.analyzeProfitability Spec.march2024 (fun A => @JS.sort A) prices = None.
Proof. reflexivity. Qed.

(** The keys that are array indices come first in the ranking's input,
    in ascending order. *)
Example entries_order :
  let row name := MarketTrends.mkMarketPrice name 10 "Guntur" "2024-03-01" in
  option_map (fun groups => map fst (MarketTrends.entries groups))
    (MarketTrends.cropGroups (map row ["wheat"; "10"; "rice"; "9"; "007"]%string))
  = Some ["9"; "10"; "wheat"; "rice"; "007"]%string.
Proof. reflexivity. Qed.

(** * Further properties of the pages

    ** Totality of the order away from [NaN], and clamping *)

Section Clamp.
Implicit Types x y lo hi : JS.number.

Lemma SFcompare_total (a b : spec_float) :
  a <> S754_nan -> b <> S754_nan -> exists c, SFcompare a b = Some c.
Proof.
  destruct a as [s|s| |s m e], b as [s'|s'| |s' m' e']; try congruence;
    intros _ _; cbn [SFcompare]; eauto.
Qed.

Lemma SFcompare_refl (a : spec_float) : a <> S754_nan -> SFcompare a a = Some Eq.
Proof.
  destruct a as [s|s| |s m e]; try congruence; intros _; cbn [SFcompare];
    try destruct s; try reflexivity;
    rewrite Z.compare_refl; change (Pos.compare_cont Eq m m) with (Pos.compare m m);
    rewrite Pos.compare_refl; reflexivity.
Qed.

Lemma is_nan_decode x : is_nan x = false <-> Prim2SF x <> S754_nan.
Proof.
  unfold is_nan. rewrite eqb_spec. unfold SFeqb. split.
  - intros H E. rewrite E in H. discriminate.
  - intros H. now rewrite (SFcompare_refl _ H).
Qed.

Lemma leb_refl x : is_nan x = false -> (x <=? x) = true.
Proof.
  intros H. apply leb_compare. right. apply SFcompare_refl. now apply is_nan_decode.
Qed.

Lemma ltb_leb x y : (x <? y) = true -> (x <=? y) = true.
Proof. intros H. apply leb_compare. left. now apply ltb_compare. Qed.

Lemma not_ltb_leb x y :
  is_nan x = false -> is_nan y = false -> (x <? y) = false -> (y <=? x) = true.
Proof.
  intros Hx Hy H. apply is_nan_decode in Hx, Hy.
  destruct (SFcompare_total _ _ Hx Hy) as [c Hc].
  apply leb_compare. rewrite (SFcompare_sym _ _ _ Hc).
  rewrite ltb_spec in H. unfold SFltb in H. rewrite Hc in H.
  destruct c; simpl; auto; discriminate.
Qed.

Lemma leb_not_nan x y : (x <=? y) = true -> is_nan x = false /\ is_nan y = false.
Proof.
  intros H. apply leb_compare in H.
  split; apply is_nan_decode; intros E; rewrite E in H;
    [| destruct (Prim2SF x)]; destruct H; discriminate.
Qed.

(** [Math.max(lo, Math.min(hi, x))] is between [lo] and [hi] for every
    number [x]. *)
Lemma clamp_bounds lo hi x :
  (lo <=? hi) = true -> is_nan x = false ->
  let c := JS.Math_max lo (JS.Math_min hi x) in
  (lo <=? c) = true /\ (c <=? hi) = true.
Proof.
  intros Hlh Hx. destruct (leb_not_nan _ _ Hlh) as [Hlo Hhi].
  assert (Hmin : exists r, JS.Math_min hi x = r /\ is_nan r = false /\ (r <=? hi) = true).
  { unfold JS.Math_min. rewrite Hhi, Hx. cbn [orb].
    destruct (hi <? x) eqn:E1; [exists hi; auto using leb_refl|].
    destruct (x <? hi) eqn:E2; [exists x; auto using ltb_leb|].
    destruct (is_zero hi && get_sign hi);
      [exists hi; auto using leb_refl | exists x; auto using not_ltb_leb]. }
  destruct Hmin as (r & -> & Hr & Hrh). cbv zeta.
  unfold JS.Math_max. rewrite Hlo, Hr. cbn [orb].
  destruct (lo <? r) eqn:E1; [auto using ltb_leb|].
  destruct (r <? lo) eqn:E2; [auto using leb_refl|].
  destruct (is_zero lo && get_sign lo); auto using leb_refl, not_ltb_leb.
Qed.
End Clamp.

(** ** Sums and products that are never [NaN] *)

Section NoNaN.
Local Open Scope Z_scope.

Lemma shr_nonneg (mrs : shr_record) (e n : Z) :
  0 <= shr_m mrs -> 0 <= shr_m (fst (shr mrs e n)).
Proof.
  intros H. destruct n as [|p|p]; cbn [shr fst]; try exact H.
  rewrite iter_shr_div by exact H. apply Z.div_pos; [exact H|].
  apply Z.pow_pos_nonneg; lia.
Qed.

Lemma binary_round_aux_not_nan (s : bool) (m E : Z) (l : location) :
  0 <= m -> binary_round_aux prec emax s m E l <> S754_nan.
Proof.
  intros Hm. unfold binary_round_aux, shr_fexp.
  pose proof (shr_nonneg (shr_record_of_loc m l) E
                (fexp prec emax (Zdigits2 m + E) - E)) as H1.
  rewrite shr_record_of_loc_m in H1. specialize (H1 Hm).
  destruct (shr (shr_record_of_loc m l) E _) as [mrs' e']. cbn [fst] in H1.
  set (q := round_nearest_even (shr_m mrs') (loc_of_shr_record mrs')).
  assert (Hq : 0 <= q).
  { unfold q. destruct (round_nearest_even_step (shr_m mrs') (loc_of_shr_record mrs')) as [->| ->]; lia. }
  pose proof (shr_nonneg (shr_record_of_loc q loc_Exact) e'
                (fexp prec emax (Zdigits2 q + e') - e')) as H2.
  rewrite shr_record_of_loc_m in H2. specialize (H2 Hq).
  destruct (shr (shr_record_of_loc q loc_Exact) e' _) as [mrs'' e'']. cbn [fst] in H2.
  destruct (shr_m mrs'') as [|p|p]; try lia; try discriminate.
  destruct (e'' <=? emax - prec); discriminate.
Qed.

Lemma binary_normalize_not_nan (m e : Z) : binary_normalize prec emax m e false <> S754_nan.
Proof.
  destruct m as [|p|p]; cbn [binary_normalize]; try discriminate;
    unfold binary_round; destruct (shl_align _ _ _) as [mz ez];
    apply binary_round_aux_not_nan; lia.
Qed.

(** The product of a number by a finite constant, and the sum of a finite
    constant and a number, are numbers. *)
Lemma mul_finite_not_nan (x c : JS.number) (sc : bool) (mc : positive) (ec : Z) :
  Prim2SF c = S754_finite sc mc ec -> is_nan x = false -> is_nan (x * c)%float = false.
Proof.
  intros Hc Hx. apply is_nan_decode. apply is_nan_decode in Hx.
  rewrite mul_spec, Hc. unfold SF64mul, SFmul.
  destruct (Prim2SF x) as [s|s| |s m e]; try congruence; try discriminate.
  apply binary_round_aux_not_nan. lia.
Qed.

Lemma add_finite_not_nan (c y : JS.number) (sc : bool) (mc : positive) (ec : Z) :
  Prim2SF c = S754_finite sc mc ec -> is_nan y = false -> is_nan (c + y)%float = false.
Proof.
  intros Hc Hy. apply is_nan_decode. apply is_nan_decode in Hy.
  rewrite add_spec, Hc. unfold SF64add, SFadd.
  destruct (Prim2SF y) as [s|s| |s m e]; try congruence; try discriminate.
  apply binary_normalize_not_nan.
Qed.
End NoNaN.

(** ** The prediction page *)

Section PredictionPage.
Import CropPrediction.
Import Spec.

(** X1. The risk level in terms of the four tests: high exactly when pH
    and temperature are both flagged, or one of them is and so are both
    humidity and rainfall; low exactly when neither pH nor temperature is
    flagged and humidity and rainfall are not both flagged; medium
    otherwise. *)
Theorem riskLevel_by_flags (d : SoilData) :
  let p := phFlag d in
  let t := temperatureFlag d in
  let h := humidityFlag d in
  let r := rainfallFlag d in
  (calculateRiskLevel d = high <-> (p && t) || ((p || t) && h && r) = true) /\
  (calculateRiskLevel d = low <-> negb p && negb t && negb (h && r) = true) /\
  (calculateRiskLevel d = medium <->
   negb ((p && t) || ((p || t) && h && r)) && (p || t || (h && r)) = true).
Proof.
  unfold calculateRiskLevel, riskScore, phFlag, temperatureFlag, humidityFlag, rainfallFlag.
  cbv zeta.
  destruct ((ph d <? 5.5) || (8.5 <? ph d)),
           ((35 <? temperature d) || (temperature d <? 10)),
           ((humidity d <? 30) || (90 <? humidity d)),
           ((rainfall d <? 50) || (300 <? rainfall d));
    vm_compute; repeat split; intros; congruence.
Qed.

(** X2. For every soil profile and every crop label the yield index is
    between 70 and 179. *)
Theorem calculateYield_range (data : SoilData) (name : string) :
  (70 <=? calculateYield data name) && (calculateYield data name <=? 179) = true.
Proof.
  unfold calculateYield. generalize (JS.toLowerCase name). intros lowered. cbv zeta.
  split_tests; vm_compute; reflexivity.
Qed.

Lemma lower_upper_ascii (c : ascii) : JS.lower_ascii (JS.upper_ascii c) = JS.lower_ascii c.
Proof. destruct c as [[] [] [] [] [] [] [] []]; reflexivity. Qed.

Lemma lower_lower_ascii (c : ascii) : JS.lower_ascii (JS.lower_ascii c) = JS.lower_ascii c.
Proof. destruct c as [[] [] [] [] [] [] [] []]; reflexivity. Qed.

Lemma toLowerCase_idempotent (s : string) :
  JS.toLowerCase (JS.toLowerCase s) = JS.toLowerCase s.
Proof.
  induction s as [|c s IH]; [reflexivity|].
  cbn [JS.toLowerCase]. now rewrite lower_lower_ascii, IH.
Qed.

Lemma toLowerCase_capitalize (s : string) :
  JS.toLowerCase (JS.capitalize s) = JS.toLowerCase s.
Proof.
  destruct s as [|c s]; [reflexivity|].
  cbn [JS.capitalize JS.toLowerCase]. now rewrite lower_upper_ascii.
Qed.

(** X3. The scorer reads a label through its lower-case form only: the
    yield index and the profitability index of a label, of its
    capitalised form (as the page displays it) and of its lower-case form
    are the same. *)
Theorem scores_ignore_case (data : SoilData) (name : string) (y : JS.number) :
  calculateYield data (JS.capitalize name) = calculateYield data name /\
  calculateYield data (JS.toLowerCase name) = calculateYield data name /\
  calculateProfitabilityIndex (JS.capitalize name) y = calculateProfitabilityIndex name y /\
  calculateProfitabilityIndex (JS.toLowerCase name) y = calculateProfitabilityIndex name y.
Proof.
  unfold calculateYield, calculateProfitabilityIndex.
  now rewrite toLowerCase_capitalize, toLowerCase_idempotent.
Qed.

(** X4. Between two soil profiles that agree on every field except pH,
    one with a pH in the favoured interval [6, 7.5] never has the smaller
    yield index, whatever the crop. *)
Theorem favoured_ph_yield (d1 d2 : SoilData) (name : string) :
  agree_except_ph d1 d2 ->
  (6 <=? d2.(ph)) && (d2.(ph) <=? 7.5) = true ->
  (calculateYield d1 name <=? calculateYield d2 name) = true.
Proof.
  intros (Ht & Hh & Hr & Hn & Hp & Hk) H.
  unfold calculateYield. generalize (JS.toLowerCase name). intros lowered. cbv zeta.
  rewrite Ht, Hh, Hr, Hn, Hp, Hk, H.
  split_tests; vm_compute; reflexivity.
Qed.

Lemma favoured_ph_yield_rice :
  (calculateYield (mkSoilData 25 65 5.0 120 40 25 30) "rice"
   <=? calculateYield (mkSoilData 25 65 6.5 120 40 25 30) "rice") = true.
Proof.
  apply favoured_ph_yield.
  - repeat split.
  - vm_compute. reflexivity.
Defined.

Lemma or_else_zero_number (x : JS.number) : is_nan (JS.or_else x 0) = false.
Proof.
  unfold JS.or_else, JS.truthy. destruct (is_nan x) eqn:E; cbn [orb negb]; [reflexivity|].
  destruct (is_zero x); cbn [negb]; [reflexivity | exact E].
Qed.

Lemma field_value_with_field (field other : Field) (v : JS.number) (prev : SoilData) :
  field_value other (with_field field v prev)
  = if Field_eq_dec other field then v else field_value other prev.
Proof.
  destruct field, other; cbn [field_value with_field temperature humidity ph rainfall
    nitrogen phosphorus potassium];
    match goal with |- context [Field_eq_dec ?a ?b] => destruct (Field_eq_dec a b) end;
    congruence.
Qed.

(** X5. An edit of the form stores in the edited field the number the
    text starts with, or 0 when there is none or when it is zero; the
    stored value is never [NaN]; and every other field keeps its value. *)
Theorem handleInputChange_field (parseFloat : string -> JS.number)
    (field : Field) (value : string) (prev : SoilData) :
  let next := handleInputChange parseFloat field value prev in
  field_value field next = JS.or_else (parseFloat value) 0 /\
  is_nan (field_value field next) = false /\
  (JS.truthy (parseFloat value) = false -> Prim2SF (field_value field next) = S754_zero false) /\
  (forall other, other <> field -> field_value other next = field_value other prev).
Proof.
  cbv zeta. unfold handleInputChange.
  assert (E : field_value field (with_field field (JS.or_else (parseFloat value) 0) prev)
              = JS.or_else (parseFloat value) 0).
  { rewrite field_value_with_field. now destruct (Field_eq_dec field field). }
  rewrite E. split; [reflexivity|]. split; [apply or_else_zero_number|]. split.
  - intros Hf. unfold JS.or_else. now rewrite Hf.
  - intros other Hne. rewrite field_value_with_field.
    now destruct (Field_eq_dec other field).
Qed.

(** X6. Whatever is typed into the form, no field of the state becomes
    [NaN]: a state of numbers stays one under any sequence of edits, and
    the state the form starts from is one. *)
Theorem edits_keep_numbers (parseFloat : string -> JS.number)
    (edits : list (Field * string)) (d : SoilData) :
  allNumbers d -> allNumbers (applyEdits parseFloat edits d).
Proof.
  unfold applyEdits. revert d.
  induction edits as [|[field value] edits IH]; intros d Hd; [exact Hd|].
  cbn [fold_left fst snd]. apply IH. intros other.
  unfold handleInputChange. rewrite field_value_with_field.
  destruct (Field_eq_dec other field); [apply or_else_zero_number | apply Hd].
Qed.

Lemma edits_keep_numbers_initial :
  allNumbers (applyEdits (fun _ => nan) [(phField, "abc"); (nitrogenField, "")]%string
                         initialSoilData).
Proof.
  apply edits_keep_numbers. intros []; reflexivity.
Defined.

(** X7. Whatever number [Math.random()] draws, the confidence score of a
    prediction is between 75 and 98. *)
Theorem confidenceScore_bounds (Math_pow : JS.number -> JS.number -> JS.number)
    (f : Fetched) (random : JS.number) (soilData : SoilData) :
  is_nan random = false ->
  let c := (predictCrop Math_pow f random soilData).(confidenceScore) in
  (75 <=? c) = true /\ (c <=? 98) = true.
Proof.
  intros Hr. cbn [predictCrop confidenceScore].
  apply clamp_bounds; [reflexivity|].
  apply (add_finite_not_nan 88 _ false 6192449487634432 (-46)%Z); [reflexivity|].
  apply (mul_finite_not_nan _ 10 false 5629499534213120 (-49)%Z); [reflexivity | exact Hr].
Qed.

Lemma confidenceScore_bounds_half :
  let c := (predictCrop (fun x _ => x * x) Rejected 0.5 initialSoilData).(confidenceScore) in
  (75 <=? c) = true /\ (c <=? 98) = true.
Proof.
  apply confidenceScore_bounds. reflexivity.
Defined.

(** X8. When the dataset cannot be obtained the page still shows a
    complete prediction: the crop is Wheat, Rice, Maize or Cotton, the
    yield index is between 70 and 179 and the profitability index between
    46 and 134. *)
Theorem predictCrop_offline (Math_pow : JS.number -> JS.number -> JS.number)
    (f : Fetched) (random : JS.number) (soilData : SoilData) :
  unavailable f = true ->
  let r := predictCrop Math_pow f random soilData in
  In r.(cropName) ["Wheat"; "Rice"; "Maize"; "Cotton"]%string /\
  (70 <=? r.(yieldPrediction)) && (r.(yieldPrediction) <=? 179) = true /\
  (46 <=? r.(profitabilityIndex_)) && (r.(profitabilityIndex_) <=? 134) = true.
Proof.
  intros Hf. cbn [predictCrop cropName yieldPrediction profitabilityIndex_].
  assert (E : predictCropWithML Math_pow f soilData = fallback soilData).
  { unfold predictCropWithML, tryML.
    destruct f as [|[[[|c l]|] [e|]]]; simpl in Hf; try discriminate; reflexivity. }
  rewrite E. split; [|split; [apply calculateYield_range|]].
  - destruct (fallback_closed soilData) as [<-|[<-|[<-|[<-|[]]]]]; simpl; auto.
  - unfold calculateProfitabilityIndex.
    destruct (fallback_closed soilData) as [<-|[<-|[<-|[<-|[]]]]];
      unfold calculateYield, baseProfitability; cbv zeta;
      repeat match goal with
      | |- context [String.eqb ?a ?b] =>
          let v := eval vm_compute in (String.eqb a b) in
          change (String.eqb a b) with v
      end; cbv beta iota;
      split_tests; vm_compute; reflexivity.
Qed.

Lemma predictCrop_offline_rejected :
  let r := predictCrop (fun x _ => x * x) Rejected 0.5 initialSoilData in
  In r.(cropName) ["Wheat"; "Rice"; "Maize"; "Cotton"]%string /\
  (70 <=? r.(yieldPrediction)) && (r.(yieldPrediction) <=? 179) = true /\
  (46 <=? r.(profitabilityIndex_)) && (r.(profitabilityIndex_) <=? 134) = true.
Proof.
  apply predictCrop_offline. reflexivity.
Defined.
End PredictionPage.

(** ** The profit analysis *)

Section ProfitAnalysis.
Import ProfitCalculator.

(** X9. The risk assessment and the opening recommendation agree: a
    projected loss is always assessed high; a high assessment always comes
    with the loss or the low-margin message; and the message of good
    profit potential never comes with a high assessment. *)
Theorem risk_matches_opening_advice (inputs : CropInputs) :
  let a := calculateProfit inputs in
  let opening := hd_error a.(recommendations) in
  let loss :=
    Text "Current projection shows losses. Consider cost optimization or crop change." in
  let lowMargin := Text "Low profit margins detected. Focus on reducing input costs." in
  let good := Text "Good profit potential identified for this crop selection." in
  (opening = Some loss \/ opening = Some lowMargin \/ opening = Some good) /\
  (opening = Some loss -> a.(riskAssessment) = high) /\
  (a.(riskAssessment) = high -> opening = Some loss \/ opening = Some lowMargin) /\
  (opening = Some good -> a.(riskAssessment) <> high).
Proof.
  cbv zeta. unfold calculateProfit. cbn [recommendations riskAssessment app hd_error].
  set (pm := if 0 <? _ then _ else 0).
  destruct (pm <? 0) eqn:E0.
  - assert (E10 : (pm <? 10) = true) by (apply ltb_trans with 0; [exact E0 | reflexivity]).
    rewrite E10. repeat split; auto; intros; congruence.
  - destruct (pm <? 15) eqn:E15.
    + repeat split; auto; intros; try congruence.
    + destruct (pm <? 10) eqn:E10.
      * assert (C : (pm <? 15) = true) by (apply ltb_trans with 10; [exact E10 | reflexivity]).
        congruence.
      * repeat split; auto; intros; try congruence;
          destruct (pm <? 25); congruence.
Qed.

(** X10. When the total revenue is zero (nothing sown, nothing
    harvested or nothing paid) the profit margin is 0, the assessment is
    high and the analysis opens with the low-margin message, whatever the
    costs. *)
Theorem zero_revenue_is_high_risk (inputs : CropInputs) :
  is_zero (calculateProfit inputs).(totalRevenue) = true ->
  (calculateProfit inputs).(profitMargin) = 0 /\
  (calculateProfit inputs).(riskAssessment) = high /\
  hd_error (calculateProfit inputs).(recommendations)
  = Some (Text "Low profit margins detected. Focus on reducing input costs.").
Proof.
  unfold calculateProfit. cbn [totalRevenue profitMargin riskAssessment recommendations].
  intros H. rewrite (zero_not_positive _ H). repeat split.
Qed.

Lemma zero_revenue_is_high_risk_unsown :
  let inputs := mkCropInputs "wheat" 0 20 2500 3000 8000 12000 5000 2000 in
  (calculateProfit inputs).(profitMargin) = 0 /\
  (calculateProfit inputs).(riskAssessment) = high /\
  hd_error (calculateProfit inputs).(recommendations)
  = Some (Text "Low profit margins detected. Focus on reducing input costs.").
Proof.
  apply zero_revenue_is_high_risk. vm_compute. reflexivity.
Defined.

(** X11. The analysis always carries between two and five
    recommendations, and the last one is the break-even yield it
    computed. *)
Theorem recommendations_shape (inputs : CropInputs) :
  let a := calculateProfit inputs in
  (2 <= List.length a.(recommendations) <= 5)%nat /\
  last a.(recommendations) (Text "") = BreakEvenYield a.(breakEvenPoint).
Proof.
  cbv zeta. unfold calculateProfit. cbn [recommendations breakEvenPoint].
  set (bep := if 0 <? sellingPrice inputs then _ else 0).
  set (first := if _ <? 0 then _ else _). clearbody first bep.
  split_tests; cbn [app List.length last]; split; (lia || reflexivity).
Qed.

(** X12. With a positive, finite selling price, positive total costs and
    an area of zero, the break-even yield is infinite. *)
Theorem breakEvenPoint_infinite_without_area (inputs : CropInputs) :
  (0 <? inputs.(sellingPrice)) = true ->
  (inputs.(sellingPrice) <? infinity) = true ->
  (0 <? (calculateProfit inputs).(totalCosts)) = true ->
  is_zero inputs.(areaInAcres) = true ->
  is_infinity (calculateProfit inputs).(breakEvenPoint) = true.
Proof.
  intros Hpos Hfin Hcost Hzero.
  destruct (breakEvenPoint_unguarded_area inputs Hpos Hfin Hzero) as [Hden ->].
  destruct (is_zero_decode _ Hden) as [s Hs].
  apply ltb_compare in Hcost. change (Prim2SF 0) with (S754_zero false) in Hcost.
  unfold is_infinity. rewrite eqb_spec, abs_spec, div_spec, Hs.
  change (Prim2SF infinity) with (S754_infinity false).
  destruct (Prim2SF (totalCosts (calculateProfit inputs))) as [sc|sc| |sc m e];
    try destruct sc; try discriminate; reflexivity.
Qed.

Lemma breakEvenPoint_infinite_without_area_default :
  is_infinity
    (calculateProfit (mkCropInputs "wheat" 0 20 2500 3000 8000 12000 5000 2000)).(breakEvenPoint)
  = true.
Proof.
  apply breakEvenPoint_infinite_without_area; vm_compute; reflexivity.
Defined.
End ProfitAnalysis.

(** ** The fertilizer page *)

Section FertilizerPage.
Import FertilizerRecommendation.
Import Spec.

(** X13. A soil with no deficiency (nitrogen at least 40, phosphorus at
    least 30, potassium at least 35, pH between 6 and 8, organic matter
    at least 3) gets the micronutrient baseline and nothing else. *)
Theorem plan_for_sufficient_soil (soilData : FertilizerData) :
  (40 <=? soilData.(nitrogen)) = true ->
  (30 <=? soilData.(phosphorus)) = true ->
  (35 <=? soilData.(potassium)) = true ->
  (6.0 <=? soilData.(ph)) && (soilData.(ph) <=? 8.0) = true ->
  (3.0 <=? soilData.(organicMatter)) = true ->
  generateRecommendations soilData = [micronutrientRec].
Proof.
  intros Hn Hp Hk Hph Ho. apply andb_true_iff in Hph as [Hlo Hhi].
  assert (Flip : forall a b, (a <=? b) = true -> (b <? a) = false).
  { intros a b H. destruct (b <? a) eqn:E; [|reflexivity].
    pose proof (ltb_leb_trans _ _ _ E H) as C. now rewrite ltb_irrefl in C. }
  unfold generateRecommendations, recs.
  rewrite (Flip _ _ Hn), (Flip _ _ Hp), (Flip _ _ Hk), (Flip _ _ Hlo), (Flip _ _ Hhi),
    (Flip _ _ Ho).
  reflexivity.
Qed.

Lemma plan_for_sufficient_soil_default :
  generateRecommendations (mkFertilizerData 45 35 40 6.5 3.5 "wheat") = [micronutrientRec].
Proof.
  apply plan_for_sufficient_soil; vm_compute; reflexivity.
Defined.

Lemma insert_before_baseline (x : Recommendation) (l : list Recommendation) :
  x.(priority) <> low ->
  JS.insert byPriority x (l ++ [micronutrientRec])
  = JS.insert byPriority x l ++ [micronutrientRec].
Proof.
  intros Hx. induction l as [|y l IH]; cbn [JS.insert app].
  - assert (E : (0 <? byPriority x micronutrientRec) = false).
    { unfold byPriority. destruct (priority x); try congruence; vm_compute; reflexivity. }
    now rewrite E.
  - destruct (0 <? byPriority x y); [now rewrite IH | reflexivity].
Qed.

Lemma sort_before_baseline (body : list Recommendation) :
  Forall (fun r => r.(priority) <> low) body ->
  JS.sort byPriority (body ++ [micronutrientRec])
  = JS.sort byPriority body ++ [micronutrientRec].
Proof.
  induction 1 as [|x body Hx Hb IH]; [reflexivity|].
  cbn [JS.sort app]. rewrite IH. now apply insert_before_baseline.
Qed.

(** The entries the rules push before the micronutrient mix. *)
Lemma recs_body (soilData : FertilizerData) :
  exists body,
    recs soilData = body ++ [micronutrientRec] /\
    Forall (fun r => r.(priority) <> low) body /\
    (List.length body <= 5)%nat /\
    ~ (In (limeRec soilData) body /\ In (gypsumRec soilData) body).
Proof.
  unfold recs.
  set (n := if nitrogen soilData <? 40 then [nitrogenRec soilData] else []).
  set (p := if phosphorus soilData <? 30 then [phosphorusRec soilData] else []).
  set (k := if potassium soilData <? 35 then [potassiumRec soilData] else []).
  set (a := if ph soilData <? 6.0 then [limeRec soilData]
            else if 8.0 <? ph soilData then [gypsumRec soilData] else []).
  set (o := if organicMatter soilData <? 3.0 then [compostRec] else []).
  exists (n ++ p ++ k ++ a ++ o). split; [now rewrite <- !app_assoc|].
  assert (Hn : Forall (fun r => priority r <> low) n /\ (List.length n <= 1)%nat).
  { unfold n. destruct (nitrogen soilData <? 40); split; repeat constructor.
    cbn [nitrogenRec priority]. destruct (nitrogen soilData <? 25); discriminate. }
  assert (Hp : Forall (fun r => priority r <> low) p /\ (List.length p <= 1)%nat).
  { unfold p. destruct (phosphorus soilData <? 30); split; repeat constructor.
    cbn [phosphorusRec priority]. destruct (phosphorus soilData <? 15); discriminate. }
  assert (Hk : Forall (fun r => priority r <> low) k /\ (List.length k <= 1)%nat).
  { unfold k. destruct (potassium soilData <? 35); split; repeat constructor.
    cbn [potassiumRec priority]. destruct (potassium soilData <? 20); discriminate. }
  assert (Ha : Forall (fun r => priority r <> low) a /\ (List.length a <= 1)%nat).
  { unfold a. destruct (ph soilData <? 6.0); [|destruct (8.0 <? ph soilData)];
      split; repeat constructor; discriminate. }
  assert (Ho : Forall (fun r => priority r <> low) o /\ (List.length o <= 1)%nat).
  { unfold o. destruct (organicMatter soilData <? 3.0); split; repeat constructor.
    discriminate. }
  split; [|split].
  - repeat (apply Forall_app; split); tauto.
  - rewrite !length_app. lia.
  - intros [Hl Hg].
    assert (Types : forall r, In r (n ++ p ++ k ++ a ++ o) ->
                      (r.(type) = "Lime Application"%string \/
                       r.(type) = "Gypsum Application"%string) -> In r a).
    { intros r Hr Ht. repeat (apply in_app_or in Hr as [Hr|Hr]); try exact Hr; exfalso.
      - unfold n in Hr. destruct (nitrogen soilData <? 40); [|destruct Hr].
        destruct Hr as [<-|[]]. destruct Ht; discriminate.
      - unfold p in Hr. destruct (phosphorus soilData <? 30); [|destruct Hr].
        destruct Hr as [<-|[]]. destruct Ht; discriminate.
      - unfold k in Hr. destruct (potassium soilData <? 35); [|destruct Hr].
        destruct Hr as [<-|[]]. destruct Ht; discriminate.
      - unfold o in Hr. destruct (organicMatter soilData <? 3.0); [|destruct Hr].
        destruct Hr as [<-|[]]. destruct Ht; discriminate. }
    apply Types in Hl; [|now left]. apply Types in Hg; [|now right].
    unfold a in Hl, Hg. destruct (ph soilData <? 6.0).
    + destruct Hg as [Hg|[]]. apply (f_equal type) in Hg. discriminate.
    + destruct (8.0 <? ph soilData); [|destruct Hl].
      destruct Hl as [Hl|[]]. apply (f_equal type) in Hl. discriminate.
Qed.

(** X14. For every input the micronutrient mix is the last entry of the
    plan and its only low-priority entry; there are at most five entries
    before it, so between one and six in all; and lime and gypsum are
    never both recommended. *)
Theorem plan_shape (soilData : FertilizerData) :
  exists front,
    generateRecommendations soilData = front ++ [micronutrientRec] /\
    Forall (fun r => r.(priority) <> low) front /\
    (List.length front <= 5)%nat /\
    ~ (In (limeRec soilData) front /\ In (gypsumRec soilData) front).
Proof.
  destruct (recs_body soilData) as (body & Hrecs & Hprio & Hlen & Hexcl).
  exists (JS.sort byPriority body).
  assert (Hperm := sort_perm body).
  unfold generateRecommendations. rewrite Hrecs. split; [now apply sort_before_baseline|].
  split; [|split].
  - apply Forall_forall. intros r Hr.
    apply (Permutation.Permutation_in _ Hperm) in Hr.
    revert r Hr. now apply Forall_forall.
  - now rewrite (Permutation.Permutation_length Hperm).
  - intros [Hl Hg]. apply Hexcl.
    split; eapply Permutation.Permutation_in; eauto.
Qed.

(** X15. The plan does not depend on the crop: changing the crop type
    of the form changes no recommendation. *)
Theorem plan_ignores_cropType (parseFloat : string -> JS.number)
    (crop : string) (soilData : FertilizerData) :
  generateRecommendations (handleInputChange parseFloat cropTypeField crop soilData)
  = generateRecommendations soilData.
Proof. reflexivity. Qed.

(** X16. The state the component starts from never holds a zero or a
    [NaN] as nitrogen, phosphorus, potassium or pH: a supplied value that
    is zero or not a number is replaced by the default (30, 20, 25 and
    6.5), any other supplied value is kept; and since the organic matter
    starts at 3.5 the plan generated from that state never recommends
    compost. *)
Theorem initialSoilData_defaults (predictedCrop : option string)
    (soilConditions : option SoilConditions) :
  let s := initialSoilData predictedCrop soilConditions in
  JS.truthy s.(nitrogen) = true /\ JS.truthy s.(phosphorus) = true /\
  JS.truthy s.(potassium) = true /\ JS.truthy s.(ph) = true /\
  (forall c, soilConditions = Some c ->
     s.(nitrogen) = (if JS.truthy c.(sc_nitrogen) then c.(sc_nitrogen) else 30) /\
     s.(phosphorus) = (if JS.truthy c.(sc_phosphorus) then c.(sc_phosphorus) else 20) /\
     s.(potassium) = (if JS.truthy c.(sc_potassium) then c.(sc_potassium) else 25) /\
     s.(ph) = (if JS.truthy c.(sc_ph) then c.(sc_ph) else 6.5)) /\
  s.(cropType) <> EmptyString /\
  ~ In compostRec (generateRecommendations s).
Proof.
  cbv zeta.
  assert (T : forall f d, JS.truthy d = true ->
                JS.truthy (supplied soilConditions f d) = true).
  { intros f d Hd. unfold supplied. destruct soilConditions as [c|]; [|exact Hd].
    unfold JS.or_else. destruct (JS.truthy (f c)) eqn:E; [exact E | exact Hd]. }
  cbn [initialSoilData nitrogen phosphorus potassium ph cropType].
  repeat (split; [apply T; reflexivity|]).
  split; [|split].
  - intros c ->. cbn [supplied]. unfold JS.or_else. repeat split.
  - destruct predictedCrop as [crop|]; [|discriminate].
    destruct (JS.toLowerCase crop); discriminate.
  - intros Hin.
    apply (Permutation.Permutation_in _ (sort_perm _)) in Hin.
    unfold recs in Hin. cbn [organicMatter initialSoilData] in Hin.
    change (3.5 <? 3.0) with false in Hin.
    repeat (apply in_app_or in Hin as [Hin|Hin]);
      repeat match type of Hin with
      | In _ (if ?b then _ else _) => destruct b
      end;
      repeat (destruct Hin as [Hin|Hin]; [apply (f_equal type) in Hin; discriminate|]);
      exact Hin.
Qed.
End FertilizerPage.

(** ** The rule-based prediction page *)

Section RulePage.
Import CropPrediction.
Import CropPredictionRules.

(** X17. The rule-based page names one of six crops, and its first three
    rules are those of the fallback of the dataset page: the fallback
    says wheat, rice or maize exactly when the rule page says Wheat, Rice
    or Corn, and cotton exactly when the rule page says Soybeans, Barley
    or Mixed Crops. *)
Theorem rules_agree_with_fallback (data : SoilData) :
  In (getPredictedCrop data)
     ["Wheat"; "Rice"; "Corn"; "Soybeans"; "Barley"; "Mixed Crops"]%string /\
  (fallback data = "wheat"%string <-> getPredictedCrop data = "Wheat"%string) /\
  (fallback data = "rice"%string <-> getPredictedCrop data = "Rice"%string) /\
  (fallback data = "maize"%string <-> getPredictedCrop data = "Corn"%string) /\
  (fallback data = "cotton"%string <->
   In (getPredictedCrop data) ["Soybeans"; "Barley"; "Mixed Crops"]%string).
Proof.
  unfold fallback, getPredictedCrop.
  destruct ((50 <? nitrogen data) && (30 <? phosphorus data) && (40 <? potassium data)),
           ((30 <? temperature data) && (70 <? humidity data) && (150 <? rainfall data)),
           ((6 <? ph data) && (ph data <? 7) && (35 <? potassium data)),
           ((45 <? nitrogen data) && (6.5 <? ph data)),
           ((temperature data <? 25) && (40 <? nitrogen data));
    cbn [In]; repeat split; intros; try discriminate; try tauto;
    repeat match goal with H : _ \/ _ |- _ => destruct H end;
    try discriminate; try contradiction.
Qed.

(** X18. For every soil profile the yield index of the rule-based page
    is between 48 and 152. *)
Theorem rule_yield_range (data : SoilData) :
  (48 <=? CropPredictionRules.calculateYield data)
  && (CropPredictionRules.calculateYield data <=? 152) = true.
Proof.
  unfold CropPredictionRules.calculateYield. cbv zeta.
  split_tests; vm_compute; reflexivity.
Qed.

(** X19. Whatever number [Math.random()] draws, the confidence score of
    the rule-based page is between 65 and 95. *)
Theorem rule_confidence_bounds (random : JS.number) (soilData : SoilData) :
  is_nan random = false ->
  let c := (CropPredictionRules.predictCrop random soilData).(CropPredictionRules.confidenceScore) in
  (65 <=? c) = true /\ (c <=? 95) = true.
Proof.
  intros Hr. cbn [CropPredictionRules.predictCrop CropPredictionRules.confidenceScore].
  apply clamp_bounds; [reflexivity|].
  apply (add_finite_not_nan 85 _ false 5981343255101440 (-46)%Z); [reflexivity|].
  apply (mul_finite_not_nan _ 10 false 5629499534213120 (-49)%Z); [reflexivity | exact Hr].
Qed.

Lemma rule_confidence_bounds_half :
  let c := (CropPredictionRules.predictCrop 0.5 initialSoilData).(CropPredictionRules.confidenceScore) in
  (65 <=? c) = true /\ (c <=? 95) = true.
Proof.
  apply rule_confidence_bounds. reflexivity.
Defined.

(** X20. The fertilizer form the rule-based page opens for a prediction
    starts with the predicted label in lower case as its crop type, and
    with the nitrogen, phosphorus, potassium and pH of the soil form, a
    zero being replaced by the default. *)
Theorem fertilizer_form_from_prediction (random : JS.number) (soilData : SoilData) :
  let props := fertilizerProps (CropPredictionRules.predictCrop random soilData) soilData in
  let s := FertilizerRecommendation.initialSoilData (fst props) (snd props) in
  s.(FertilizerRecommendation.cropType) = JS.toLowerCase (getPredictedCrop soilData) /\
  In s.(FertilizerRecommendation.cropType)
     ["wheat"; "rice"; "corn"; "soybeans"; "barley"; "mixed crops"]%string /\
  s.(FertilizerRecommendation.nitrogen) = JS.or_else soilData.(nitrogen) 30 /\
  s.(FertilizerRecommendation.phosphorus) = JS.or_else soilData.(phosphorus) 20 /\
  s.(FertilizerRecommendation.potassium) = JS.or_else soilData.(potassium) 25 /\
  s.(FertilizerRecommendation.ph) = JS.or_else soilData.(ph) 6.5.
Proof.
  cbv zeta.
  cbn [fertilizerProps fst snd CropPredictionRules.predictCrop CropPredictionRules.crop
       FertilizerRecommendation.initialSoilData FertilizerRecommendation.cropType
       FertilizerRecommendation.nitrogen FertilizerRecommendation.phosphorus
       FertilizerRecommendation.potassium FertilizerRecommendation.ph
       FertilizerRecommendation.supplied FertilizerRecommendation.sc_nitrogen
       FertilizerRecommendation.sc_phosphorus FertilizerRecommendation.sc_potassium
       FertilizerRecommendation.sc_ph].
  destruct (rules_agree_with_fallback soilData) as [Hin _].
  repeat (destruct Hin as [<-|Hin]; [cbn; repeat split; auto 10|]). destruct Hin.
Qed.
End RulePage.

(** ** The market page *)

Section MarketPage.
Import MarketTrends.
Import Spec.
Variable parseDate : string -> option Z.
Variable sort : forall A : Type, (A -> A -> JS.number) -> list A -> list A.
Hypothesis sort_stable : sortsStably sort.

Lemma slice_of_newest (l : list MarketPrice) : JS.slice 1 4 l = skipn 1 (firstn 4 l).
Proof. unfold JS.slice. destruct l; reflexivity. Qed.

(** X21. The trend of a crop reads its four most recent records and
    nothing else: two groups with valid dates whose four newest rows are
    the same have the same trend. *)
Theorem trend_reads_four_newest (g1 g2 n1 n2 : list MarketPrice) :
  datesParse parseDate g1 = true -> datesParse parseDate g2 = true ->
  newestFirst parseDate g1 n1 -> newestFirst parseDate g2 n2 ->
  firstn 4 n1 = firstn 4 n2 ->
  trendOf parseDate sort g1 = trendOf parseDate sort g2.
Proof.
  intros V1 V2 N1 N2 H.
  rewrite <- (sortedPrices_newestFirst parseDate sort sort_stable _ _ V1 N1),
    <- (sortedPrices_newestFirst parseDate sort sort_stable _ _ V2 N2) in H.
  assert (Hl : latestPrice parseDate sort g1 = latestPrice parseDate sort g2).
  { unfold latestPrice.
    destruct (sortedPrices parseDate sort g1) as [|a s1],
             (sortedPrices parseDate sort g2) as [|b s2];
      cbn [firstn] in H; try discriminate; [reflexivity|]. now injection H as -> _. }
  assert (Ho : olderAvg parseDate sort g1 = olderAvg parseDate sort g2).
  { unfold olderAvg. now rewrite !slice_of_newest, H. }
  unfold trendOf. now rewrite Hl, Ho.
Qed.
End MarketPage.

Lemma trend_reads_four_newest_history :
  let recent :=
    [MarketTrends.mkMarketPrice "wheat" 11 "Guntur" "2024-03-04";
     MarketTrends.mkMarketPrice "wheat" 9 "Guntur" "2024-03-03";
     MarketTrends.mkMarketPrice "wheat" 10 "Kurnool" "2024-03-02";
     MarketTrends.mkMarketPrice "wheat" 11 "Guntur" "2024-03-02"] in
  MarketTrends.trendOf Spec.march2024 (fun A => @JS.sort A)
    (MarketTrends.mkMarketPrice "wheat" 40 "Guntur" "2024-03-01" :: recent)
  = MarketTrends.trendOf Spec.march2024 (fun A => @JS.sort A)
      (recent ++ [MarketTrends.mkMarketPrice "wheat" 2 "Kurnool" "2024-03-01"]).
Proof.
  intros recent.
  apply (trend_reads_four_newest Spec.march2024 (fun A => @JS.sort A) JS_sort_sortsStably
           _ _
           (recent ++ [MarketTrends.mkMarketPrice "wheat" 40 "Guntur" "2024-03-01"])
           (recent ++ [MarketTrends.mkMarketPrice "wheat" 2 "Kurnool" "2024-03-01"])).
  - reflexivity.
  - reflexivity.
  - split.
    + repeat constructor; vm_compute; discriminate.
    + intros t. cbn -[Z.eqb].
      repeat match goal with
             | |- context [ Z.eqb ?a t ] => destruct (Z.eqb_spec a t)
             end; try reflexivity; lia.
  - split.
    + repeat constructor; vm_compute; discriminate.
    + intros t. reflexivity.
  - reflexivity.
Defined.

(** ** The weather page *)

Section WeatherPage.
Import WeatherForecast.

Lemma filter_length_le {A} (p : A -> bool) (l : list A) :
  (List.length (filter p l) <= List.length l)%nat.
Proof.
  induction l as [|x l IH]; cbn [filter List.length]; [lia|].
  destruct (p x); cbn [List.length]; lia.
Qed.

Lemma filter_disjoint_length {A} (p q : A -> bool) (l : list A) :
  (forall x, p x = true -> q x = false) ->
  (List.length (filter p l) + List.length (filter q l) <= List.length l)%nat.
Proof.
  intros D. induction l as [|x l IH]; cbn [filter List.length]; [lia|].
  destruct (p x) eqn:P; [rewrite (D _ P) | destruct (q x)]; cbn [List.length]; lia.
Qed.

Lemma heavy_not_dry (day : WeatherData) : heavyRainDay day = true -> dryDay day = false.
Proof.
  unfold heavyRainDay, dryDay. intros H.
  destruct (rainfall day <? 1) eqn:E; [|reflexivity].
  pose proof (ltb_trans _ _ _ H E) as C. vm_compute in C. discriminate.
Qed.

Lemma good_not_heavy_nor_hot (day : WeatherData) :
  goodDay day = true -> heavyRainDay day = false /\ hotDay day = false.
Proof.
  unfold goodDay, heavyRainDay, hotDay. intros H.
  apply andb_true_iff in H as [H _]. apply andb_true_iff in H as [H Hrain].
  apply andb_true_iff in H as [Hmax _]. split.
  - destruct (10 <? rainfall day) eqn:E; [|reflexivity].
    pose proof (ltb_trans _ _ _ E Hrain) as C. vm_compute in C. discriminate.
  - destruct (35 <? max (temperature day)) eqn:E; [|reflexivity].
    pose proof (ltb_leb_trans _ _ _ E Hmax) as C. vm_compute in C. discriminate.
Qed.

(** X22. A short forecast cannot raise the alerts that count days: with
    fewer than three days there is no alert of optimal conditions, with
    fewer than five no alert of a dry period, and an empty forecast
    raises no alert at all.  There are never more than four alerts. *)
Theorem alerts_of_short_forecasts (forecast : list WeatherData) :
  generateFarmingAlerts [] = [] /\
  (List.length (generateFarmingAlerts forecast) <= 4)%nat /\
  ((List.length forecast < 3)%nat ->
   forall a, In a (generateFarmingAlerts forecast) -> a.(type) = warning) /\
  ((List.length forecast < 5)%nat ->
   forall a, In a (generateFarmingAlerts forecast) -> a.(type) <> info).
Proof.
  split; [reflexivity|].
  pose proof (filter_length_le goodDay forecast) as Hg.
  pose proof (filter_length_le dryDay forecast) as Hd.
  unfold generateFarmingAlerts. cbv zeta.
  destruct (0 <? List.length (filter heavyRainDay forecast))%nat,
           (0 <? List.length (filter hotDay forecast))%nat,
           (Nat.leb_spec 3 (List.length (filter goodDay forecast))),
           (Nat.leb_spec 5 (List.length (filter dryDay forecast)));
    cbn [app List.length]; (split; [lia|]); split; intros Hlen a Hin; try lia;
    cbn [In] in Hin;
    repeat (destruct Hin as [<-|Hin]; [cbn [type]; congruence|]); destruct Hin.
Qed.

(** X23. When every day of the forecast is a day of optimal conditions,
    no warning is raised. *)
Theorem no_warning_in_optimal_weather (forecast : list WeatherData) :
  Forall (fun day => goodDay day = true) forecast ->
  Forall (fun a => a.(type) <> warning) (generateFarmingAlerts forecast).
Proof.
  intros Hall.
  assert (Hh : filter heavyRainDay forecast = [] /\ filter hotDay forecast = []).
  { induction Hall as [|day l Hday _ [IH1 IH2]]; [split; reflexivity|].
    destruct (good_not_heavy_nor_hot _ Hday) as [E1 E2].
    cbn [filter]. rewrite E1, E2. auto. }
  destruct Hh as [E1 E2]. unfold generateFarmingAlerts. cbv zeta. rewrite E1, E2.
  change (0 <? List.length (@nil WeatherData))%nat with false. cbv iota.
  destruct (3 <=? List.length (filter goodDay forecast))%nat,
           (5 <=? List.length (filter dryDay forecast))%nat;
    cbn [app]; repeat constructor; cbn [type]; congruence.
Qed.

Lemma no_warning_in_optimal_weather_week :
  let day := mkWeatherData "2024-03-01" (mkTemperature 18 28) 60 0 10 sunny 5 in
  Forall (fun a => a.(type) <> warning) (generateFarmingAlerts [day; day; day]).
Proof.
  intros day. apply no_warning_in_optimal_weather.
  repeat constructor.
Defined.

(** X24. Heavy rain and drought exclude each other: when fewer than five
    days of the forecast are without heavy rain, as with three days of
    heavy rain in a week, no alert of a dry period is raised. *)
Theorem heavy_rain_excludes_dry_period (forecast : list WeatherData) :
  (List.length forecast < List.length (filter heavyRainDay forecast) + 5)%nat ->
  Forall (fun a => a.(type) <> info) (generateFarmingAlerts forecast).
Proof.
  intros Hlen.
  pose proof (filter_disjoint_length heavyRainDay dryDay forecast heavy_not_dry) as Hd.
  unfold generateFarmingAlerts. cbv zeta.
  destruct (Nat.leb_spec 5 (List.length (filter dryDay forecast))); [lia|].
  destruct (0 <? List.length (filter heavyRainDay forecast))%nat,
           (0 <? List.length (filter hotDay forecast))%nat,
           (3 <=? List.length (filter goodDay forecast))%nat;
    cbn [app]; repeat constructor; cbn [type]; congruence.
Qed.

Lemma heavy_rain_excludes_dry_period_week :
  let wet := mkWeatherData "2024-07-01" (mkTemperature 22 29) 85 24 12 rainy 3 in
  let dry := mkWeatherData "2024-07-02" (mkTemperature 22 31) 55 0 8 sunny 8 in
  Forall (fun a => a.(type) <> info)
         (generateFarmingAlerts [wet; dry; wet; dry; wet; dry; dry]).
Proof.
  intros wet dry. apply heavy_rain_excludes_dry_period. vm_compute. lia.
Defined.
End WeatherPage.

(** ** Translations *)

Section Translations.
Import I18n.
Import Spec.

Lemma member_In (k : string) (fields : list (string * Node)) (v : Node) :
  member k fields = Some v -> In (k, v) fields.
Proof.
  induction fields as [|[k' v'] fields IH]; cbn [member]; [discriminate|].
  destruct (String.eqb_spec k k') as [->|_].
  - intros [= ->]. now left.
  - intros H. right. now apply IH.
Qed.

Lemma walk_texts (keys : list string) : forall (value : Node) (s : string),
  walk keys value = Some (Text s) -> In s (texts value).
Proof.
  induction keys as [|k keys IH]; intros value s; cbn [walk].
  - intros [= ->]. now left.
  - destruct value as [t|fields]; [discriminate|].
    destruct (member k fields) as [v|] eqn:Hm; [|discriminate].
    intros Hw. cbn [texts]. apply in_flat_map. exists (k, v).
    split; [now apply member_In | now apply IH].
Qed.

(** X25. A translation is either a string of the table of the language,
    when the key leads to one, or the key itself: an unknown key, a key
    that names a section and a key that runs past a string all come back
    unchanged. *)
Theorem getTranslation_or_key (language : Language) (key : string) :
  (resolves language key = true ->
   In (getTranslation language key) (texts (translations language))) /\
  (resolves language key = false -> getTranslation language key = key).
Proof.
  unfold resolves, getTranslation. cbv zeta.
  destruct (walk (JS.split "." key) (translations language)) as [[s|fields]|] eqn:Hw;
    split; intros H; try discriminate; try reflexivity.
  now apply walk_texts with (JS.split "." key).
Qed.

Lemma member_shape (k : string) (fields : list (string * Node)) :
  member k (map (fun kv => (fst kv, shape (snd kv))) fields)
  = option_map shape (member k fields).
Proof.
  induction fields as [|[k' v'] fields IH]; [reflexivity|].
  cbn [map member fst snd]. destruct (String.eqb k k'); [reflexivity | exact IH].
Qed.

Lemma walk_shape (keys : list string) : forall value : Node,
  walk keys (shape value) = option_map shape (walk keys value).
Proof.
  induction keys as [|k keys IH]; intros value; [reflexivity|].
  destruct value as [t|fields]; [reflexivity|].
  cbn [shape walk]. rewrite member_shape.
  destruct (member k fields) as [v|]; [apply IH | reflexivity].
Qed.

Lemma resolves_by_shape (l1 l2 : Language) (key : string) :
  shape (translations l1) = shape (translations l2) ->
  resolves l1 key = resolves l2 key.
Proof.
  intros H. unfold resolves.
  pose proof (walk_shape (JS.split "." key) (translations l1)) as H1.
  pose proof (walk_shape (JS.split "." key) (translations l2)) as H2.
  rewrite H, H2 in H1.
  destruct (walk _ (translations l1)) as [[|]|], (walk _ (translations l2)) as [[|]|];
    cbn in H1; congruence.
Qed.

(** X26. The three languages have the same keys: a key leads to a
    string in Hindi, and in Telugu, exactly when it does in English, so
    no page shows a raw key in one language and a text in another. *)
Theorem languages_share_keys (key : string) (l1 l2 : Language) :
  resolves l1 key = resolves l2 key.
Proof.
  apply resolves_by_shape. destruct l1, l2; vm_compute; reflexivity.
Qed.
End Translations.

(** ** Navigation *)

Section Routing.
Import Index.

(** X27. The index page shows the home page for every tab other than
    prediction, weather, profit and market.  Each tab the home page
    navigates to has a page of its own; of the items of the navigation
    bar, fertilizer has none and shows the home page. *)
Theorem renderContent_routes (activeTab : string) :
  (renderContent activeTab = homePage <->
   ~ In activeTab ["prediction"; "weather"; "profit"; "market"]%string) /\
  map renderContent homeTargets
  = [cropPredictionPage; weatherForecastPage; profitCalculatorPage] /\
  map renderContent navItems
  = [homePage; cropPredictionPage; homePage; marketTrendsPage].
Proof.
  split; [|split; reflexivity].
  unfold renderContent. cbn [In].
  destruct (String.eqb_spec activeTab "home") as [->|_].
  - split; [intros _ [H|[H|[H|[H|[]]]]]; discriminate | reflexivity].
  - destruct (String.eqb_spec activeTab "prediction") as [->|N1]; [split; [discriminate | tauto]|].
    destruct (String.eqb_spec activeTab "weather") as [->|N2]; [split; [discriminate | tauto]|].
    destruct (String.eqb_spec activeTab "profit") as [->|N3]; [split; [discriminate | tauto]|].
    destruct (String.eqb_spec activeTab "market") as [->|N4]; [split; [discriminate | tauto]|].
    split; [|reflexivity]. intros _ [H|[H|[H|[H|[]]]]]; congruence.
Qed.
End Routing.

(** ** Default scores and guarded rates *)

Section Defaults.
Import CropPrediction.

(** X28. A crop that is missing from the table of base scores is scored
    from the default 60 with no crop-specific yield bonus: its yield index
    is 70, 100 or 115, its profitability index 42, 60 or 69, and the page
    never shows that index in the success colour. *)
Theorem unlisted_crop_scores (data : SoilData) (name : string) :
  existsb (String.eqb (JS.toLowerCase name))
          ["rice"; "wheat"; "maize"; "cotton"; "constructor"; "__proto__"]%string = false ->
  In (calculateYield data name) [70; 100; 115] /\
  In (profitabilityIndex data name) [42; 60; 69] /\
  getProfitabilityColor (profitabilityIndex data name) <> "text-success"%string.
Proof.
  cbn [existsb]. intros H.
  repeat (apply orb_false_iff in H as [? H]).
  unfold profitabilityIndex, calculateProfitabilityIndex, baseProfitability,
    calculateYield, getProfitabilityColor.
  cbv zeta.
  repeat match goal with
  | E : String.eqb _ _ = false |- _ => rewrite E; clear E
  end.
  cbn [orb].
  destruct ((6 <=? ph data) && (ph data <=? 7.5)); [|destruct ((ph data <? 5.5) || (8 <? ph data))];
    vm_compute; repeat split; auto; discriminate.
Qed.

Lemma unlisted_crop_scores_barley :
  let data := mkSoilData 25 65 6.5 120 40 25 30 in
  In (calculateYield data "Barley") [70; 100; 115] /\
  In (profitabilityIndex data "Barley") [42; 60; 69] /\
  getProfitabilityColor (profitabilityIndex data "Barley") <> "text-success"%string.
Proof.
  apply unlisted_crop_scores. reflexivity.
Defined.
End Defaults.

Section GuardedRates.
Import ProfitCalculator.

(** X30. The rates whose guard tests their own denominator never divide
    by zero: the profit margin is 0 when the total revenue is zero, the
    ROI is 0 when the total costs are zero, the profit per acre is 0 when
    the area is zero, and the break-even yield is 0 when the selling price
    is zero. *)
Theorem guarded_rates (inputs : CropInputs) :
  let a := calculateProfit inputs in
  (is_zero a.(totalRevenue) = true -> a.(profitMargin) = 0) /\
  (is_zero a.(totalCosts) = true -> a.(roiPercentage) = 0) /\
  (is_zero inputs.(areaInAcres) = true -> a.(profitPerAcre) = 0) /\
  (is_zero inputs.(sellingPrice) = true -> a.(breakEvenPoint) = 0).
Proof.
  cbv zeta. repeat split.
  - apply profitMargin_guarded.
  - apply roiPercentage_guarded.
  - apply profitPerAcre_guarded.
  - intros H. apply breakEvenPoint_guarded_price. now apply zero_not_positive.
Qed.
End GuardedRates.

Section IndexBounds.
Import CropPrediction.

(** X29. For every soil profile and every crop label the profitability
    index is between 42 and 134, except for the two labels that name an
    inherited member of the table object (constructor and __proto__ in any
    letter case), for which it is [NaN]. *)
Theorem profitabilityIndex_bounds (data : SoilData) (name : string) :
  let inherited :=
    String.eqb (JS.toLowerCase name) "constructor"
    || String.eqb (JS.toLowerCase name) "__proto__" in
  (inherited = false ->
   (42 <=? profitabilityIndex data name) && (profitabilityIndex data name <=? 134) = true) /\
  (inherited = true -> is_nan (profitabilityIndex data name) = true).
Proof.
  cbv zeta.
  unfold profitabilityIndex, calculateProfitabilityIndex, calculateYield, baseProfitability.
  generalize (JS.toLowerCase name). intros lowered. cbv zeta.
  destruct (String.eqb_spec lowered "rice") as [->|_];
    [|destruct (String.eqb_spec lowered "wheat") as [->|_];
      [|destruct (String.eqb_spec lowered "maize") as [->|_];
        [|destruct (String.eqb_spec lowered "cotton") as [->|_]]]];
    cbn [String.eqb Ascii.eqb Bool.eqb orb andb];
    try (destruct (String.eqb lowered "constructor" || String.eqb lowered "__proto__"));
    split; intros H; try discriminate;
    split_tests; vm_compute; reflexivity.
Qed.
End IndexBounds.
